(** * A shallow embedding of the unified database facade

    The development follows the TypeScript sources: [types.ts] (the status
    enumeration and the result envelope), [mongo/index.ts] (adapter A),
    [firebase/index.ts] (adapter B) and [index.ts] (the [DB] facade).

    Methods are computations in a state-and-exception monad over a [World]:
    the object the method runs on ([this]), the process-wide SDK registry
    ([admin.apps]), and two observation channels, the calls made on the
    underlying client and the lines handed to the logger.  A thrown value
    keeps the mutations done before the throw, as in JavaScript.  The calls
    of the wrapped client libraries are oracles: a [Driver.t] or [Sdk.t]
    record gives, for each call, whether it returns or throws. *)

From Corelib Require Import PrimFloat.
From Stdlib Require Import String List Bool ZArith Lia DecimalString.
Import ListNotations.

Local Open Scope Z_scope.
Local Open Scope string_scope.
Local Open Scope list_scope.

Local Infix "+++" := String.append (at level 60, right associativity).

(** ** JavaScript values, errors and completions *)

#[local] Set Warnings "-register-all".

Inductive JsValue :=
| JsNull
| JsBool (b : bool)
| JsNum (n : Z)
| JsStr (s : string)
| JsObj (fields : list (string * JsValue)).

Definition JsObject := list (string * JsValue).

(** [o[k] = v]: an existing key keeps its position, a new one goes last. *)
Fixpoint obj_set (k : string) (v : JsValue) (o : JsObject) : JsObject :=
  match o with
  | [] => [(k, v)]
  | (k', v') :: o' =>
      if String.eqb k k' then (k, v) :: o' else (k', v') :: obj_set k v o'
  end.

(** [{ ...target, ...src }] *)
Definition obj_spread (target src : JsObject) : JsObject :=
  fold_left (fun acc kv => obj_set (fst kv) (snd kv) acc) src target.

Module JsError.
Record t := mk { message : string }.
End JsError.
Definition Error : Type := JsError.t.

(** [throw] accepts any value; [instanceof Error] tells the two apart. *)
Inductive JsThrown :=
| ThrownError (e : Error)
| ThrownOther (v : JsValue).

(** [error instanceof Error ? error : new Error(errorMessage)] *)
Definition error_or_new (error : JsThrown) (errorMessage : string) : Error :=
  match error with
  | ThrownError e => e
  | ThrownOther _ => JsError.mk errorMessage
  end.

(** [error instanceof Error ? error.message : 'Unknown error'] *)
Definition message_or_unknown (error : JsThrown) : string :=
  match error with
  | ThrownError e => JsError.message e
  | ThrownOther _ => "Unknown error"
  end.

(** [s || d] on an optional string: undefined and the empty string are falsy. *)
Definition or_str (s : option string) (d : string) : string :=
  match s with
  | Some "" | None => d
  | Some s' => s'
  end.

(** A JavaScript [number] that the caller supplies: an IEEE 754 double. *)
Definition number : Set := float.

(** The numbers that count as false: [0], [-0] and [NaN]. *)
Definition falsy_number (x : number) : bool := is_zero x || is_nan x.

(** [x || d] on an optional number: undefined, [0], [-0] and [NaN] are
    falsy. *)
Definition or_number (x : option number) (d : number) : number :=
  match x with
  | Some v => if falsy_number v then d else v
  | None => d
  end.

(** [n || d] on an optional count reported by the driver, an integer:
    undefined and 0 are falsy. *)
Definition or_num (n : option Z) (d : Z) : Z :=
  match n with
  | Some z => if Z.eqb z 0 then d else z
  | None => d
  end.

(** [b ?? d] *)
Definition nullish {A} (v : option A) (d : A) : A :=
  match v with Some a => a | None => d end.

(** Truthiness of an optional number, as in [if (options.limit)]. *)
Definition truthy_num (n : option Z) : option Z :=
  match n with
  | Some z => if Z.eqb z 0 then None else Some z
  | None => None
  end.

Definition num_to_string (z : Z) : string := NilZero.string_of_int (Z.to_int z).
Definition len_to_string {A} (l : list A) : string :=
  num_to_string (Z.of_nat (length l)).

(** [xs.join(sep)] *)
Fixpoint join (sep : string) (xs : list string) : string :=
  match xs with
  | [] => ""
  | [x] => x
  | x :: rest => x +++ sep +++ join sep rest
  end.

Inductive Completion (A : Type) :=
| Return (a : A)
| Throw (t : JsThrown).
Arguments Return {A} a.
Arguments Throw {A} t.

(** ** types.ts *)

Inductive ConnectionStatus :=
| DISCONNECTED
| CONNECTING
| CONNECTED
| RECONNECTING
| ERROR.

(** The string each enumeration member is initialised with. *)
Definition status_value (s : ConnectionStatus) : string :=
  match s with
  | DISCONNECTED => "disconnected"
  | CONNECTING => "connecting"
  | CONNECTED => "connected"
  | RECONNECTING => "reconnecting"
  | ERROR => "error"
  end.

Definition all_statuses : list ConnectionStatus :=
  [DISCONNECTED; CONNECTING; CONNECTED; RECONNECTING; ERROR].

Definition status_eqb (a b : ConnectionStatus) : bool :=
  match a, b with
  | DISCONNECTED, DISCONNECTED | CONNECTING, CONNECTING | CONNECTED, CONNECTED
  | RECONNECTING, RECONNECTING | ERROR, ERROR => true
  | _, _ => false
  end.

Record OperationResult (A : Type) := mkResult {
  success : bool;
  data : option A;
  error : option Error;
  message : option string
}.
Arguments mkResult {A}.
Arguments success {A}.
Arguments data {A}.
Arguments error {A}.
Arguments message {A}.

Module InsertResult.
Record t := mk { insertedId : string; acknowledged : bool }.
End InsertResult.

Module InsertManyResult.
Record t := mk { insertedIds : list string; insertedCount : Z }.
End InsertManyResult.

Module UpdateResult.
Record t := mk {
  acknowledged : bool;
  modifiedCount : Z;
  matchedCount : Z;
  upsertedCount : option Z;
  upsertedId : option string
}.
End UpdateResult.

Module DeleteResult.
Record t := mk { acknowledged : bool; deletedCount : Z }.
End DeleteResult.

Module PoolOptions.
Record t := mk {
  maxPoolSize : option number;
  minPoolSize : option number;
  maxIdleTimeMS : option number;
  serverSelectionTimeoutMS : option number;
  socketTimeoutMS : option number;
  retryWrites : option bool;
  retryReads : option bool
}.
End PoolOptions.

Module MongoDBOptions.
Record t := mk { uri : string; dbName : string; options : option PoolOptions.t }.
End MongoDBOptions.

Module FirebaseOptions.
Record t := mk {
  serviceAccount : JsObject;
  databaseURL : option string;
  storageBucket : option string
}.
End FirebaseOptions.

Module DBOptions.
Record t := mk {
  mongodb : option MongoDBOptions.t;
  firebase : option FirebaseOptions.t
}.
End DBOptions.

(** ** The world a method runs in *)

Inductive LogLevel := INFO | ERR | WARN | DEBUG.

(** One entry per call on the wrapped client library, by method name. *)
Inductive Call := ClientCall (method : string) (target : string).

Record World (T : Type) := mkWorld {
  this : T;
  admin_apps : list FirebaseOptions.t;
  calls : list Call;
  logs : list (LogLevel * string)
}.
Arguments mkWorld {T}.
Arguments this {T}.
Arguments admin_apps {T}.
Arguments calls {T}.
Arguments logs {T}.

Definition with_this {T U} (u : U) (w : World T) : World U :=
  mkWorld u (admin_apps w) (calls w) (logs w).

Definition M (T A : Type) := World T -> World T * Completion A.

Definition ret {T A} (a : A) : M T A := fun w => (w, Return a).

Definition throw {T A} (t : JsThrown) : M T A := fun w => (w, Throw t).

Definition bind {T A B} (c : M T A) (k : A -> M T B) : M T B :=
  fun w =>
    match c w with
    | (w', Return a) => k a w'
    | (w', Throw t) => (w', Throw t)
    end.

(** [try { body } catch (error) { handler }] *)
Definition try_catch {T A} (body : M T A) (handler : JsThrown -> M T A) : M T A :=
  fun w =>
    match body w with
    | (w', Return a) => (w', Return a)
    | (w', Throw t) => handler t w'
    end.

Declare Scope js_scope.
Delimit Scope js_scope with js.
Notation "x <- c ;; k" := (bind c (fun x => k))
  (at level 61, c at next level, right associativity) : js_scope.
Notation "c ;; k" := (bind c (fun _ => k))
  (at level 61, right associativity) : js_scope.
Local Open Scope js_scope.

Definition get_this {T} : M T T := fun w => (w, Return (this w)).

Definition modify_this {T} (f : T -> T) : M T unit :=
  fun w => (with_this (f (this w)) w, Return tt).

(** [throw new Error(msg)] *)
Definition throw_new_Error {T A} (msg : string) : M T A :=
  throw (ThrownError (JsError.mk msg)).

(** [if (c) { body }] *)
Definition when {T} (c : bool) (body : M T unit) : M T unit :=
  if c then body else ret tt.

(** The logger is a sink: the line is recorded, the variadic arguments after
    the message are not. *)
Definition logger {T} (level : LogLevel) (msg : string) : M T unit :=
  fun w => (mkWorld (this w) (admin_apps w) (calls w) (logs w ++ [(level, msg)]), Return tt).

(** A call on the wrapped client: it is recorded, then completes as the
    oracle says. *)
Definition client_call {T A} (method target : string) (r : Completion A) : M T A :=
  fun w =>
    (mkWorld (this w) (admin_apps w) (calls w ++ [ClientCall method target]) (logs w), r).

(** [new C(...)] from inside a method of another object: the constructor
    runs on the freshly allocated [fresh] and the new object is the value. *)
Definition new_object {T U} (fresh : U) (ctor : M U unit) : M T U :=
  fun w =>
    match ctor (with_this fresh w) with
    | (w', Return _) => (with_this (this w) w', Return (this w'))
    | (w', Throw t) => (with_this (this w) w', Throw t)
    end.

(** A method call on an object held in a field: [sub] is the object, [store]
    writes the (mutated) object back. *)
Definition on_field {T U A} (sub : U) (store : U -> T -> T) (c : M U A) : M T A :=
  fun w =>
    match c (with_this sub w) with
    | (w', r) => (with_this (store (this w') (this w)) w', r)
    end.

(** The four envelope shapes the sources build. *)
Definition ok_data {A} (d : A) : OperationResult A :=
  mkResult true (Some d) None None.
Definition ok_message {A} (m : string) : OperationResult A :=
  mkResult true None None (Some m).
Definition failed {A} (e : Error) : OperationResult A :=
  mkResult false None (Some e) None.
Definition failed_with_data {A} (e : Error) (d : A) : OperationResult A :=
  mkResult false (Some d) (Some e) None.

(** ** The wrapped MongoDB driver, as an oracle *)

Module Driver.
Record ObjectId := mkObjectId { toString : string }.

(** Events a [MongoClient] emits; the adapter listens to the first five. *)
Inductive ClientEvent :=
| connectionPoolCreated
| connectionPoolClosed
| serverOpening
| serverClosed
| clientError (e : JsValue)
| otherEvent (name : string).

(** What an awaited driver promise does: the events the client emits while
    the caller is suspended, then the settlement. *)
Record Reply (A : Type) := mkReply {
  emitted : list ClientEvent;
  outcome : Completion A
}.
Arguments mkReply {A}.
Arguments emitted {A}.
Arguments outcome {A}.

Record MongoClientOptions := mkClientOptions {
  maxPoolSize : number;
  minPoolSize : number;
  maxIdleTimeMS : number;
  serverSelectionTimeoutMS : number;
  socketTimeoutMS : number;
  retryWrites : bool;
  retryReads : bool
}.

Record MongoClient := mkClient { uri : string; clientOptions : MongoClientOptions }.
Record Db := mkDb { databaseName : option string }.
Record Collection := mkCollection { collectionName : string; parent : Db }.
Record FindCursor := mkCursor {
  filter : JsObject;
  sortSpec : option JsObject;
  skipCount : option Z;
  limitCount : option Z
}.

Record InsertOneResult := mkInsertOne { insertedId : ObjectId; acknowledged : bool }.
Record InsertManyResult := mkInsertMany {
  insertedIds : list ObjectId;      (* Object.values of the index-keyed map *)
  insertedCount : Z
}.
Record UpdateResult := mkUpdate {
  upd_acknowledged : bool;
  modifiedCount : Z;
  matchedCount : Z;
  upsertedCount : option Z;
  upsertedId : option ObjectId
}.
Record DeleteResult := mkDelete { del_acknowledged : bool; deletedCount : Z }.

Record t := mk {
  new_MongoClient : string -> MongoClientOptions -> Completion MongoClient;
  connect : MongoClient -> Reply unit;
  close : MongoClient -> Reply unit;
  db : MongoClient -> option string -> Completion Db;
  collection : Db -> string -> Completion Collection;
  insertOne : Collection -> JsObject -> Reply InsertOneResult;
  insertMany : Collection -> list JsObject -> Reply InsertManyResult;
  find : Collection -> JsObject -> Completion FindCursor;
  sort : FindCursor -> JsObject -> Completion FindCursor;
  skip : FindCursor -> Z -> Completion FindCursor;
  limit : FindCursor -> Z -> Completion FindCursor;
  toArray : FindCursor -> Reply (list JsObject);
  findOne : Collection -> JsObject -> Reply (option JsObject);
  updateOne : Collection -> JsObject -> JsObject -> Reply UpdateResult;
  updateMany : Collection -> JsObject -> JsObject -> Reply UpdateResult;
  deleteOne : Collection -> JsObject -> Reply DeleteResult;
  deleteMany : Collection -> JsObject -> Reply DeleteResult;
  countDocuments : Collection -> JsObject -> Reply Z;
  createIndex : Collection -> JsObject -> JsObject -> Reply string
}.
End Driver.

(** ** mongo/index.ts: the MongoDB adapter *)

Module MongoDB.
Record t := mk {
  client : option Driver.MongoClient;
  db : option Driver.Db;
  dbName : option string;
  connectionStatus : ConnectionStatus;
  reconnectAttempts : Z;
  maxReconnectAttempts : Z
}.

(** The object as the field initialisers leave it, before the constructor
    body runs: [client] and [dbName] are still unassigned. *)
Definition fresh : t := mk None None None DISCONNECTED 0 5.

Definition set_client (c : Driver.MongoClient) (m : t) : t :=
  mk (Some c) (db m) (dbName m) (connectionStatus m)
     (reconnectAttempts m) (maxReconnectAttempts m).
Definition set_db (d : option Driver.Db) (m : t) : t :=
  mk (client m) d (dbName m) (connectionStatus m)
     (reconnectAttempts m) (maxReconnectAttempts m).
Definition set_dbName (n : string) (m : t) : t :=
  mk (client m) (db m) (Some n) (connectionStatus m)
     (reconnectAttempts m) (maxReconnectAttempts m).
Definition set_connectionStatus (s : ConnectionStatus) (m : t) : t :=
  mk (client m) (db m) (dbName m) s
     (reconnectAttempts m) (maxReconnectAttempts m).
Definition set_reconnectAttempts (n : Z) (m : t) : t :=
  mk (client m) (db m) (dbName m) (connectionStatus m)
     n (maxReconnectAttempts m).

(** The listeners [setupEventListeners] registers, by event. *)
Definition on_event (ev : Driver.ClientEvent) : M t unit :=
  match ev with
  | Driver.connectionPoolCreated =>
      logger DEBUG "MongoDB connection pool created"
  | Driver.connectionPoolClosed =>
      logger DEBUG "MongoDB connection pool closed"
  | Driver.serverOpening =>
      modify_this (set_connectionStatus CONNECTING) ;;
      logger DEBUG "MongoDB server opening"
  | Driver.serverClosed =>
      modify_this (set_connectionStatus DISCONNECTED) ;;
      logger DEBUG "MongoDB server closed"
  | Driver.clientError _ =>
      modify_this (set_connectionStatus ERROR) ;;
      logger ERR "MongoDB client error:"
  | Driver.otherEvent _ => ret tt
  end.

Fixpoint emit_all (evs : list Driver.ClientEvent) : M t unit :=
  match evs with
  | [] => ret tt
  | ev :: rest => on_event ev ;; emit_all rest
  end.

(** [await promise]: the call is made, the listeners run for whatever the
    client emits meanwhile, then the method resumes with the settlement. *)
Definition await {A} (method target : string) (r : Driver.Reply A) : M t A :=
  client_call method target (Return tt) ;;
  emit_all (Driver.emitted r) ;;
  (fun w => (w, Driver.outcome r)).

(** [this.client], a [TypeError] while it is unassigned. *)
Definition the_client : M t Driver.MongoClient :=
  self <- get_this ;;
  match client self with
  | Some c => ret c
  | None => throw_new_Error "Cannot read properties of undefined"
  end.

Definition getConnectionStatus : M t ConnectionStatus :=
  self <- get_this ;; ret (connectionStatus self).

Definition connected (m : t) : bool :=
  status_eqb (connectionStatus m) CONNECTED &&
  match db m with Some _ => true | None => false end.

Definition isConnected : M t bool :=
  self <- get_this ;; ret (connected self).

Definition clientOptions_of (options : MongoDBOptions.t) : Driver.MongoClientOptions :=
  let o := MongoDBOptions.options options in
  let num (f : PoolOptions.t -> option number) (d : number) :=
    or_number (match o with Some p => f p | None => None end) d in
  let flag (f : PoolOptions.t -> option bool) (d : bool) :=
    nullish (match o with Some p => f p | None => None end) d in
  Driver.mkClientOptions
    (num PoolOptions.maxPoolSize 10%float)
    (num PoolOptions.minPoolSize 2%float)
    (num PoolOptions.maxIdleTimeMS 30000%float)
    (num PoolOptions.serverSelectionTimeoutMS 5000%float)
    (num PoolOptions.socketTimeoutMS 45000%float)
    (flag PoolOptions.retryWrites true)
    (flag PoolOptions.retryReads true).

(** [{ limit?, skip?, sort? }], the third parameter of [find]. *)
Record FindOptions := mkFindOptions {
  limit : option Z;
  skip : option Z;
  sort : option JsObject
}.

Section WithDriver.
Variable drv : Driver.t.

Definition setupEventListeners : M t unit :=
  client_call "client.on" "connectionPoolCreated" (Return tt) ;;
  client_call "client.on" "connectionPoolClosed" (Return tt) ;;
  client_call "client.on" "serverOpening" (Return tt) ;;
  client_call "client.on" "serverClosed" (Return tt) ;;
  client_call "client.on" "error" (Return tt).

Definition constructor (options : MongoDBOptions.t) : M t unit :=
  modify_this (set_dbName (MongoDBOptions.dbName options)) ;;
  let clientOptions := clientOptions_of options in
  c <- client_call "new MongoClient" (MongoDBOptions.uri options)
         (Driver.new_MongoClient drv (MongoDBOptions.uri options) clientOptions) ;;
  modify_this (set_client c) ;;
  setupEventListeners.

(** [new MongoDB(options)] *)
Definition new (options : MongoDBOptions.t) (w : World unit)
  : World unit * Completion t :=
  new_object fresh (constructor options) w.

(** [connect]: the statements before the first [await] ... *)
Definition connect_entry : M t unit :=
  modify_this (set_connectionStatus CONNECTING) ;;
  logger INFO "Connecting to MongoDB...".

(** ... and the rest of the [try] block. *)
Definition connect_rest : M t (OperationResult unit) :=
  c <- the_client ;;
  await "client.connect" "" (Driver.connect drv c) ;;
  self <- get_this ;;
  d <- client_call "client.db" (nullish (dbName self) "undefined")
         (Driver.db drv c (dbName self)) ;;
  modify_this (set_db (Some d)) ;;
  modify_this (set_connectionStatus CONNECTED) ;;
  modify_this (set_reconnectAttempts 0) ;;
  logger INFO ("Successfully connected to MongoDB database: "
               +++ nullish (dbName self) "undefined") ;;
  ret (ok_message "Connected to MongoDB").

Definition connect_catch (error : JsThrown) : M t (OperationResult unit) :=
  modify_this (set_connectionStatus ERROR) ;;
  let errorMessage := "Failed to connect to MongoDB: " +++ message_or_unknown error in
  logger ERR errorMessage ;;
  ret (failed (error_or_new error errorMessage)).

Definition connect : M t (OperationResult unit) :=
  try_catch (connect_entry ;; connect_rest) connect_catch.

Definition disconnect : M t (OperationResult unit) :=
  try_catch
    (logger INFO "Disconnecting from MongoDB..." ;;
     c <- the_client ;;
     await "client.close" "" (Driver.close drv c) ;;
     modify_this (set_connectionStatus DISCONNECTED) ;;
     modify_this (set_db None) ;;
     logger INFO "Successfully disconnected from MongoDB" ;;
     ret (ok_message "Disconnected from MongoDB"))
    (fun error =>
       let errorMessage :=
         "Error disconnecting from MongoDB: " +++ message_or_unknown error in
       logger ERR errorMessage ;;
       ret (failed (error_or_new error errorMessage))).

Definition getCollection (collectionName : string) : M t Driver.Collection :=
  self <- get_this ;;
  match db self with
  | None => throw_new_Error "Not connected to MongoDB. Call connect() first."
  | Some d =>
      client_call "db.collection" collectionName
        (Driver.collection drv d collectionName)
  end.

(** [if (!this.isConnected()) throw new Error('Not connected to MongoDB')] *)
Definition require_connected : M t unit :=
  c <- isConnected ;;
  when (negb c) (throw_new_Error "Not connected to MongoDB").

(** The [catch] block every CRUD method ends with. *)
Definition catch_with {A} (errorMessage : string) (error : JsThrown)
  : M t (OperationResult A) :=
  logger ERR errorMessage ;;
  ret (failed (error_or_new error errorMessage)).

Definition insertOne (collectionName : string) (document : JsObject)
  : M t (OperationResult InsertResult.t) :=
  try_catch
    (require_connected ;;
     collection <- getCollection collectionName ;;
     result <- await "collection.insertOne" collectionName
                 (Driver.insertOne drv collection document) ;;
     let insertResult :=
       InsertResult.mk (Driver.toString (Driver.insertedId result))
                       (Driver.acknowledged result) in
     logger DEBUG ("Document inserted into " +++ collectionName +++ ":") ;;
     ret (ok_data insertResult))
    (catch_with ("Error inserting document into " +++ collectionName)).

Definition insertMany (collectionName : string) (documents : list JsObject)
  : M t (OperationResult InsertManyResult.t) :=
  try_catch
    (require_connected ;;
     collection <- getCollection collectionName ;;
     result <- await "collection.insertMany" collectionName
                 (Driver.insertMany drv collection documents) ;;
     let insertedIds := map Driver.toString (Driver.insertedIds result) in
     let insertResult :=
       InsertManyResult.mk insertedIds (Driver.insertedCount result) in
     logger DEBUG (len_to_string documents +++ " documents inserted into "
                   +++ collectionName) ;;
     ret (ok_data insertResult))
    (catch_with ("Error inserting documents into " +++ collectionName)).

Definition find (collectionName : string) (query : option JsObject)
    (options : option FindOptions)
  : M t (OperationResult (list JsObject)) :=
  let query := nullish query [] in
  let options := nullish options (mkFindOptions None None None) in
  try_catch
    (require_connected ;;
     collection <- getCollection collectionName ;;
     cursor <- client_call "collection.find" collectionName
                 (Driver.find drv collection query) ;;
     cursor <- match sort options with
               | Some s => client_call "cursor.sort" collectionName
                             (Driver.sort drv cursor s)
               | None => ret cursor
               end ;;
     cursor <- match truthy_num (skip options) with
               | Some n => client_call "cursor.skip" collectionName
                             (Driver.skip drv cursor n)
               | None => ret cursor
               end ;;
     cursor <- match truthy_num (limit options) with
               | Some n => client_call "cursor.limit" collectionName
                             (Driver.limit drv cursor n)
               | None => ret cursor
               end ;;
     documents <- await "cursor.toArray" collectionName
                    (Driver.toArray drv cursor) ;;
     logger DEBUG ("Found " +++ len_to_string documents +++ " documents in "
                   +++ collectionName) ;;
     ret (ok_data documents))
    (catch_with ("Error finding documents in " +++ collectionName)).

Definition findOne (collectionName : string) (query : JsObject)
  : M t (OperationResult (option JsObject)) :=
  try_catch
    (require_connected ;;
     collection <- getCollection collectionName ;;
     document <- await "collection.findOne" collectionName
                   (Driver.findOne drv collection query) ;;
     logger DEBUG ("Found document in " +++ collectionName +++ ":") ;;
     ret (ok_data document))
    (catch_with ("Error finding document in " +++ collectionName)).

Definition updateResult_of (result : Driver.UpdateResult) : UpdateResult.t :=
  UpdateResult.mk
    (Driver.upd_acknowledged result)
    (Driver.modifiedCount result)
    (Driver.matchedCount result)
    (Some (or_num (Driver.upsertedCount result) 0))
    (option_map Driver.toString (Driver.upsertedId result)).

Definition updateOne (collectionName : string) (query update : JsObject)
  : M t (OperationResult UpdateResult.t) :=
  try_catch
    (require_connected ;;
     collection <- getCollection collectionName ;;
     result <- await "collection.updateOne" collectionName
                 (Driver.updateOne drv collection query update) ;;
     let updateResult := updateResult_of result in
     logger DEBUG ("Document updated in " +++ collectionName +++ ":") ;;
     ret (ok_data updateResult))
    (catch_with ("Error updating document in " +++ collectionName)).

Definition updateMany (collectionName : string) (query update : JsObject)
  : M t (OperationResult UpdateResult.t) :=
  try_catch
    (require_connected ;;
     collection <- getCollection collectionName ;;
     result <- await "collection.updateMany" collectionName
                 (Driver.updateMany drv collection query update) ;;
     let updateResult := updateResult_of result in
     logger DEBUG ("Documents updated in " +++ collectionName +++ ":") ;;
     ret (ok_data updateResult))
    (catch_with ("Error updating documents in " +++ collectionName)).

Definition deleteResult_of (result : Driver.DeleteResult) : DeleteResult.t :=
  DeleteResult.mk (Driver.del_acknowledged result) (Driver.deletedCount result).

Definition deleteOne (collectionName : string) (query : JsObject)
  : M t (OperationResult DeleteResult.t) :=
  try_catch
    (require_connected ;;
     collection <- getCollection collectionName ;;
     result <- await "collection.deleteOne" collectionName
                 (Driver.deleteOne drv collection query) ;;
     let deleteResult := deleteResult_of result in
     logger DEBUG ("Document deleted from " +++ collectionName +++ ":") ;;
     ret (ok_data deleteResult))
    (catch_with ("Error deleting document from " +++ collectionName)).

Definition deleteMany (collectionName : string) (query : JsObject)
  : M t (OperationResult DeleteResult.t) :=
  try_catch
    (require_connected ;;
     collection <- getCollection collectionName ;;
     result <- await "collection.deleteMany" collectionName
                 (Driver.deleteMany drv collection query) ;;
     let deleteResult := deleteResult_of result in
     logger DEBUG ("Documents deleted from " +++ collectionName +++ ":") ;;
     ret (ok_data deleteResult))
    (catch_with ("Error deleting documents from " +++ collectionName)).

Definition countDocuments (collectionName : string) (query : option JsObject)
  : M t (OperationResult Z) :=
  let query := nullish query [] in
  try_catch
    (require_connected ;;
     collection <- getCollection collectionName ;;
     count <- await "collection.countDocuments" collectionName
                (Driver.countDocuments drv collection query) ;;
     logger DEBUG ("Counted " +++ num_to_string count +++ " documents in "
                   +++ collectionName) ;;
     ret (ok_data count))
    (catch_with ("Error counting documents in " +++ collectionName)).

Definition createIndex (collectionName : string) (indexSpec : JsObject)
    (options : option JsObject)
  : M t (OperationResult string) :=
  let options := nullish options [] in
  try_catch
    (require_connected ;;
     collection <- getCollection collectionName ;;
     indexName <- await "collection.createIndex" collectionName
                    (Driver.createIndex drv collection indexSpec options) ;;
     logger DEBUG ("Index created on " +++ collectionName +++ ":") ;;
     ret (ok_data indexName))
    (catch_with ("Error creating index on " +++ collectionName)).

(** [throw result.error || new Error(fallback)] *)
Definition rethrow {A B} (result : OperationResult A) (fallback : string) : M t B :=
  throw (ThrownError (nullish (error result) (JsError.mk fallback))).

(** Legacy methods for backward compatibility. *)
Definition addDocument (collectionName : string) (data : JsObject) : M t unit :=
  result <- insertOne collectionName data ;;
  if negb (success result) then rethrow result "Failed to insert document"
  else ret tt.

Definition getDocuments (collectionName : string) (query : option JsObject)
  : M t (list JsObject) :=
  let query := nullish query [] in
  result <- find collectionName (Some query) None ;;
  if negb (success result) then rethrow result "Failed to find documents"
  else ret (nullish (data result) []).

Definition deleteDocument (collectionName : string) (query : JsObject) : M t unit :=
  result <- deleteOne collectionName query ;;
  if negb (success result) then rethrow result "Failed to delete document"
  else ret tt.

Definition updateDocument (collectionName : string) (query update : JsObject)
  : M t unit :=
  result <- updateOne collectionName query [("$set", JsObj update)] ;;
  if negb (success result) then rethrow result "Failed to update document"
  else ret tt.

(** The methods declared to return [Promise<OperationResult<A>>], one
    constructor per method, with its arguments. *)
Inductive Op : Type -> Type :=
| Connect : Op unit
| Disconnect : Op unit
| InsertOne (collectionName : string) (document : JsObject) : Op InsertResult.t
| InsertMany (collectionName : string) (documents : list JsObject)
    : Op InsertManyResult.t
| Find (collectionName : string) (query : option JsObject)
    (options : option FindOptions) : Op (list JsObject)
| FindOne (collectionName : string) (query : JsObject) : Op (option JsObject)
| UpdateOne (collectionName : string) (query update : JsObject) : Op UpdateResult.t
| UpdateMany (collectionName : string) (query update : JsObject) : Op UpdateResult.t
| DeleteOne (collectionName : string) (query : JsObject) : Op DeleteResult.t
| DeleteMany (collectionName : string) (query : JsObject) : Op DeleteResult.t
| CountDocuments (collectionName : string) (query : option JsObject) : Op Z
| CreateIndex (collectionName : string) (indexSpec : JsObject)
    (options : option JsObject) : Op string.

Definition invoke {A} (op : Op A) : M t (OperationResult A) :=
  match op with
  | Connect => connect
  | Disconnect => disconnect
  | InsertOne c d => insertOne c d
  | InsertMany c ds => insertMany c ds
  | Find c q o => find c q o
  | FindOne c q => findOne c q
  | UpdateOne c q u => updateOne c q u
  | UpdateMany c q u => updateMany c q u
  | DeleteOne c q => deleteOne c q
  | DeleteMany c q => deleteMany c q
  | CountDocuments c q => countDocuments c q
  | CreateIndex c i o => createIndex c i o
  end.

(** The CRUD, count and index methods: every [Op] but the two that manage
    the connection. *)
Definition is_crud {A} (op : Op A) : bool :=
  match op with
  | Connect | Disconnect => false
  | _ => true
  end.

(** The remaining public methods, which return something else. *)
Inductive PlainOp : Type -> Type :=
| GetConnectionStatus : PlainOp ConnectionStatus
| IsConnected : PlainOp bool
| GetCollection (collectionName : string) : PlainOp Driver.Collection
| AddDocument (collectionName : string) (data : JsObject) : PlainOp unit
| GetDocuments (collectionName : string) (query : option JsObject)
    : PlainOp (list JsObject)
| DeleteDocument (collectionName : string) (query : JsObject) : PlainOp unit
| UpdateDocument (collectionName : string) (query update : JsObject) : PlainOp unit.

Definition invoke_plain {A} (op : PlainOp A) : M t A :=
  match op with
  | GetConnectionStatus => getConnectionStatus
  | IsConnected => isConnected
  | GetCollection c => getCollection c
  | AddDocument c d => addDocument c d
  | GetDocuments c q => getDocuments c q
  | DeleteDocument c q => deleteDocument c q
  | UpdateDocument c q u => updateDocument c q u
  end.
End WithDriver.
End MongoDB.

(** ** The wrapped Firebase Admin SDK, as an oracle *)

Module Sdk.
Inductive Credential := credential (serviceAccount : JsObject).
Inductive Firestore := firestoreHandle.
Record DocumentReference := mkRef { ref_id : string; ref_path : string }.
Record DocumentSnapshot := mkSnapshot {
  snap_exists : bool;
  snap_id : string;
  snap_data : JsObject
}.
Inductive ChangeType := added | modified | removed.
Record DocumentChange := mkChange { change_type : ChangeType; change_doc : DocumentSnapshot }.
Record QuerySnapshot := mkQuerySnapshot { docs : list DocumentSnapshot }.
Record WhereClause := mkWhere { field : string; operator : string; value : JsValue }.
Inductive Query := queryHandle (path : string) (clauses : list string).
Inductive WriteBatch := batchHandle (writes : list string).
Inductive Transaction := transactionHandle.
Definition UpdateFunction := Transaction -> Completion JsValue.
Inductive Unsubscribe := unsubscribeHandle (listener : nat).

Record t := mk {
  cert : JsObject -> Completion Credential;
  initializeApp : FirebaseOptions.t -> Completion unit;
  firestore : Completion Firestore;
  doc : Firestore -> string -> Completion DocumentReference;
  get : DocumentReference -> Completion DocumentSnapshot;
  set : DocumentReference -> JsObject -> option bool -> Completion unit;
  update : DocumentReference -> JsObject -> Completion unit;
  delete : DocumentReference -> Completion unit;
  collection : Firestore -> string -> Completion Query;
  add : Query -> JsObject -> Completion DocumentReference;
  where_ : Query -> WhereClause -> Completion Query;
  orderBy : Query -> string -> string -> Completion Query;
  limit : Query -> Z -> Completion Query;
  startAfter : Query -> DocumentSnapshot -> Completion Query;
  query_get : Query -> Completion QuerySnapshot;
  query_onSnapshot : Query -> Completion Unsubscribe;
  doc_onSnapshot : DocumentReference -> Completion Unsubscribe;
  batch : Firestore -> Completion WriteBatch;
  batch_set : WriteBatch -> DocumentReference -> option JsValue -> option bool
              -> Completion WriteBatch;
  batch_update : WriteBatch -> DocumentReference -> option JsValue
                 -> Completion WriteBatch;
  batch_delete : WriteBatch -> DocumentReference -> Completion WriteBatch;
  commit : WriteBatch -> Completion unit;
  runTransaction : Firestore -> UpdateFunction -> Completion JsValue
}.
End Sdk.

(** ** firebase/index.ts: the Firestore adapter *)

Module Firebase.
Record t := mk {
  firestore : option Sdk.Firestore;
  connectionStatus : ConnectionStatus;
  isInitialized : bool
}.

(** The object as the field initialisers leave it. *)
Definition fresh : t := mk None DISCONNECTED false.

Definition set_firestore (f : Sdk.Firestore) (b : t) : t :=
  mk (Some f) (connectionStatus b) (isInitialized b).
Definition set_connectionStatus (s : ConnectionStatus) (b : t) : t :=
  mk (firestore b) s (isInitialized b).
Definition set_isInitialized (i : bool) (b : t) : t :=
  mk (firestore b) (connectionStatus b) i.

Definition getConnectionStatus : M t ConnectionStatus :=
  self <- get_this ;; ret (connectionStatus self).

Definition connected (b : t) : bool :=
  status_eqb (connectionStatus b) CONNECTED && isInitialized b.

Definition isConnected : M t bool :=
  self <- get_this ;; ret (connected self).

(** [this.firestore], a [TypeError] while it is unassigned. *)
Definition the_firestore : M t Sdk.Firestore :=
  self <- get_this ;;
  match firestore self with
  | Some f => ret f
  | None => throw_new_Error "Cannot read properties of undefined"
  end.

(** [{ id: snapshot.id, ...snapshot.data() }] *)
Definition with_id (snapshot : Sdk.DocumentSnapshot) : JsObject :=
  obj_spread [("id", JsStr (Sdk.snap_id snapshot))] (Sdk.snap_data snapshot).

Record QueryOptions := mkQueryOptions {
  q_where : option (list Sdk.WhereClause);
  q_orderBy : option (string * option string);
  q_limit : option Z;
  q_startAfter : option Sdk.DocumentSnapshot
}.

Inductive WriteType := type_set | type_update | type_delete.
Record WriteOperation := mkWrite {
  op_type : WriteType;
  op_path : string;
  op_data : option JsValue;
  op_merge : option (option bool)       (* [options?: { merge?: boolean }] *)
}.

Record CollectionChanges := mkChanges {
  added : list JsObject;
  modified : list JsObject;
  removed : list JsObject
}.

(** What the snapshot listener of [listenCollection] hands to [callback]. *)
Definition collection_changes (docChanges : list Sdk.DocumentChange)
  : CollectionChanges :=
  fold_left
    (fun acc change =>
       let doc := with_id (Sdk.change_doc change) in
       match Sdk.change_type change with
       | Sdk.added => mkChanges (added acc ++ [doc]) (modified acc) (removed acc)
       | Sdk.modified => mkChanges (added acc) (modified acc ++ [doc]) (removed acc)
       | Sdk.removed => mkChanges (added acc) (modified acc) (removed acc ++ [doc])
       end)
    docChanges (mkChanges [] [] []).

(** What the snapshot listener of [listenDocument] hands to [callback]. *)
Definition document_payload (snapshot : Sdk.DocumentSnapshot) : option JsObject :=
  if Sdk.snap_exists snapshot then Some (with_id snapshot) else None.

(** An [UnsubscribeFunction]: the SDK's, or the empty [() => {}]. *)
Inductive UnsubscribeFunction :=
| SdkUnsubscribe (u : Sdk.Unsubscribe)
| EmptyUnsubscribe.

Section WithSdk.
Variable sdk : Sdk.t.

(** [admin.initializeApp(...)]: a successful call registers the app. *)
Definition initializeApp (options : FirebaseOptions.t) : M t unit :=
  client_call "admin.credential.cert" ""
    (Sdk.cert sdk (FirebaseOptions.serviceAccount options)) ;;
  client_call "admin.initializeApp" "" (Sdk.initializeApp sdk options) ;;
  (fun w => (mkWorld (this w) (admin_apps w ++ [options]) (calls w) (logs w),
             Return tt)).

Definition constructor (options : FirebaseOptions.t) : M t unit :=
  try_catch
    (apps <- (fun w => (w, Return (admin_apps w))) ;;
     when (Nat.eqb (length apps) 0) (initializeApp options) ;;
     f <- client_call "admin.firestore" "" (Sdk.firestore sdk) ;;
     modify_this (set_firestore f) ;;
     modify_this (set_connectionStatus CONNECTED) ;;
     modify_this (set_isInitialized true) ;;
     logger INFO "Firebase initialized successfully")
    (fun error =>
       modify_this (set_connectionStatus ERROR) ;;
       logger ERR "Failed to initialize Firebase:" ;;
       throw error).

(** [new Firebase(options)] *)
Definition new (options : FirebaseOptions.t) (w : World unit)
  : World unit * Completion t :=
  new_object fresh (constructor options) w.

(** [if (!this.isConnected()) throw new Error('Firebase not initialized')] *)
Definition require_connected : M t unit :=
  c <- isConnected ;;
  when (negb c) (throw_new_Error "Firebase not initialized").

Definition catch_with {A} (errorMessage : string) (error : JsThrown)
  : M t (OperationResult A) :=
  logger ERR errorMessage ;;
  ret (failed (error_or_new error errorMessage)).

Definition firestore_doc (documentPath : string) : M t Sdk.DocumentReference :=
  f <- the_firestore ;;
  client_call "firestore.doc" documentPath (Sdk.doc sdk f documentPath).

Definition firestore_collection (collectionPath : string) : M t Sdk.Query :=
  f <- the_firestore ;;
  client_call "firestore.collection" collectionPath
    (Sdk.collection sdk f collectionPath).

Definition getDocument (documentPath : string)
  : M t (OperationResult (option JsObject)) :=
  try_catch
    (require_connected ;;
     documentRef <- firestore_doc documentPath ;;
     snapshot <- client_call "documentRef.get" documentPath
                   (Sdk.get sdk documentRef) ;;
     if Sdk.snap_exists snapshot then
       let data := with_id snapshot in
       logger DEBUG ("Document retrieved from " +++ documentPath) ;;
       ret (ok_data (Some data))
     else
       logger DEBUG ("Document not found at " +++ documentPath) ;;
       ret (ok_data None))
    (catch_with ("Error getting document " +++ documentPath)).

Definition setDocument (documentPath : string) (data : JsObject)
    (options : option (option bool))
  : M t (OperationResult unit) :=
  let options := nullish options (Some true) in
  try_catch
    (require_connected ;;
     documentRef <- firestore_doc documentPath ;;
     client_call "documentRef.set" documentPath
       (Sdk.set sdk documentRef data options) ;;
     logger DEBUG ("Document set at " +++ documentPath) ;;
     ret (ok_message "Document set successfully"))
    (catch_with ("Error setting document " +++ documentPath)).

Definition updateDocument (documentPath : string) (data : JsObject)
  : M t (OperationResult unit) :=
  try_catch
    (require_connected ;;
     documentRef <- firestore_doc documentPath ;;
     client_call "documentRef.update" documentPath
       (Sdk.update sdk documentRef data) ;;
     logger DEBUG ("Document updated at " +++ documentPath) ;;
     ret (ok_message "Document updated successfully"))
    (catch_with ("Error updating document " +++ documentPath)).

Definition deleteDocument (documentPath : string) : M t (OperationResult unit) :=
  try_catch
    (require_connected ;;
     documentRef <- firestore_doc documentPath ;;
     client_call "documentRef.delete" documentPath
       (Sdk.delete sdk documentRef) ;;
     logger DEBUG ("Document deleted from " +++ documentPath) ;;
     ret (ok_message "Document deleted successfully"))
    (catch_with ("Error deleting document " +++ documentPath)).

(** [{ id: docRef.id }] is modelled by the identifier itself. *)
Definition addDocument (collectionPath : string) (data : JsObject)
  : M t (OperationResult string) :=
  try_catch
    (require_connected ;;
     collectionRef <- firestore_collection collectionPath ;;
     docRef <- client_call "collectionRef.add" collectionPath
                 (Sdk.add sdk collectionRef data) ;;
     logger DEBUG ("Document added to " +++ collectionPath +++ " with ID: "
                   +++ Sdk.ref_id docRef) ;;
     ret (ok_data (Sdk.ref_id docRef)))
    (catch_with ("Error adding document to " +++ collectionPath)).

(** [for (const condition of options.where) query = query.where(...)] *)
Fixpoint apply_where (collectionPath : string) (conditions : list Sdk.WhereClause)
    (query : Sdk.Query) : M t Sdk.Query :=
  match conditions with
  | [] => ret query
  | condition :: rest =>
      query' <- client_call "query.where" collectionPath
                  (Sdk.where_ sdk query condition) ;;
      apply_where collectionPath rest query'
  end.

(** The where / orderBy / limit part shared by [getCollection] and
    [listenCollection]. *)
Definition build_query (collectionPath : string)
    (where_ : option (list Sdk.WhereClause))
    (orderBy : option (string * option string)) (limit : option Z)
  : M t Sdk.Query :=
  query <- firestore_collection collectionPath ;;
  query <- match where_ with
           | Some conditions => apply_where collectionPath conditions query
           | None => ret query
           end ;;
  query <- match orderBy with
           | Some (field, direction) =>
               client_call "query.orderBy" collectionPath
                 (Sdk.orderBy sdk query field (or_str direction "asc"))
           | None => ret query
           end ;;
  match truthy_num limit with
  | Some n => client_call "query.limit" collectionPath (Sdk.limit sdk query n)
  | None => ret query
  end.

Definition getCollection (collectionPath : string) (options : option QueryOptions)
  : M t (OperationResult (list JsObject)) :=
  let options := nullish options (mkQueryOptions None None None None) in
  try_catch
    (require_connected ;;
     query <- build_query collectionPath (q_where options) (q_orderBy options)
                (q_limit options) ;;
     query <- match q_startAfter options with
              | Some snapshot =>
                  client_call "query.startAfter" collectionPath
                    (Sdk.startAfter sdk query snapshot)
              | None => ret query
              end ;;
     snapshot <- client_call "query.get" collectionPath (Sdk.query_get sdk query) ;;
     let documents := map with_id (Sdk.docs snapshot) in
     logger DEBUG ("Retrieved " +++ len_to_string documents +++ " documents from "
                   +++ collectionPath) ;;
     ret (ok_data documents))
    (catch_with ("Error getting collection " +++ collectionPath)).

Definition listenCollection (collectionPath : string) (options : option QueryOptions)
  : M t UnsubscribeFunction :=
  let options := nullish options (mkQueryOptions None None None None) in
  try_catch
    (require_connected ;;
     query <- build_query collectionPath (q_where options) (q_orderBy options)
                (q_limit options) ;;
     unsubscribe <- client_call "query.onSnapshot" collectionPath
                      (Sdk.query_onSnapshot sdk query) ;;
     logger DEBUG ("Started listening to collection " +++ collectionPath) ;;
     ret (SdkUnsubscribe unsubscribe))
    (fun error =>
       logger ERR ("Error setting up listener for collection "
                   +++ collectionPath +++ ":") ;;
       ret EmptyUnsubscribe).

Definition listenDocument (documentPath : string) : M t UnsubscribeFunction :=
  try_catch
    (require_connected ;;
     documentRef <- firestore_doc documentPath ;;
     unsubscribe <- client_call "documentRef.onSnapshot" documentPath
                      (Sdk.doc_onSnapshot sdk documentRef) ;;
     logger DEBUG ("Started listening to document " +++ documentPath) ;;
     ret (SdkUnsubscribe unsubscribe))
    (fun error =>
       logger ERR ("Error setting up listener for document "
                   +++ documentPath +++ ":") ;;
       ret EmptyUnsubscribe).

(** [for (const operation of operations) { ... }] *)
Fixpoint stage_writes (operations : list WriteOperation) (batch : Sdk.WriteBatch)
  : M t Sdk.WriteBatch :=
  match operations with
  | [] => ret batch
  | operation :: rest =>
      docRef <- firestore_doc (op_path operation) ;;
      batch' <- match op_type operation with
                | type_set =>
                    client_call "batch.set" (op_path operation)
                      (Sdk.batch_set sdk batch docRef (op_data operation)
                         (nullish (op_merge operation) None))
                | type_update =>
                    client_call "batch.update" (op_path operation)
                      (Sdk.batch_update sdk batch docRef (op_data operation))
                | type_delete =>
                    client_call "batch.delete" (op_path operation)
                      (Sdk.batch_delete sdk batch docRef)
                end ;;
      stage_writes rest batch'
  end.

Definition batchWrite (operations : list WriteOperation)
  : M t (OperationResult unit) :=
  try_catch
    (require_connected ;;
     f <- the_firestore ;;
     batch <- client_call "firestore.batch" "" (Sdk.batch sdk f) ;;
     batch <- stage_writes operations batch ;;
     client_call "batch.commit" "" (Sdk.commit sdk batch) ;;
     logger DEBUG ("Batch write completed with " +++ len_to_string operations
                   +++ " operations") ;;
     ret (ok_message "Batch write completed successfully"))
    (catch_with "Error performing batch write").

Definition runTransaction (updateFunction : Sdk.UpdateFunction)
  : M t (OperationResult JsValue) :=
  try_catch
    (require_connected ;;
     f <- the_firestore ;;
     result <- client_call "firestore.runTransaction" ""
                 (Sdk.runTransaction sdk f updateFunction) ;;
     logger DEBUG "Transaction completed successfully" ;;
     ret (ok_data result))
    (catch_with "Error running transaction").

(** The methods declared to return [Promise<OperationResult<A>>]. *)
Inductive Op : Type -> Type :=
| GetDocument (documentPath : string) : Op (option JsObject)
| SetDocument (documentPath : string) (data : JsObject)
    (options : option (option bool)) : Op unit
| UpdateDocument (documentPath : string) (data : JsObject) : Op unit
| DeleteDocument (documentPath : string) : Op unit
| AddDocument (collectionPath : string) (data : JsObject) : Op string
| GetCollection (collectionPath : string) (options : option QueryOptions)
    : Op (list JsObject)
| BatchWrite (operations : list WriteOperation) : Op unit
| RunTransaction (updateFunction : Sdk.UpdateFunction) : Op JsValue.

Definition invoke {A} (op : Op A) : M t (OperationResult A) :=
  match op with
  | GetDocument p => getDocument p
  | SetDocument p d o => setDocument p d o
  | UpdateDocument p d => updateDocument p d
  | DeleteDocument p => deleteDocument p
  | AddDocument c d => addDocument c d
  | GetCollection c o => getCollection c o
  | BatchWrite ops => batchWrite ops
  | RunTransaction f => runTransaction f
  end.

(** The remaining public methods, which return something else. *)
Inductive PlainOp : Type -> Type :=
| GetConnectionStatus : PlainOp ConnectionStatus
| IsConnected : PlainOp bool
| ListenCollection (collectionPath : string) (options : option QueryOptions)
    : PlainOp UnsubscribeFunction
| ListenDocument (documentPath : string) : PlainOp UnsubscribeFunction.

Definition invoke_plain {A} (op : PlainOp A) : M t A :=
  match op with
  | GetConnectionStatus => getConnectionStatus
  | IsConnected => isConnected
  | ListenCollection c o => listenCollection c o
  | ListenDocument p => listenDocument p
  end.
End WithSdk.
End Firebase.

(** ** index.ts: the facade *)

Module DB.
Record t := mk {
  mongo : option MongoDB.t;
  firebase : option Firebase.t
}.

(** Both fields are declared without an initialiser. *)
Definition fresh : t := mk None None.

Definition set_mongo (m : MongoDB.t) (d : t) : t := mk (Some m) (firebase d).
Definition set_firebase (b : Firebase.t) (d : t) : t := mk (mongo d) (Some b).

(** [{ mongodb?: A; firebase?: B }], as [connect], [disconnect],
    [getConnectionStatus] and [getHealthStatus] return it. *)
Record PerBackend (A : Type) := mkPer {
  mongodb : option A;
  firebase_ : option A
}.
Arguments mkPer {A}.
Arguments mongodb {A}.
Arguments firebase_ {A}.

(** [Object.values(results)]: the properties that were assigned, in order. *)
Definition values {A} (results : PerBackend A) : list A :=
  match mongodb results with Some a => [a] | None => [] end ++
  match firebase_ results with Some a => [a] | None => [] end.

(** [Object.values(results).every(status => status === true)] *)
Definition every_true (results : PerBackend bool) : bool :=
  forallb (fun status => Bool.eqb status true) (values results).

Record Health := mkHealth {
  health_mongodb : option (bool * ConnectionStatus);
  health_firebase : option (bool * ConnectionStatus);
  overall : bool
}.

Definition is_some {A} (o : option A) : bool :=
  match o with Some _ => true | None => false end.

Section WithClients.
Variable drv : Driver.t.
Variable sdk : Sdk.t.

Definition constructor (options : DBOptions.t) : M t unit :=
  when (negb (is_some (DBOptions.mongodb options)) &&
        negb (is_some (DBOptions.firebase options)))
    (throw_new_Error
       "At least one database configuration (mongodb or firebase) must be provided") ;;
  match DBOptions.mongodb options with
  | Some mongodb_options =>
      try_catch
        (m <- new_object MongoDB.fresh (MongoDB.constructor drv mongodb_options) ;;
         modify_this (set_mongo m) ;;
         logger INFO "MongoDB instance created successfully")
        (fun error =>
           logger ERR "Failed to create MongoDB instance:" ;;
           throw error)
  | None => ret tt
  end ;;
  match DBOptions.firebase options with
  | Some firebase_options =>
      try_catch
        (b <- new_object Firebase.fresh (Firebase.constructor sdk firebase_options) ;;
         modify_this (set_firebase b) ;;
         logger INFO "Firebase instance created successfully")
        (fun error =>
           logger ERR "Failed to create Firebase instance:" ;;
           throw error)
  | None => ret tt
  end.

(** [new DB(options)] *)
Definition new (options : DBOptions.t) (w : World unit) : World unit * Completion t :=
  new_object fresh (constructor options) w.

(** The MongoDB part of [connect]: the entry of [results] and the
    messages pushed on [errors]. *)
Definition connect_mongo (m : MongoDB.t) : M t (bool * list string) :=
  try_catch
    (mongoResult <- on_field m set_mongo (MongoDB.connect drv) ;;
     ret (success mongoResult,
          if negb (success mongoResult) then
            ["MongoDB: " +++ or_str (option_map JsError.message (error mongoResult))
                                    "Connection failed"]
          else []))
    (fun error => ret (false, ["MongoDB: " +++ message_or_unknown error])).

Definition connect : M t (OperationResult (PerBackend bool)) :=
  self <- get_this ;;
  mongo_part <- match mongo self with
                | Some m => r <- connect_mongo m ;; ret (Some (fst r), snd r)
                | None => ret (None, [])
                end ;;
  firebase_part <- match firebase self with
                   | Some b =>
                       c <- on_field b set_firebase Firebase.isConnected ;;
                       ret (Some c,
                            if negb c then
                              ["Firebase: Connection failed during initialization"]
                            else [])
                   | None => ret (None, [])
                   end ;;
  let results := mkPer (fst mongo_part) (fst firebase_part) in
  let errors := snd mongo_part ++ snd firebase_part in
  let allConnected := every_true results in
  if allConnected then
    logger INFO "All databases connected successfully" ;;
    ret (ok_data results)
  else
    let errorMessage := "Some databases failed to connect: " +++ join ", " errors in
    logger ERR errorMessage ;;
    ret (failed_with_data (JsError.mk errorMessage) results).

Definition disconnect_mongo (m : MongoDB.t) : M t (bool * list string) :=
  try_catch
    (mongoResult <- on_field m set_mongo (MongoDB.disconnect drv) ;;
     ret (success mongoResult,
          if negb (success mongoResult) then
            ["MongoDB: " +++ or_str (option_map JsError.message (error mongoResult))
                                    "Disconnection failed"]
          else []))
    (fun error => ret (false, ["MongoDB: " +++ message_or_unknown error])).

Definition disconnect : M t (OperationResult (PerBackend bool)) :=
  self <- get_this ;;
  mongo_part <- match mongo self with
                | Some m => r <- disconnect_mongo m ;; ret (Some (fst r), snd r)
                | None => ret (None, [])
                end ;;
  let results :=
    mkPer (fst mongo_part)
          (match firebase self with Some _ => Some true | None => None end) in
  let errors := snd mongo_part in
  let allDisconnected := every_true results in
  if allDisconnected then
    logger INFO "All databases disconnected successfully" ;;
    ret (ok_data results)
  else
    let errorMessage := "Some databases failed to disconnect: " +++ join ", " errors in
    logger ERR errorMessage ;;
    ret (failed_with_data (JsError.mk errorMessage) results).

Definition getConnectionStatus : M t (PerBackend ConnectionStatus) :=
  self <- get_this ;;
  ret (mkPer (option_map MongoDB.connectionStatus (mongo self))
             (option_map Firebase.connectionStatus (firebase self))).

(** The value [isConnected] computes from the two fields. *)
Definition all_connected (d : t) : bool :=
  let mongoConnected :=
    match mongo d with Some m => MongoDB.connected m | None => true end in
  let firebaseConnected :=
    match firebase d with Some b => Firebase.connected b | None => true end in
  mongoConnected && firebaseConnected.

Definition isConnected : M t bool :=
  self <- get_this ;; ret (all_connected self).

Definition getHealthStatus : M t (OperationResult Health) :=
  try_catch
    (self <- get_this ;;
     overall_ <- isConnected ;;
     let health :=
       mkHealth
         (option_map (fun m => (MongoDB.connected m, MongoDB.connectionStatus m))
                     (mongo self))
         (option_map (fun b => (Firebase.connected b, Firebase.connectionStatus b))
                     (firebase self))
         overall_ in
     logger DEBUG "Health status checked" ;;
     ret (ok_data health))
    (fun error =>
       let errorMessage := "Error checking health status" in
       logger ERR errorMessage ;;
       ret (failed (error_or_new error errorMessage))).
End WithClients.
End DB.

(** ** Runs of an adapter *)

(** What can happen to a constructed MongoDB adapter: the client emits an
    event between two calls, or a caller invokes a public method (the events
    emitted while a method awaits are part of the driver's [Reply]). *)
Inductive MongoAction :=
| Emit (ev : Driver.ClientEvent)
| Invoke (drv : Driver.t) {A : Type} (op : MongoDB.Op A)
| InvokePlain (drv : Driver.t) {A : Type} (op : MongoDB.PlainOp A).

Definition mongo_step (a : MongoAction) (w : World MongoDB.t) : World MongoDB.t :=
  match a with
  | Emit ev => fst (MongoDB.on_event ev w)
  | Invoke drv op => fst (MongoDB.invoke drv op w)
  | InvokePlain drv op => fst (MongoDB.invoke_plain drv op w)
  end.

Inductive mongo_reachable : World MongoDB.t -> Prop :=
| mongo_constructed drv options w0 w m :
    MongoDB.new drv options w0 = (w, Return m) ->
    mongo_reachable (with_this m w)
| mongo_stepped a w :
    mongo_reachable w -> mongo_reachable (mongo_step a w).

(** A Firebase adapter, from the moment the constructor body starts: the
    object under construction, then any public method on it. *)
Inductive FirebaseAction :=
| FbInvoke (sdk : Sdk.t) {A : Type} (op : Firebase.Op A)
| FbInvokePlain (sdk : Sdk.t) {A : Type} (op : Firebase.PlainOp A).

Definition firebase_step (a : FirebaseAction) (w : World Firebase.t) : World Firebase.t :=
  match a with
  | FbInvoke sdk op => fst (Firebase.invoke sdk op w)
  | FbInvokePlain sdk op => fst (Firebase.invoke_plain sdk op w)
  end.

Inductive firebase_reachable : World Firebase.t -> Prop :=
| firebase_allocated (w0 : World unit) :
    firebase_reachable (with_this Firebase.fresh w0)
| firebase_constructing sdk options (w0 : World unit) :
    firebase_reachable (fst (Firebase.constructor sdk options (with_this Firebase.fresh w0)))
| firebase_stepped a w :
    firebase_reachable w -> firebase_reachable (firebase_step a w).

(** ** Sample oracles *)

(** A driver whose every call succeeds and emits nothing. *)
Definition quiet {A} (a : A) : Driver.Reply A := Driver.mkReply [] (Return a).

Definition healthy_driver : Driver.t :=
  let cursor := Driver.mkCursor [] None None None in
  let updated := Driver.mkUpdate true 1 1 None None in
  Driver.mk
    (fun uri o => Return (Driver.mkClient uri o))
    (fun _ => Driver.mkReply [Driver.serverOpening] (Return tt))
    (fun _ => Driver.mkReply [Driver.serverClosed] (Return tt))
    (fun _ name => Return (Driver.mkDb name))
    (fun d name => Return (Driver.mkCollection name d))
    (fun _ _ => quiet (Driver.mkInsertOne (Driver.mkObjectId "65a1") true))
    (fun _ ds => quiet (Driver.mkInsertMany [] (Z.of_nat (length ds))))
    (fun _ q => Return (Driver.mkCursor q None None None))
    (fun c s => Return c)
    (fun c n => Return c)
    (fun c n => Return c)
    (fun _ => quiet [])
    (fun _ _ => quiet None)
    (fun _ _ _ => quiet updated)
    (fun _ _ _ => quiet updated)
    (fun _ _ => quiet (Driver.mkDelete true 1))
    (fun _ _ => quiet (Driver.mkDelete true 1))
    (fun _ _ => quiet 0)
    (fun _ _ _ => quiet "idx").

(** A driver that cannot reach the server: every awaited call rejects. *)
Definition refused : JsThrown := ThrownError (JsError.mk "ECONNREFUSED").
Definition rejecting {A} : Driver.Reply A :=
  Driver.mkReply [Driver.serverOpening; Driver.serverClosed] (Throw refused).

Definition unreachable_driver : Driver.t :=
  Driver.mk
    (fun uri o => Return (Driver.mkClient uri o))
    (fun _ => rejecting)
    (fun _ => rejecting)
    (fun _ name => Return (Driver.mkDb name))
    (fun d name => Return (Driver.mkCollection name d))
    (fun _ _ => rejecting)
    (fun _ _ => rejecting)
    (fun _ q => Return (Driver.mkCursor q None None None))
    (fun c s => Return c)
    (fun c n => Return c)
    (fun c n => Return c)
    (fun _ => rejecting)
    (fun _ _ => rejecting)
    (fun _ _ _ => rejecting)
    (fun _ _ _ => rejecting)
    (fun _ _ => rejecting)
    (fun _ _ => rejecting)
    (fun _ _ => rejecting)
    (fun _ _ _ => rejecting).

(** An SDK whose every call succeeds; [missing] lists the document paths
    that hold no document. *)
Definition healthy_sdk (missing : list string) : Sdk.t :=
  Sdk.mk
    (fun sa => Return (Sdk.credential sa))
    (fun _ => Return tt)
    (Return Sdk.firestoreHandle)
    (fun _ path => Return (Sdk.mkRef path path))
    (fun r => Return (Sdk.mkSnapshot
                        (negb (existsb (String.eqb (Sdk.ref_path r)) missing))
                        (Sdk.ref_id r) [("name", JsStr "John")]))
    (fun _ _ _ => Return tt)
    (fun _ _ => Return tt)
    (fun _ => Return tt)
    (fun _ path => Return (Sdk.queryHandle path []))
    (fun _ _ => Return (Sdk.mkRef "auto-id" "auto-id"))
    (fun q _ => Return q)
    (fun q _ _ => Return q)
    (fun q _ => Return q)
    (fun q _ => Return q)
    (fun _ => Return (Sdk.mkQuerySnapshot []))
    (fun _ => Return (Sdk.unsubscribeHandle 1))
    (fun _ => Return (Sdk.unsubscribeHandle 2))
    (fun _ => Return (Sdk.batchHandle []))
    (fun b _ _ _ => Return b)
    (fun b _ _ => Return b)
    (fun b _ => Return b)
    (fun _ => Return tt)
    (fun _ f => f Sdk.transactionHandle).

Definition empty_world : World unit := mkWorld tt [] [] [].

Definition sample_mongo_options : MongoDBOptions.t :=
  MongoDBOptions.mk "mongodb://localhost:27017" "test" None.

Definition sample_firebase_options : FirebaseOptions.t :=
  FirebaseOptions.mk [("projectId", JsStr "test-project")] None None.

(** A MongoDB adapter that was constructed and never connected. *)
Definition sample_mongo_world : World MongoDB.t :=
  match MongoDB.new healthy_driver sample_mongo_options empty_world with
  | (w, Return m) => with_this m w
  | (w, Throw _) => with_this MongoDB.fresh w
  end.

(** A Firebase adapter constructed against a working SDK in which the
    document [users/nonexistent] does not exist. *)
Definition sample_sdk : Sdk.t := healthy_sdk ["users/nonexistent"].

Definition sample_firebase_world : World Firebase.t :=
  match Firebase.new sample_sdk sample_firebase_options empty_world with
  | (w, Return b) => with_this b w
  | (w, Throw _) => with_this Firebase.fresh w
  end.

(** A facade configured with both backends, as [new DB(...)] leaves it. *)
Definition sample_db_world (drv : Driver.t) : World DB.t :=
  match DB.new drv sample_sdk
          (DBOptions.mk (Some sample_mongo_options) (Some sample_firebase_options))
          empty_world with
  | (w, Return d) => with_this d w
  | (w, Throw _) => with_this DB.fresh w
  end.

(** The two adapters of a facade, and an action on one of them: what a
    caller does through [db.mongo] or [db.firebase]. *)
Inductive AdapterAction :=
| OnMongo (a : MongoAction)
| OnFirebase (a : FirebaseAction).

Definition adapter_step (a : AdapterAction) (w : World DB.t) : World DB.t :=
  match a with
  | OnMongo a' =>
      match DB.mongo (this w) with
      | Some m =>
          let w' := mongo_step a' (with_this m w) in
          with_this (DB.set_mongo (this w') (this w)) w'
      | None => w
      end
  | OnFirebase a' =>
      match DB.firebase (this w) with
      | Some b =>
          let w' := firebase_step a' (with_this b w) in
          with_this (DB.set_firebase (this w') (this w)) w'
      | None => w
      end
  end.

(** ** Reasoning about computations *)

(** [c] completes normally from every world. *)
Definition returns {T A} (c : M T A) : Prop :=
  forall w, exists w' a, c w = (w', Return a).

(** [c] keeps the property [P] of the object it runs on. *)
Definition preserves {T A} (P : T -> Prop) (c : M T A) : Prop :=
  forall w, P (this w) -> P (this (fst (c w))).

(** An envelope is well formed when it carries an error exactly on failure. *)
Definition well_formed {A} (r : OperationResult A) : Prop :=
  (success r = true /\ error r = None) \/
  (success r = false /\ exists e, error r = Some e).

(** [c] resolves to a well-formed envelope from every world. *)
Definition resolves {T A} (c : M T (OperationResult A)) : Prop :=
  forall w, exists w' r, c w = (w', Return r) /\ well_formed r.

(** [sub] occurs in [s]. *)
Definition contains (s sub : string) : Prop :=
  exists pre post, s = pre +++ sub +++ post.

Definition success_of {A} (c : Completion (OperationResult A)) : bool :=
  match c with
  | Return r => success r
  | Throw _ => false
  end.

(** Every value [c] can return satisfies [Q]. *)
Definition yields {T A} (Q : A -> Prop) (c : M T A) : Prop :=
  forall w w' a, c w = (w', Return a) -> Q a.

(** Properties that survive every write the adapter's methods and listeners
    make: a status other than reconnecting, any database handle, and a
    reconnect counter of 0. *)
Definition write_stable (P : MongoDB.t -> Prop) : Prop :=
  (forall s m, s <> RECONNECTING -> P m -> P (MongoDB.set_connectionStatus s m)) /\
  (forall d m, P m -> P (MongoDB.set_db d m)) /\
  (forall m, P m -> P (MongoDB.set_reconnectAttempts 0 m)).

Definition set_maxReconnectAttempts (k : Z) (m : MongoDB.t) : MongoDB.t :=
  MongoDB.mk (MongoDB.client m) (MongoDB.db m) (MongoDB.dbName m)
    (MongoDB.connectionStatus m) (MongoDB.reconnectAttempts m) k.

Definition with_max (k : Z) (w : World MongoDB.t) : World MongoDB.t :=
  with_this (set_maxReconnectAttempts k (this w)) w.

(** Running [c] with another value in the field gives the same completion
    and the same world, up to that field. *)
Definition ignores_max {A} (c : M MongoDB.t A) : Prop :=
  forall k w, c (with_max k w) = (with_max k (fst (c w)), snd (c w)).

(** The calls a constructor makes before it asks for the Firestore handle:
    the app is initialised only when the registry holds none. *)
Definition init_calls (apps : list FirebaseOptions.t) : list Call :=
  match apps with
  | [] => [ClientCall "admin.credential.cert" ""; ClientCall "admin.initializeApp" ""]
  | _ :: _ => []
  end.

(** The four statuses other than reconnecting. *)
Definition settled (s : ConnectionStatus) : Prop :=
  s = DISCONNECTED \/ s = CONNECTING \/ s = CONNECTED \/ s = ERROR.

(** The messages [DB.connect] pushes on [errors]. *)
Definition mongo_errors (c : option (Completion (OperationResult unit))) : list string :=
  match c with
  | Some (Return r) =>
      if success r then []
      else ["MongoDB: " +++ or_str (option_map JsError.message (error r))
                                   "Connection failed"]
  | Some (Throw t) => ["MongoDB: " +++ message_or_unknown t]
  | None => []
  end.

Definition firebase_errors (fb : option Firebase.t) : list string :=
  match option_map Firebase.connected fb with
  | Some false => ["Firebase: Connection failed during initialization"]
  | _ => []
  end.

(** ** Concrete runs *)

Example connect_against_refusing_driver :
  snd (DB.connect unreachable_driver (sample_db_world unreachable_driver)) =
  Return (failed_with_data
            (JsError.mk "Some databases failed to connect: MongoDB: ECONNREFUSED")
            (DB.mkPer (Some false) (Some true))).
Proof. reflexivity. Qed.

Example connect_against_working_driver :
  snd (DB.connect healthy_driver (sample_db_world healthy_driver)) =
  Return (ok_data (DB.mkPer (Some true) (Some true))).
Proof. reflexivity. Qed.

Example find_skips_but_does_not_limit :
  let connected := fst (MongoDB.connect healthy_driver sample_mongo_world) in
  let w := fst (MongoDB.find healthy_driver "users" None
                  (Some (MongoDB.mkFindOptions (Some 0) (Some 3) None)) connected) in
  skipn (length (calls connected)) (calls w) =
  [ClientCall "db.collection" "users"; ClientCall "collection.find" "users";
   ClientCall "cursor.skip" "users"; ClientCall "cursor.toArray" "users"].
Proof. reflexivity. Qed.

Example getDocument_adds_the_id :
  snd (Firebase.getDocument sample_sdk "users/john" sample_firebase_world) =
  Return (ok_data (Some [("id", JsStr "users/john"); ("name", JsStr "John")])).
Proof. reflexivity. Qed.

Example snapshot_data_overrides_the_id :
  Firebase.with_id (Sdk.mkSnapshot true "abc" [("name", JsStr "A"); ("id", JsStr "own")]) =
  [("id", JsStr "own"); ("name", JsStr "A")].
Proof. reflexivity. Qed.

Example changes_are_sorted_by_type :
  let snap i := Sdk.mkSnapshot true i [] in
  Firebase.collection_changes
    [Sdk.mkChange Sdk.added (snap "a"); Sdk.mkChange Sdk.removed (snap "b");
     Sdk.mkChange Sdk.added (snap "c")] =
  Firebase.mkChanges [[("id", JsStr "a")]; [("id", JsStr "c")]] []
                     [[("id", JsStr "b")]].
Proof. reflexivity. Qed.

Example legacy_getDocuments_returns_the_array :
  snd (MongoDB.getDocuments healthy_driver "users" None
         (fst (MongoDB.connect healthy_driver sample_mongo_world))) = Return [].
Proof. reflexivity. Qed.

(** ** Generic lemmas *)

Section Generic.
Context {T : Type}.

Lemma try_catch_resolves {A} (body : M T (OperationResult A)) handler :
  (forall w w' r, body w = (w', Return r) -> well_formed r) ->
  (forall t, resolves (handler t)) ->
  resolves (try_catch body handler).
Proof.
  intros Hbody Hhandler w. unfold try_catch.
  destruct (body w) as [w' [r | t]] eqn:E.
  - exists w', r. split; [reflexivity | eauto].
  - apply Hhandler.
Qed.

Lemma try_catch_returns {A} (body : M T A) handler :
  (forall t, returns (handler t)) -> returns (try_catch body handler).
Proof.
  intros Hhandler w. unfold try_catch.
  destruct (body w) as [w' [a | t]].
  - now exists w', a.
  - apply Hhandler.
Qed.

(** A sequence that returns: its first part returned, and the rest
    returned from where the first part left the world. *)
Lemma bind_inv {A B} (c : M T A) (k : A -> M T B) w w' b :
  bind c k w = (w', Return b) ->
  exists w1 a, c w = (w1, Return a) /\ k a w1 = (w', Return b).
Proof.
  unfold bind. destruct (c w) as [w1 [a | t]]; intros H.
  - now exists w1, a.
  - discriminate.
Qed.

Variable P : T -> Prop.

Lemma preserves_ret {A} (a : A) : preserves P (ret a).
Proof. intros w H. exact H. Qed.

Lemma preserves_throw {A} t : preserves P (@throw T A t).
Proof. intros w H. exact H. Qed.

Lemma preserves_logger level msg : preserves P (logger level msg).
Proof. intros w H. exact H. Qed.

Lemma preserves_client_call {A} method target (r : Completion A) :
  preserves P (client_call method target r).
Proof. intros w H. exact H. Qed.

Lemma preserves_get_this : preserves P get_this.
Proof. intros w H. exact H. Qed.

Lemma preserves_bind {A B} (c : M T A) (k : A -> M T B) :
  preserves P c -> (forall a, preserves P (k a)) -> preserves P (bind c k).
Proof.
  intros Hc Hk w H. unfold bind. specialize (Hc w H).
  destruct (c w) as [w' [a | t]]; simpl in *.
  - now apply Hk.
  - exact Hc.
Qed.

Lemma preserves_try_catch {A} (body : M T A) handler :
  preserves P body -> (forall t, preserves P (handler t)) ->
  preserves P (try_catch body handler).
Proof.
  intros Hb Hh w H. unfold try_catch. specialize (Hb w H).
  destruct (body w) as [w' [a | t]]; simpl in *.
  - exact Hb.
  - now apply Hh.
Qed.

Lemma preserves_when c (body : M T unit) :
  preserves P body -> preserves P (when c body).
Proof. destruct c; intros H; [exact H | apply preserves_ret]. Qed.

Lemma preserves_modify (f : T -> T) :
  (forall x, P x -> P (f x)) -> preserves P (modify_this f).
Proof. intros Hf w H. now apply Hf. Qed.
End Generic.

(** One step of a preservation proof: split a sequence, a [try], or a case
    distinction, or close a leaf. *)
Ltac preserves_step :=
  first
    [ apply preserves_ret | apply preserves_throw | apply preserves_logger
    | apply preserves_client_call | apply preserves_get_this
    | apply preserves_bind; [ | intros ? ]
    | apply preserves_try_catch; [ | intros ? ]
    | apply preserves_when
    | match goal with
      | |- preserves _ (match ?x with _ => _ end) => destruct x
      | |- preserves _ (let _ := _ in _) => cbv zeta
      end ].

Section Yields.
Context {T A : Type}.
Variable Q : A -> Prop.

Lemma yields_ret (a : A) : Q a -> yields (T := T) Q (ret a).
Proof. intros H w w' a' E. inversion E; subst. exact H. Qed.

Lemma yields_throw t : yields (T := T) Q (throw t).
Proof. intros w w' a E. discriminate. Qed.

Lemma yields_bind {B} (c : M T B) (k : B -> M T A) :
  (forall b, yields Q (k b)) -> yields Q (bind c k).
Proof.
  intros Hk w w' a E. apply bind_inv in E as (w1 & b & _ & E).
  exact (Hk b w1 w' a E).
Qed.
End Yields.

Ltac yields_step :=
  first
    [ apply yields_bind; intros ?
    | apply yields_throw
    | apply yields_ret
    | match goal with
      | |- yields _ (match ?x with _ => _ end) => destruct x
      | |- yields _ (let _ := _ in _) => cbv zeta
      end ].

Lemma well_formed_ok_data {A} (d : A) : well_formed (ok_data d).
Proof. left. split; reflexivity. Qed.

Lemma well_formed_ok_message {A} m : well_formed (@ok_message A m).
Proof. left. split; reflexivity. Qed.

Lemma well_formed_failed {A} e : well_formed (@failed A e).
Proof. right. split; [reflexivity | now exists e]. Qed.

Create HintDb envelope.
#[local] Hint Resolve well_formed_ok_data well_formed_ok_message well_formed_failed
  : envelope.

Lemma mongo_catch_with_resolves {A} msg t :
  resolves (@MongoDB.catch_with A msg t).
Proof. intros w. eexists _, _. split; [reflexivity | auto with envelope]. Qed.

Lemma firebase_catch_with_resolves {A} msg t :
  resolves (@Firebase.catch_with A msg t).
Proof. intros w. eexists _, _. split; [reflexivity | auto with envelope]. Qed.

(** A [try] block whose last statement returns a success envelope, closed by
    a handler that returns a failure envelope. *)
Ltac resolves_try :=
  apply try_catch_resolves;
  [ match goal with
    | |- forall w w' r, ?b w = (w', Return r) -> well_formed r =>
        change (yields well_formed b)
    end;
    repeat yields_step; auto with envelope
  | intros ?;
    first [ apply mongo_catch_with_resolves | apply firebase_catch_with_resolves
          | intros ?; eexists _, _; split; [reflexivity | auto with envelope] ] ].

Lemma mongo_invoke_resolves drv {A} (op : MongoDB.Op A) :
  resolves (MongoDB.invoke drv op).
Proof.
  destruct op; cbn [MongoDB.invoke];
    unfold MongoDB.connect, MongoDB.connect_rest, MongoDB.disconnect,
      MongoDB.insertOne, MongoDB.insertMany, MongoDB.find, MongoDB.findOne,
      MongoDB.updateOne, MongoDB.updateMany, MongoDB.deleteOne, MongoDB.deleteMany,
      MongoDB.countDocuments, MongoDB.createIndex, MongoDB.connect_catch;
    cbv zeta; resolves_try.
Qed.

Lemma firebase_invoke_resolves sdk {A} (op : Firebase.Op A) :
  resolves (Firebase.invoke sdk op).
Proof.
  destruct op; cbn [Firebase.invoke];
    unfold Firebase.getDocument, Firebase.setDocument, Firebase.updateDocument,
      Firebase.deleteDocument, Firebase.addDocument, Firebase.getCollection,
      Firebase.batchWrite, Firebase.runTransaction;
    cbv zeta; resolves_try.
Qed.

Lemma listener_handler_returns {T} msg :
  returns (T := T) (logger ERR msg ;; ret Firebase.EmptyUnsubscribe).
Proof. intros w. eexists _, _. reflexivity. Qed.

Lemma legacy_rethrows {A B} (c : M MongoDB.t (OperationResult A))
    (k : OperationResult A -> B) fallback w :
  resolves c ->
  exists w' r,
    c w = (w', Return r) /\
    (result <- c ;;
     if negb (success result) then MongoDB.rethrow result fallback
     else ret (k result)) w =
    (w', if success r then Return (k r)
         else Throw (ThrownError (nullish (error r) (JsError.mk fallback)))).
Proof.
  intros Hc. destruct (Hc w) as (w' & r & E & _). exists w', r.
  split; [exact E | ]. unfold bind. rewrite E.
  destruct (success r); reflexivity.
Qed.

(** C1, as the code has it: every public method declared to return an
    [OperationResult] (MongoDB: connect, disconnect and the ten CRUD, count
    and index methods; Firebase: the eight document, collection, batch and
    transaction methods) resolves to an envelope for every input and every
    outcome of the underlying client calls, with an error exactly when
    [success] is false, and never throws.  The other public methods are
    outside the envelope: the two listeners return an unsubscribe function
    without throwing, [MongoDB.getCollection] throws while there is no
    database handle, and each legacy MongoDB method throws the error of the
    envelope method it wraps whenever that one fails. *)
Theorem envelope_methods_never_throw :
  (forall drv A (op : MongoDB.Op A), resolves (MongoDB.invoke drv op)) /\
  (forall sdk A (op : Firebase.Op A), resolves (Firebase.invoke sdk op)) /\
  (forall sdk path options, returns (Firebase.listenCollection sdk path options)) /\
  (forall sdk path, returns (Firebase.listenDocument sdk path)) /\
  (forall drv name w,
     MongoDB.getCollection drv name w =
     match MongoDB.db (this w) with
     | None =>
         (w, Throw (ThrownError
                      (JsError.mk "Not connected to MongoDB. Call connect() first.")))
     | Some d =>
         (mkWorld (this w) (admin_apps w)
                  (calls w ++ [ClientCall "db.collection" name]) (logs w),
          Driver.collection drv d name)
     end) /\
  (forall drv name doc w, exists w' r,
     MongoDB.insertOne drv name doc w = (w', Return r) /\
     MongoDB.addDocument drv name doc w =
     (w', if success r then Return tt
          else Throw (ThrownError
                        (nullish (error r) (JsError.mk "Failed to insert document"))))) /\
  (forall drv name query w, exists w' r,
     MongoDB.find drv name (Some (nullish query [])) None w = (w', Return r) /\
     MongoDB.getDocuments drv name query w =
     (w', if success r then Return (nullish (data r) [])
          else Throw (ThrownError
                        (nullish (error r) (JsError.mk "Failed to find documents"))))) /\
  (forall drv name query w, exists w' r,
     MongoDB.deleteOne drv name query w = (w', Return r) /\
     MongoDB.deleteDocument drv name query w =
     (w', if success r then Return tt
          else Throw (ThrownError
                        (nullish (error r) (JsError.mk "Failed to delete document"))))) /\
  (forall drv name query update w, exists w' r,
     MongoDB.updateOne drv name query [("$set", JsObj update)] w = (w', Return r) /\
     MongoDB.updateDocument drv name query update w =
     (w', if success r then Return tt
          else Throw (ThrownError
                        (nullish (error r) (JsError.mk "Failed to update document"))))).
Proof.
  repeat split.
  - intros. apply mongo_invoke_resolves.
  - intros. apply firebase_invoke_resolves.
  - intros. apply try_catch_returns. intros t. apply listener_handler_returns.
  - intros. apply try_catch_returns. intros t. apply listener_handler_returns.
  - intros drv name w. unfold MongoDB.getCollection, bind, get_this.
    destruct (MongoDB.db (this w)); reflexivity.
  - intros drv name doc w.
    exact (legacy_rethrows _ (fun _ => tt) _ w
             (mongo_invoke_resolves drv (MongoDB.InsertOne name doc))).
  - intros drv name query w.
    exact (legacy_rethrows _ (fun r => nullish (data r) []) _ w
             (mongo_invoke_resolves drv
                (MongoDB.Find name (Some (nullish query [])) None))).
  - intros drv name query w.
    exact (legacy_rethrows _ (fun _ => tt) _ w
             (mongo_invoke_resolves drv (MongoDB.DeleteOne name query))).
  - intros drv name query update w.
    exact (legacy_rethrows _ (fun _ => tt) _ w
             (mongo_invoke_resolves drv
                (MongoDB.UpdateOne name query [("$set", JsObj update)]))).
Qed.

(** C1, as stated, fails: on an adapter that was constructed and not
    connected, the public [getCollection] throws, and so does the public
    legacy [addDocument]. *)
Lemma public_methods_can_throw :
  snd (MongoDB.invoke_plain healthy_driver (MongoDB.GetCollection "users")
         sample_mongo_world) =
  Throw (ThrownError (JsError.mk "Not connected to MongoDB. Call connect() first.")) /\
  snd (MongoDB.invoke_plain healthy_driver (MongoDB.AddDocument "users" [])
         sample_mongo_world) =
  Throw (ThrownError (JsError.mk "Not connected to MongoDB")).
Proof. split; reflexivity. Qed.

Lemma mongo_guard_fails {A} (body : M MongoDB.t (OperationResult A)) msg w :
  MongoDB.connected (this w) = false ->
  try_catch (MongoDB.require_connected ;; body) (MongoDB.catch_with msg) w =
  (mkWorld (this w) (admin_apps w) (calls w) (logs w ++ [(ERR, msg)]),
   Return (failed (JsError.mk "Not connected to MongoDB"))).
Proof.
  intros H.
  unfold try_catch, bind, MongoDB.require_connected, MongoDB.isConnected, bind, get_this.
  cbn. rewrite H. reflexivity.
Qed.

(** C6: a CRUD, count or index method called while [isConnected()] is false
    returns [{success: false, error}], makes no call on the driver, and
    leaves the connection status and the database handle as they were. *)
Theorem crud_requires_connection drv {A} (op : MongoDB.Op A) w :
  MongoDB.is_crud op = true ->
  snd (MongoDB.isConnected w) = Return false ->
  exists w' r,
    MongoDB.invoke drv op w = (w', Return r) /\
    success r = false /\
    error r = Some (JsError.mk "Not connected to MongoDB") /\
    calls w' = calls w /\
    MongoDB.connectionStatus (this w') = MongoDB.connectionStatus (this w) /\
    MongoDB.db (this w') = MongoDB.db (this w).
Proof.
  intros Hcrud Hconn.
  assert (H : MongoDB.connected (this w) = false)
    by (cbn in Hconn; congruence).
  destruct op; try discriminate Hcrud; cbn [MongoDB.invoke];
    unfold MongoDB.insertOne, MongoDB.insertMany, MongoDB.find, MongoDB.findOne,
      MongoDB.updateOne, MongoDB.updateMany, MongoDB.deleteOne, MongoDB.deleteMany,
      MongoDB.countDocuments, MongoDB.createIndex;
    cbv zeta; rewrite (mongo_guard_fails _ _ w H);
    eexists _, _; (split; [reflexivity | repeat split]).
Qed.

(** The guard at work: [insertOne] on an adapter that was constructed and
    never connected. *)
Lemma crud_requires_connection_witness :
  (MongoDB.is_crud (MongoDB.InsertOne "users" [("name", JsStr "John")]) = true /\
   snd (MongoDB.isConnected sample_mongo_world) = Return false) /\
  exists w' r,
    MongoDB.invoke healthy_driver
      (MongoDB.InsertOne "users" [("name", JsStr "John")]) sample_mongo_world =
    (w', Return r) /\
    success r = false /\
    error r = Some (JsError.mk "Not connected to MongoDB") /\
    calls w' = calls sample_mongo_world /\
    MongoDB.connectionStatus (this w') =
      MongoDB.connectionStatus (this sample_mongo_world) /\
    MongoDB.db (this w') = MongoDB.db (this sample_mongo_world).
Proof.
  split; [split; reflexivity | ].
  apply (crud_requires_connection healthy_driver
           (MongoDB.InsertOne "users" [("name", JsStr "John")]) sample_mongo_world);
    reflexivity.
Defined.

(** Listeners only ever write the status field and the log. *)
Lemma emit_all_spec evs w :
  exists s l,
    MongoDB.emit_all evs w =
    (mkWorld (MongoDB.mk (MongoDB.client (this w)) (MongoDB.db (this w))
                (MongoDB.dbName (this w)) s
                (MongoDB.reconnectAttempts (this w))
                (MongoDB.maxReconnectAttempts (this w)))
       (admin_apps w) (calls w) (logs w ++ l),
     Return tt).
Proof.
  revert w. induction evs as [| ev evs IH]; intros [[c d n s ra mx] apps cs ls].
  - exists s, []. cbn. now rewrite app_nil_r.
  - cbn [MongoDB.emit_all]. unfold bind at 1.
    destruct ev; cbn;
      match goal with
      | |- context [MongoDB.emit_all evs ?w1] =>
          destruct (IH w1) as (s' & l & E); rewrite E; cbn;
          eexists s', _; try rewrite <- app_assoc; reflexivity
      end.
Qed.

Lemma await_spec {A} method target (r : Driver.Reply A) w :
  exists s l,
    MongoDB.await method target r w =
    (mkWorld (MongoDB.mk (MongoDB.client (this w)) (MongoDB.db (this w))
                (MongoDB.dbName (this w)) s
                (MongoDB.reconnectAttempts (this w))
                (MongoDB.maxReconnectAttempts (this w)))
       (admin_apps w) (calls w ++ [ClientCall method target]) (logs w ++ l),
     Driver.outcome r).
Proof.
  unfold MongoDB.await, bind, client_call.
  match goal with
  | |- context [MongoDB.emit_all _ ?w1] =>
      destruct (emit_all_spec (Driver.emitted r) w1) as (s & l & E); rewrite E
  end.
  exists s, l. reflexivity.
Qed.

(** C7: [connect] first sets the status to connecting; when the driver's
    [connect] and [db] calls return it ends connected, with the database
    handle set, the reconnect counter at 0 and [{success: true}]; when either
    throws it ends in error with [{success: false, error}].  [disconnect],
    when the driver's [close] returns, ends disconnected with the handle
    cleared, so that [isConnected()] is false. *)
Theorem connect_disconnect_drive_status drv c w :
  MongoDB.client (this w) = Some c ->
  (MongoDB.connect drv =
   try_catch (MongoDB.connect_entry ;; MongoDB.connect_rest drv) MongoDB.connect_catch /\
   exists w1,
     MongoDB.connect_entry w = (w1, Return tt) /\
     MongoDB.connectionStatus (this w1) = CONNECTING /\
     calls w1 = calls w) /\
  (exists w' r,
     MongoDB.connect drv w = (w', Return r) /\
     match Driver.outcome (Driver.connect drv c),
           Driver.db drv c (MongoDB.dbName (this w)) with
     | Return _, Return d =>
         MongoDB.connectionStatus (this w') = CONNECTED /\
         MongoDB.db (this w') = Some d /\
         MongoDB.reconnectAttempts (this w') = 0 /\
         success r = true /\ error r = None /\
         snd (MongoDB.isConnected w') = Return true
     | Throw t, _ | Return _, Throw t =>
         MongoDB.connectionStatus (this w') = ERROR /\
         success r = false /\
         error r = Some (error_or_new t ("Failed to connect to MongoDB: "
                                         +++ message_or_unknown t)) /\
         snd (MongoDB.isConnected w') = Return false
     end) /\
  (exists w' r,
     MongoDB.disconnect drv w = (w', Return r) /\
     match Driver.outcome (Driver.close drv c) with
     | Return _ =>
         MongoDB.connectionStatus (this w') = DISCONNECTED /\
         MongoDB.db (this w') = None /\
         success r = true /\ error r = None /\
         snd (MongoDB.isConnected w') = Return false
     | Throw t =>
         MongoDB.db (this w') = MongoDB.db (this w) /\
         success r = false /\
         error r = Some (error_or_new t ("Error disconnecting from MongoDB: "
                                         +++ message_or_unknown t))
     end).
Proof.
  destruct w as [[cl d n s ra mx] apps cs ls]. cbn [this MongoDB.client].
  intros ->. split; [ | split].
  - split; [reflexivity | ]. eexists. repeat split.
  - unfold MongoDB.connect, MongoDB.connect_rest, MongoDB.connect_entry,
      MongoDB.the_client, try_catch.
    unfold bind at 1 2 3 4. cbn -[MongoDB.await bind String.append].
    unfold bind at 1.
    match goal with
    | |- context [MongoDB.await ?m ?t ?r ?w1] =>
        destruct (await_spec m t r w1) as (s' & l & E); rewrite E; clear E
    end.
    cbn -[String.append].
    destruct (Driver.outcome (Driver.connect drv c)) as [[] | t].
    + cbn -[String.append]. destruct (Driver.db drv c n) as [d' | t];
        cbn -[String.append]; eexists _, _; (split; [reflexivity | ]);
        cbn; repeat split.
    + cbn -[String.append]. eexists _, _. split; [reflexivity | ].
      cbn. repeat split.
  - unfold MongoDB.disconnect, MongoDB.the_client, try_catch.
    unfold bind at 1 2 3. cbn -[MongoDB.await bind String.append].
    unfold bind at 1.
    match goal with
    | |- context [MongoDB.await ?m ?t ?r ?w1] =>
        destruct (await_spec m t r w1) as (s' & l & E); rewrite E; clear E
    end.
    cbn -[String.append].
    destruct (Driver.outcome (Driver.close drv c)) as [[] | t];
      cbn -[String.append]; eexists _, _; (split; [reflexivity | ]);
      cbn; repeat split.
Qed.

(** [connect] on a constructed adapter, against a driver that connects and
    against one that refuses. *)
Lemma connect_disconnect_witness :
  MongoDB.client (this sample_mongo_world) =
    Some (Driver.mkClient "mongodb://localhost:27017"
            (MongoDB.clientOptions_of sample_mongo_options)) /\
  (exists w' r,
     MongoDB.connect healthy_driver sample_mongo_world = (w', Return r) /\
     MongoDB.connectionStatus (this w') = CONNECTED /\
     MongoDB.db (this w') = Some (Driver.mkDb (Some "test")) /\
     MongoDB.reconnectAttempts (this w') = 0 /\
     success r = true) /\
  (exists w' r,
     MongoDB.connect unreachable_driver sample_mongo_world = (w', Return r) /\
     MongoDB.connectionStatus (this w') = ERROR /\
     success r = false /\
     error r = Some (JsError.mk "ECONNREFUSED")).
Proof.
  split; [reflexivity | split].
  - destruct (connect_disconnect_drive_status healthy_driver _ sample_mongo_world
                eq_refl) as (_ & (w' & r & E & H) & _).
    exists w', r. split; [exact E | ]. cbn in H. tauto.
  - destruct (connect_disconnect_drive_status unreachable_driver _ sample_mongo_world
                eq_refl) as (_ & (w' & r & E & H) & _).
    exists w', r. split; [exact E | ]. cbn in H. tauto.
Defined.

(** ** Invariants of the MongoDB adapter *)

Section MongoPreserves.
Variable P : MongoDB.t -> Prop.
Hypothesis stable : write_stable P.

Lemma set_status_preserves s :
  s <> RECONNECTING -> preserves P (modify_this (MongoDB.set_connectionStatus s)).
Proof. intros Hs. apply preserves_modify. intros m. now apply stable. Qed.

Lemma set_db_preserves d : preserves P (modify_this (MongoDB.set_db d)).
Proof. apply preserves_modify. intros m. now apply stable. Qed.

Lemma reset_attempts_preserves :
  preserves P (modify_this (MongoDB.set_reconnectAttempts 0)).
Proof. apply preserves_modify. intros m. now apply stable. Qed.

Ltac mongo_preserves_step :=
  first
    [ preserves_step
    | apply set_status_preserves; discriminate
    | apply set_db_preserves
    | apply reset_attempts_preserves ].

Lemma on_event_preserves ev : preserves P (MongoDB.on_event ev).
Proof. destruct ev; cbn [MongoDB.on_event]; repeat mongo_preserves_step. Qed.

Lemma emit_all_preserves evs : preserves P (MongoDB.emit_all evs).
Proof.
  induction evs as [| ev evs IH]; cbn [MongoDB.emit_all].
  - apply preserves_ret.
  - apply preserves_bind; [apply on_event_preserves | intros _; exact IH].
Qed.

Lemma await_preserves {A} method target (r : Driver.Reply A) :
  preserves P (MongoDB.await method target r).
Proof.
  unfold MongoDB.await.
  apply preserves_bind; [apply preserves_client_call | intros _].
  apply preserves_bind; [apply emit_all_preserves | intros _].
  intros w H. exact H.
Qed.

Ltac mongo_preserves :=
  repeat first [ apply await_preserves | mongo_preserves_step ].

Lemma mongo_invoke_preserves drv {A} (op : MongoDB.Op A) :
  preserves P (MongoDB.invoke drv op).
Proof.
  destruct op; cbn [MongoDB.invoke];
    unfold MongoDB.connect, MongoDB.connect_entry, MongoDB.connect_rest,
      MongoDB.connect_catch, MongoDB.disconnect,
      MongoDB.insertOne, MongoDB.insertMany, MongoDB.find, MongoDB.findOne,
      MongoDB.updateOne, MongoDB.updateMany, MongoDB.deleteOne, MongoDB.deleteMany,
      MongoDB.countDocuments, MongoDB.createIndex,
      MongoDB.catch_with, MongoDB.require_connected, MongoDB.isConnected,
      MongoDB.getCollection, MongoDB.the_client, throw_new_Error;
    mongo_preserves.
Qed.

Lemma mongo_invoke_plain_preserves drv {A} (op : MongoDB.PlainOp A) :
  preserves P (MongoDB.invoke_plain drv op).
Proof.
  destruct op; cbn [MongoDB.invoke_plain];
    unfold MongoDB.addDocument, MongoDB.getDocuments, MongoDB.deleteDocument,
      MongoDB.updateDocument, MongoDB.rethrow,
      MongoDB.getConnectionStatus, MongoDB.isConnected, MongoDB.getCollection,
      throw_new_Error;
    repeat first
      [ apply (mongo_invoke_preserves drv (MongoDB.InsertOne _ _))
      | apply (mongo_invoke_preserves drv (MongoDB.Find _ _ _))
      | apply (mongo_invoke_preserves drv (MongoDB.DeleteOne _ _))
      | apply (mongo_invoke_preserves drv (MongoDB.UpdateOne _ _ _))
      | mongo_preserves_step ].
Qed.

Lemma mongo_step_preserves a w : P (this w) -> P (this (mongo_step a w)).
Proof.
  destruct a as [ev | drv A op | drv A op]; cbn [mongo_step].
  - apply on_event_preserves.
  - apply mongo_invoke_preserves.
  - apply mongo_invoke_plain_preserves.
Qed.
End MongoPreserves.

(** *** [maxReconnectAttempts] is never read *)

Section IgnoresMax.
Lemma ignores_ret {A} (a : A) : ignores_max (ret a).
Proof. intros k w. reflexivity. Qed.

Lemma ignores_throw {A} t : ignores_max (@throw _ A t).
Proof. intros k w. reflexivity. Qed.

Lemma ignores_logger level msg : ignores_max (logger level msg).
Proof. intros k w. reflexivity. Qed.

Lemma ignores_client_call {A} method target (r : Completion A) :
  ignores_max (client_call method target r).
Proof. intros k w. reflexivity. Qed.

Lemma ignores_settle {A} (r : Completion A) :
  ignores_max (fun w => (w, r)).
Proof. intros k w. reflexivity. Qed.

Lemma ignores_bind {A B} (c : M MongoDB.t A) (f : A -> M MongoDB.t B) :
  ignores_max c -> (forall a, ignores_max (f a)) -> ignores_max (bind c f).
Proof.
  intros Hc Hf k w. unfold bind. rewrite Hc.
  destruct (c w) as [w' [a | t]]; cbn [fst snd].
  - apply Hf.
  - reflexivity.
Qed.

Lemma ignores_try_catch {A} (body : M MongoDB.t A) handler :
  ignores_max body -> (forall t, ignores_max (handler t)) ->
  ignores_max (try_catch body handler).
Proof.
  intros Hb Hh k w. unfold try_catch. rewrite Hb.
  destruct (body w) as [w' [a | t]]; cbn [fst snd].
  - reflexivity.
  - apply Hh.
Qed.

Lemma ignores_when c (body : M MongoDB.t unit) :
  ignores_max body -> ignores_max (when c body).
Proof. destruct c; intros H; [exact H | apply ignores_ret]. Qed.

(** A continuation of [get_this] that reads no more of the object than
    [view] shows, where [view] does not show the field. *)
Lemma ignores_bind_get {V A} (view : MongoDB.t -> V) (f : V -> M MongoDB.t A) :
  (forall k m, view (set_maxReconnectAttempts k m) = view m) ->
  (forall v, ignores_max (f v)) ->
  ignores_max (self <- get_this ;; f (view self)).
Proof.
  intros Hview Hf k w. unfold bind, get_this. cbn [this with_max with_this].
  rewrite Hview. apply Hf.
Qed.

Lemma ignores_set_status s :
  ignores_max (modify_this (MongoDB.set_connectionStatus s)).
Proof. intros k w. reflexivity. Qed.

Lemma ignores_set_db d : ignores_max (modify_this (MongoDB.set_db d)).
Proof. intros k w. reflexivity. Qed.

Lemma ignores_set_attempts n :
  ignores_max (modify_this (MongoDB.set_reconnectAttempts n)).
Proof. intros k w. reflexivity. Qed.

Ltac ignores_step :=
  first
    [ apply ignores_ret | apply ignores_throw | apply ignores_logger
    | apply ignores_client_call | apply ignores_settle
    | apply ignores_set_status | apply ignores_set_db | apply ignores_set_attempts
    | apply ignores_bind; [ | intros ? ]
    | apply ignores_try_catch; [ | intros ? ]
    | apply ignores_when
    | match goal with
      | |- ignores_max (match ?x with _ => _ end) => destruct x
      | |- ignores_max (let _ := _ in _) => cbv zeta
      end ].

Lemma ignores_on_event ev : ignores_max (MongoDB.on_event ev).
Proof. destruct ev; cbn [MongoDB.on_event]; repeat ignores_step. Qed.

Lemma ignores_emit_all evs : ignores_max (MongoDB.emit_all evs).
Proof.
  induction evs as [| ev evs IH]; cbn [MongoDB.emit_all].
  - apply ignores_ret.
  - apply ignores_bind; [apply ignores_on_event | intros _; exact IH].
Qed.

Lemma ignores_await {A} method target (r : Driver.Reply A) :
  ignores_max (MongoDB.await method target r).
Proof.
  unfold MongoDB.await.
  apply ignores_bind; [apply ignores_client_call | intros _].
  apply ignores_bind; [apply ignores_emit_all | intros _].
  apply ignores_settle.
Qed.

Lemma ignores_the_client : ignores_max MongoDB.the_client.
Proof.
  apply (ignores_bind_get MongoDB.client
           (fun c => match c with
                     | Some c' => ret c'
                     | None => throw_new_Error "Cannot read properties of undefined"
                     end)).
  - reflexivity.
  - intros [c |]; [apply ignores_ret | apply ignores_throw].
Qed.

Lemma ignores_isConnected : ignores_max MongoDB.isConnected.
Proof.
  apply (ignores_bind_get MongoDB.connected (fun c => ret c)).
  - reflexivity.
  - intros c. apply ignores_ret.
Qed.

Lemma ignores_getConnectionStatus : ignores_max MongoDB.getConnectionStatus.
Proof.
  apply (ignores_bind_get MongoDB.connectionStatus (fun s => ret s)).
  - reflexivity.
  - intros s. apply ignores_ret.
Qed.

Lemma ignores_getCollection drv name : ignores_max (MongoDB.getCollection drv name).
Proof.
  apply (ignores_bind_get MongoDB.db
           (fun d => match d with
                     | None => throw_new_Error
                                 "Not connected to MongoDB. Call connect() first."
                     | Some d' => client_call "db.collection" name
                                    (Driver.collection drv d' name)
                     end)).
  - reflexivity.
  - intros [d |]; [apply ignores_client_call | apply ignores_throw].
Qed.

Lemma ignores_require_connected : ignores_max MongoDB.require_connected.
Proof.
  unfold MongoDB.require_connected.
  apply ignores_bind; [apply ignores_isConnected | intros c].
  apply ignores_when, ignores_throw.
Qed.

Ltac ignores :=
  repeat first
    [ apply ignores_await | apply ignores_the_client | apply ignores_isConnected
    | apply ignores_getConnectionStatus | apply ignores_getCollection
    | apply ignores_require_connected | ignores_step ].

Lemma ignores_connect_rest drv : ignores_max (MongoDB.connect_rest drv).
Proof.
  unfold MongoDB.connect_rest.
  apply ignores_bind; [apply ignores_the_client | intros c].
  apply ignores_bind; [apply ignores_await | intros _].
  apply (ignores_bind_get MongoDB.dbName
           (fun n =>
              d <- client_call "client.db" (nullish n "undefined")
                     (Driver.db drv c n) ;;
              modify_this (MongoDB.set_db (Some d)) ;;
              modify_this (MongoDB.set_connectionStatus CONNECTED) ;;
              modify_this (MongoDB.set_reconnectAttempts 0) ;;
              logger INFO ("Successfully connected to MongoDB database: "
                           +++ nullish n "undefined") ;;
              ret (ok_message "Connected to MongoDB"))).
  - reflexivity.
  - intros n. ignores.
Qed.

Lemma ignores_invoke drv {A} (op : MongoDB.Op A) :
  ignores_max (MongoDB.invoke drv op).
Proof.
  destruct op; cbn [MongoDB.invoke];
    unfold MongoDB.connect, MongoDB.connect_entry,
      MongoDB.connect_catch, MongoDB.disconnect,
      MongoDB.insertOne, MongoDB.insertMany, MongoDB.find, MongoDB.findOne,
      MongoDB.updateOne, MongoDB.updateMany, MongoDB.deleteOne, MongoDB.deleteMany,
      MongoDB.countDocuments, MongoDB.createIndex,
      MongoDB.catch_with, throw_new_Error;
    repeat first
      [ apply ignores_connect_rest | apply ignores_await | apply ignores_the_client
      | apply ignores_getCollection | apply ignores_require_connected
      | ignores_step ].
Qed.

Lemma ignores_invoke_plain drv {A} (op : MongoDB.PlainOp A) :
  ignores_max (MongoDB.invoke_plain drv op).
Proof.
  destruct op; cbn [MongoDB.invoke_plain];
    unfold MongoDB.addDocument, MongoDB.getDocuments, MongoDB.deleteDocument,
      MongoDB.updateDocument, MongoDB.rethrow;
    repeat first
      [ apply (ignores_invoke drv (MongoDB.InsertOne _ _))
      | apply (ignores_invoke drv (MongoDB.Find _ _ _))
      | apply (ignores_invoke drv (MongoDB.DeleteOne _ _))
      | apply (ignores_invoke drv (MongoDB.UpdateOne _ _ _))
      | progress ignores ].
Qed.
End IgnoresMax.

(** ** Invariants of the Firebase adapter *)

Section FirebasePreserves.
Variable P : Firebase.t -> Prop.
Variable sdk : Sdk.t.

Ltac firebase_unfold :=
  unfold Firebase.firestore_doc, Firebase.firestore_collection,
    Firebase.the_firestore, Firebase.require_connected, Firebase.isConnected,
    Firebase.getConnectionStatus, Firebase.catch_with, throw_new_Error.

Lemma apply_where_preserves path conditions query :
  preserves P (Firebase.apply_where sdk path conditions query).
Proof.
  revert query. induction conditions as [| c rest IH]; intros query;
    cbn [Firebase.apply_where]; repeat preserves_step. apply IH.
Qed.

Lemma build_query_preserves path w_ o l :
  preserves P (Firebase.build_query sdk path w_ o l).
Proof.
  unfold Firebase.build_query. firebase_unfold.
  repeat first [ apply apply_where_preserves | preserves_step ].
Qed.

Lemma stage_writes_preserves operations batch :
  preserves P (Firebase.stage_writes sdk operations batch).
Proof.
  revert batch. induction operations as [| o rest IH]; intros batch;
    cbn [Firebase.stage_writes]; firebase_unfold;
    repeat first [ apply IH | preserves_step ].
Qed.

(** No method writes a field: whatever holds of the adapter keeps holding. *)
Lemma firebase_invoke_preserves {A} (op : Firebase.Op A) :
  preserves P (Firebase.invoke sdk op).
Proof.
  destruct op; cbn [Firebase.invoke];
    unfold Firebase.getDocument, Firebase.setDocument, Firebase.updateDocument,
      Firebase.deleteDocument, Firebase.addDocument, Firebase.getCollection,
      Firebase.batchWrite, Firebase.runTransaction;
    firebase_unfold;
    repeat first
      [ apply build_query_preserves | apply stage_writes_preserves
      | preserves_step ].
Qed.

Lemma firebase_invoke_plain_preserves {A} (op : Firebase.PlainOp A) :
  preserves P (Firebase.invoke_plain sdk op).
Proof.
  destruct op; cbn [Firebase.invoke_plain];
    unfold Firebase.listenCollection, Firebase.listenDocument;
    firebase_unfold;
    repeat first [ apply build_query_preserves | preserves_step ].
Qed.
End FirebasePreserves.

Lemma firebase_step_preserves (P : Firebase.t -> Prop) a w :
  P (this w) -> P (this (firebase_step a w)).
Proof.
  destruct a as [sdk A op | sdk A op]; cbn [firebase_step].
  - apply firebase_invoke_preserves.
  - apply firebase_invoke_plain_preserves.
Qed.

(** A Firebase method leaves the adapter exactly as it found it. *)
Lemma firebase_step_frame a w : this (firebase_step a w) = this w.
Proof. now apply (firebase_step_preserves (fun b => b = this w)). Qed.

(** The constructor body ends connected and initialised, with the handle in
    place, when it returns, and in error when it throws. *)
Lemma firebase_constructor_spec sdk options w :
  exists w',
    (Firebase.constructor sdk options w = (w', Return tt) /\
     exists f,
       Sdk.firestore sdk = Return f /\
       this w' = Firebase.mk (Some f) CONNECTED true /\
       calls w' = calls w ++ init_calls (admin_apps w)
                          ++ [ClientCall "admin.firestore" ""] /\
       admin_apps w' = match admin_apps w with
                       | [] => [options]
                       | apps => apps
                       end) \/
    (exists t,
       Firebase.constructor sdk options w = (w', Throw t) /\
       Firebase.connectionStatus (this w') = ERROR /\
       (Sdk.cert sdk (FirebaseOptions.serviceAccount options) = Throw t \/
        Sdk.initializeApp sdk options = Throw t \/
        Sdk.firestore sdk = Throw t)).
Proof.
  destruct w as [[f0 s0 i0] apps cs ls].
  unfold Firebase.constructor, Firebase.initializeApp, try_catch, bind, when,
    client_call, modify_this, logger, throw, ret. cbn.
  destruct apps as [| app apps]; cbn.
  - destruct (Sdk.cert sdk (FirebaseOptions.serviceAccount options)) as [cr | t]; cbn;
      [ | eexists; right; exists t; repeat split; auto ].
    destruct (Sdk.initializeApp sdk options) as [[] | t]; cbn;
      [ | eexists; right; exists t; repeat split; auto ].
    destruct (Sdk.firestore sdk) as [f | t]; cbn;
      [ | eexists; right; exists t; repeat split; auto ].
    eexists. left. split; [reflexivity | ].
    exists f. cbn. repeat split. rewrite <- !app_assoc. reflexivity.
  - destruct (Sdk.firestore sdk) as [f | t]; cbn;
      [ | eexists; right; exists t; repeat split; auto ].
    eexists. left. split; [reflexivity | ].
    exists f. cbn. repeat split.
Qed.

(** What constructing a Firebase adapter completes with, from the answers
    of the SDK alone. *)
Lemma firebase_new_outcome {T} sdk options (w : World T) :
  snd (new_object Firebase.fresh (Firebase.constructor sdk options) w) =
  let created f := Return (Firebase.mk (Some f) CONNECTED true) in
  match admin_apps w with
  | [] =>
      match Sdk.cert sdk (FirebaseOptions.serviceAccount options),
            Sdk.initializeApp sdk options,
            Sdk.firestore sdk with
      | Throw t, _, _ | Return _, Throw t, _ | Return _, Return _, Throw t => Throw t
      | Return _, Return _, Return f => created f
      end
  | _ :: _ =>
      match Sdk.firestore sdk with
      | Throw t => Throw t
      | Return f => created f
      end
  end.
Proof.
  destruct w as [x apps cs ls].
  unfold new_object, Firebase.constructor, Firebase.initializeApp, try_catch, bind,
    when, client_call, modify_this, logger, throw, ret. cbn.
  destruct apps as [| app apps]; cbn.
  - destruct (Sdk.cert sdk (FirebaseOptions.serviceAccount options)) as [cr | t]; cbn;
      [ | reflexivity].
    destruct (Sdk.initializeApp sdk options) as [[] | t]; cbn; [ | reflexivity].
    destruct (Sdk.firestore sdk) as [f | t]; reflexivity.
  - destruct (Sdk.firestore sdk) as [f | t]; reflexivity.
Qed.

(** The SDK calls constructing a Firebase adapter makes: it stops at the
    first that throws, and leaves the app alone when one is registered. *)
Lemma firebase_new_calls {T} sdk options (w : World T) :
  calls (fst (new_object Firebase.fresh (Firebase.constructor sdk options) w)) =
  calls w ++
  match admin_apps w with
  | [] =>
      ClientCall "admin.credential.cert" "" ::
      match Sdk.cert sdk (FirebaseOptions.serviceAccount options) with
      | Throw _ => []
      | Return _ =>
          ClientCall "admin.initializeApp" "" ::
          match Sdk.initializeApp sdk options with
          | Throw _ => []
          | Return _ => [ClientCall "admin.firestore" ""]
          end
      end
  | _ :: _ => [ClientCall "admin.firestore" ""]
  end.
Proof.
  destruct w as [x apps cs ls].
  unfold new_object, Firebase.constructor, Firebase.initializeApp, try_catch, bind,
    when, client_call, modify_this, logger, throw, ret. cbn.
  destruct apps as [| app apps]; cbn.
  - destruct (Sdk.cert sdk (FirebaseOptions.serviceAccount options)) as [cr | t]; cbn;
      [ | reflexivity].
    destruct (Sdk.initializeApp sdk options) as [[] | t]; cbn;
      [ | now rewrite <- app_assoc].
    destruct (Sdk.firestore sdk) as [f | t]; cbn; now rewrite <- !app_assoc.
  - destruct (Sdk.firestore sdk) as [f | t]; reflexivity.
Qed.

(** C4, as the code has it: the Firebase adapter obtains its SDK handle in
    the constructor, which completes as the SDK calls it makes do.  With no
    app registered it calls [credential.cert], [initializeApp] and
    [firestore()] in this order, with an app registered [firestore()] alone;
    the first of these calls to throw makes the constructor throw the same
    value, and when they all return the adapter is created connected and
    initialised, holding the handle [firestore()] returned.  The constructor
    makes no SDK call after one that threw, and none but these; a
    construction that returns has made all of them.  No later method writes
    the handle or any other field. *)
Theorem firebase_initialises_in_constructor :
  (forall sdk options w0,
     snd (Firebase.new sdk options w0) =
     let created f := Return (Firebase.mk (Some f) CONNECTED true) in
     match admin_apps w0 with
     | [] =>
         match Sdk.cert sdk (FirebaseOptions.serviceAccount options),
               Sdk.initializeApp sdk options,
               Sdk.firestore sdk with
         | Throw t, _, _ | Return _, Throw t, _ | Return _, Return _, Throw t => Throw t
         | Return _, Return _, Return f => created f
         end
     | _ :: _ =>
         match Sdk.firestore sdk with
         | Throw t => Throw t
         | Return f => created f
         end
     end) /\
  (forall sdk options w0,
     calls (fst (Firebase.new sdk options w0)) =
     calls w0 ++
     match admin_apps w0 with
     | [] =>
         ClientCall "admin.credential.cert" "" ::
         match Sdk.cert sdk (FirebaseOptions.serviceAccount options) with
         | Throw _ => []
         | Return _ =>
             ClientCall "admin.initializeApp" "" ::
             match Sdk.initializeApp sdk options with
             | Throw _ => []
             | Return _ => [ClientCall "admin.firestore" ""]
             end
         end
     | _ :: _ => [ClientCall "admin.firestore" ""]
     end) /\
  (forall sdk options w0,
     match Firebase.new sdk options w0 with
     | (w, Return b) =>
         exists f,
           Sdk.firestore sdk = Return f /\
           b = Firebase.mk (Some f) CONNECTED true /\
           calls w = calls w0 ++ init_calls (admin_apps w0)
                             ++ [ClientCall "admin.firestore" ""]
     | (w, Throw t) =>
         Sdk.cert sdk (FirebaseOptions.serviceAccount options) = Throw t \/
         Sdk.initializeApp sdk options = Throw t \/
         Sdk.firestore sdk = Throw t
     end) /\
  (forall a w, this (firebase_step a w) = this w).
Proof.
  split; [ | split; [ | split]].
  - intros sdk options w0. apply firebase_new_outcome.
  - intros sdk options w0. apply firebase_new_calls.
  - intros sdk options w0. unfold Firebase.new, new_object.
    destruct (firebase_constructor_spec sdk options (with_this Firebase.fresh w0))
      as (w' & [(E & f & Hf & Hthis & Hcalls & _) | (t & E & _ & Ht)]);
      rewrite E.
    + exists f. repeat split; assumption.
    + exact Ht.
  - apply firebase_step_frame.
Qed.

(** C4, as stated, fails: constructing the adapter against a working SDK
    with an empty app registry initialises the app, fetches the Firestore
    handle and marks the adapter initialised, before any operation runs. *)
Lemma firebase_constructor_is_eager :
  Firebase.new (healthy_sdk []) sample_firebase_options empty_world =
  (mkWorld tt [sample_firebase_options]
     [ClientCall "admin.credential.cert" ""; ClientCall "admin.initializeApp" "";
      ClientCall "admin.firestore" ""]
     [(INFO, "Firebase initialized successfully")],
   Return (Firebase.mk (Some Sdk.firestoreHandle) CONNECTED true)).
Proof. reflexivity. Qed.

Lemma settled_iff s : settled s <-> s <> RECONNECTING.
Proof.
  unfold settled. split.
  - intros [-> | [-> | [-> | ->]]]; discriminate.
  - destruct s; intros H; auto. now contradiction H.
Qed.

Lemma mongo_new_spec drv options w0 w m :
  MongoDB.new drv options w0 = (w, Return m) ->
  MongoDB.connectionStatus m = DISCONNECTED /\
  MongoDB.reconnectAttempts m = 0 /\
  MongoDB.maxReconnectAttempts m = 5 /\
  MongoDB.db m = None.
Proof.
  unfold MongoDB.new, new_object, MongoDB.constructor, MongoDB.setupEventListeners,
    bind, client_call, modify_this. cbn.
  destruct (Driver.new_MongoClient drv _ _) as [c | t]; cbn; intros E;
    inversion E; subst. repeat split.
Qed.

Lemma never_reconnecting_stable :
  write_stable (fun m => settled (MongoDB.connectionStatus m) /\
                         MongoDB.reconnectAttempts m = 0 /\
                         MongoDB.maxReconnectAttempts m = 5).
Proof.
  unfold write_stable. split; [ | split].
  - intros s m Hs (_ & Ha & Hm). cbn. split; [now apply settled_iff | now split].
  - intros d m H. exact H.
  - intros m (Hs & _ & Hm). cbn. now repeat split.
Qed.

Lemma reset_only_stable n :
  write_stable (fun m => MongoDB.reconnectAttempts m = n \/
                         MongoDB.reconnectAttempts m = 0).
Proof.
  unfold write_stable. split; [ | split].
  - intros s m _ H. exact H.
  - intros d m H. exact H.
  - intros m _. now right.
Qed.

Lemma mongo_step_ignores_max a k w :
  mongo_step a (with_max k w) = with_max k (mongo_step a w).
Proof.
  destruct a as [ev | drv A op | drv A op]; cbn [mongo_step].
  - now rewrite ignores_on_event.
  - now rewrite ignores_invoke.
  - now rewrite ignores_invoke_plain.
Qed.

(** C8: no reachable state of either adapter has the status reconnecting;
    the MongoDB adapter's [reconnectAttempts] is 0 in every reachable state
    and a step can only leave it alone or reset it; and the value of
    [maxReconnectAttempts], which stays 5, influences neither the result of
    any method nor the rest of the state. *)
Theorem adapters_never_reconnect :
  (forall w, mongo_reachable w ->
     settled (MongoDB.connectionStatus (this w)) /\
     MongoDB.reconnectAttempts (this w) = 0 /\
     MongoDB.maxReconnectAttempts (this w) = 5) /\
  (forall a w,
     MongoDB.reconnectAttempts (this (mongo_step a w)) =
       MongoDB.reconnectAttempts (this w) \/
     MongoDB.reconnectAttempts (this (mongo_step a w)) = 0) /\
  (forall a k w, mongo_step a (with_max k w) = with_max k (mongo_step a w)) /\
  (forall drv A (op : MongoDB.Op A) k w,
     snd (MongoDB.invoke drv op (with_max k w)) = snd (MongoDB.invoke drv op w)) /\
  (forall drv A (op : MongoDB.PlainOp A) k w,
     snd (MongoDB.invoke_plain drv op (with_max k w)) =
     snd (MongoDB.invoke_plain drv op w)) /\
  (forall w, firebase_reachable w ->
     settled (Firebase.connectionStatus (this w))).
Proof.
  repeat apply conj.
  - intros w H. induction H as [drv options w0 w m E | a w _ IH].
    + apply mongo_new_spec in E as (Hs & Ha & Hm & _). cbn.
      rewrite Hs, Ha, Hm. unfold settled. auto.
    + exact (mongo_step_preserves _ never_reconnecting_stable a w IH).
  - intros a w.
    apply (mongo_step_preserves _ (reset_only_stable (MongoDB.reconnectAttempts (this w)))).
    now left.
  - apply mongo_step_ignores_max.
  - intros. now rewrite ignores_invoke.
  - intros. now rewrite ignores_invoke_plain.
  - intros w H. induction H as [w0 | sdk options w0 | a w _ IH].
    + cbn. unfold settled. auto.
    + destruct (firebase_constructor_spec sdk options (with_this Firebase.fresh w0))
        as (w' & [(E & f & _ & Hthis & _) | (t & E & Hs & _)]); rewrite E; cbn.
      * rewrite Hthis. cbn. unfold settled. auto.
      * rewrite Hs. unfold settled. auto.
    + now apply (firebase_step_preserves
                   (fun b => settled (Firebase.connectionStatus b))).
Qed.

(** A reachable state: constructed, then connected. *)
Lemma adapters_never_reconnect_witness :
  mongo_reachable
    (mongo_step (Invoke healthy_driver MongoDB.Connect) sample_mongo_world) /\
  settled (MongoDB.connectionStatus
             (this (mongo_step (Invoke healthy_driver MongoDB.Connect)
                      sample_mongo_world))) /\
  MongoDB.reconnectAttempts
    (this (mongo_step (Invoke healthy_driver MongoDB.Connect) sample_mongo_world)) = 0.
Proof.
  assert (R : mongo_reachable
                (mongo_step (Invoke healthy_driver MongoDB.Connect) sample_mongo_world)).
  { apply mongo_stepped.
    exact (mongo_constructed healthy_driver sample_mongo_options empty_world _ _ eq_refl). }
  split; [exact R | ].
  destruct adapters_never_reconnect as (H & _).
  destruct (H _ R) as (Hs & Ha & _). split; assumption.
Defined.

(** C9: on a constructed adapter [getDocument] always resolves, and its
    envelope is decided as follows: not connected, or the SDK's [doc] or
    [get] call throws, gives [{success: false, error}]; otherwise the lookup
    succeeds, with the document as data when the snapshot exists and with
    [null] as data when it does not. *)
Theorem getDocument_missing_is_success sdk path f w :
  Firebase.firestore (this w) = Some f ->
  exists w' r,
    Firebase.getDocument sdk path w = (w', Return r) /\
    match Firebase.connected (this w) with
    | false =>
        success r = false /\
        error r = Some (JsError.mk "Firebase not initialized")
    | true =>
        match Sdk.doc sdk f path with
        | Throw t =>
            success r = false /\
            error r = Some (error_or_new t ("Error getting document " +++ path))
        | Return documentRef =>
            match Sdk.get sdk documentRef with
            | Throw t =>
                success r = false /\
                error r = Some (error_or_new t ("Error getting document " +++ path))
            | Return snapshot =>
                success r = true /\ error r = None /\
                data r = Some (if Sdk.snap_exists snapshot
                               then Some (Firebase.with_id snapshot)
                               else None)
            end
        end
    end.
Proof.
  destruct w as [[f0 s i] apps cs ls]. cbn [this Firebase.firestore]. intros ->.
  unfold Firebase.getDocument, Firebase.require_connected, Firebase.isConnected,
    Firebase.firestore_doc, Firebase.the_firestore, Firebase.catch_with,
    try_catch, bind, get_this, when, client_call, logger, throw_new_Error, throw, ret.
  cbn -[String.append Firebase.with_id].
  destruct (Firebase.connected (Firebase.mk (Some f) s i)); cbn -[String.append].
  - destruct (Sdk.doc sdk f path) as [documentRef | t]; cbn -[String.append];
      [ | eexists _, _; split; [reflexivity | split; reflexivity] ].
    destruct (Sdk.get sdk documentRef) as [snapshot | t]; cbn -[String.append];
      [ | eexists _, _; split; [reflexivity | split; reflexivity] ].
    destruct (Sdk.snap_exists snapshot);
      eexists _, _; (split; [reflexivity | repeat split]).
  - eexists _, _. split; [reflexivity | split; reflexivity].
Qed.

(** [getDocument] for a path that holds no document. *)
Lemma getDocument_missing_witness :
  Firebase.firestore (this sample_firebase_world) = Some Sdk.firestoreHandle /\
  exists w' r,
    Firebase.getDocument sample_sdk "users/nonexistent" sample_firebase_world =
      (w', Return r) /\
    success r = true /\ error r = None /\ data r = Some None.
Proof.
  split; [reflexivity | ].
  destruct (getDocument_missing_is_success sample_sdk "users/nonexistent"
              Sdk.firestoreHandle sample_firebase_world eq_refl)
    as (w' & r & E & H).
  exists w', r. split; [exact E | exact H].
Defined.

(** C10: [DB.isConnected()] is true exactly when every configured adapter's
    own [isConnected()] is true; a backend that is not configured counts as
    connected, so with a single backend the answer is that backend's. *)
Theorem isConnected_is_conjunction :
  (forall w,
     DB.isConnected w = (w, Return (DB.all_connected (this w)))) /\
  (forall d,
     DB.all_connected d = true <->
     (forall m, DB.mongo d = Some m -> MongoDB.connected m = true) /\
     (forall b, DB.firebase d = Some b -> Firebase.connected b = true)) /\
  (forall m, DB.all_connected (DB.mk (Some m) None) = MongoDB.connected m) /\
  (forall b, DB.all_connected (DB.mk None (Some b)) = Firebase.connected b) /\
  DB.all_connected (DB.mk None None) = true /\
  (forall w, snd (MongoDB.isConnected w) = Return (MongoDB.connected (this w))) /\
  (forall w, snd (Firebase.isConnected w) = Return (Firebase.connected (this w))).
Proof.
  repeat apply conj; try reflexivity.
  - intros [[m |] [b |]]; unfold DB.all_connected; cbn.
    + rewrite andb_true_iff. split.
      * intros [Hm Hb]. split; intros x E; inversion E; subst; assumption.
      * intros [Hm Hb]. split; [now apply Hm | now apply Hb].
    + rewrite andb_true_r. split.
      * intros Hm. split; intros x E; inversion E; subst; assumption.
      * intros [Hm _]. now apply Hm.
    + split.
      * intros Hb. split; intros x E; inversion E; subst; assumption.
      * intros [_ Hb]. now apply Hb.
    + split; [ | reflexivity]. intros _. split; intros x E; discriminate E.
  - intros m. unfold DB.all_connected. cbn. apply andb_true_r.
Qed.


Lemma firebase_new_object {T} sdk o (w : World T) :
  exists w' r,
    this w' = this w /\
    new_object Firebase.fresh (Firebase.constructor sdk o) w = (w', r) /\
    match r with
    | Return b =>
        exists f, Sdk.firestore sdk = Return f /\ b = Firebase.mk (Some f) CONNECTED true
    | Throw t =>
        Sdk.cert sdk (FirebaseOptions.serviceAccount o) = Throw t \/
        Sdk.initializeApp sdk o = Throw t \/
        Sdk.firestore sdk = Throw t
    end.
Proof.
  unfold new_object.
  destruct (firebase_constructor_spec sdk o (with_this Firebase.fresh w))
    as (w' & [(E & f & Hf & Hthis & _) | (t & E & _ & Ht)]); rewrite E.
  - eexists _, _. split; [ | split; [reflexivity | ]]; [reflexivity | ].
    exists f. split; [exact Hf | exact Hthis].
  - eexists _, _. split; [ | split; [reflexivity | ]]; [reflexivity | exact Ht].
Qed.





Lemma string_append_assoc (a b c : string) : (a +++ b) +++ c = a +++ b +++ c.
Proof. induction a as [| ch a IH]; cbn; [reflexivity | now rewrite IH]. Qed.

Lemma contains_after (pre s sub : string) :
  contains s sub -> contains (pre +++ s) sub.
Proof.
  intros (p & q & ->). exists (pre +++ p), q. now rewrite string_append_assoc.
Qed.

Lemma contains_before (s post sub : string) :
  contains s sub -> contains (s +++ post) sub.
Proof.
  intros (p & q & ->). exists p, (q +++ post).
  now rewrite !string_append_assoc.
Qed.

Lemma contains_prefix (sub post : string) : contains (sub +++ post) sub.
Proof. now exists "", post. Qed.

(** [DB.connect] on a facade holding [mo] and [fb], given what the MongoDB
    adapter's own [connect] does. *)
Lemma db_connect_spec drv mo fb apps cs ls :
  let w := mkWorld (DB.mk mo fb) apps cs ls in
  let mongo_outcome :=
    option_map (fun m => snd (MongoDB.connect drv (with_this m w))) mo in
  let results :=
    DB.mkPer (option_map success_of mongo_outcome) (option_map Firebase.connected fb) in
  exists w',
    DB.connect drv w =
    (w', Return (if DB.every_true results then ok_data results
                 else failed_with_data
                        (JsError.mk ("Some databases failed to connect: "
                                     +++ join ", " (mongo_errors mongo_outcome
                                                    ++ firebase_errors fb)))
                        results)) /\
    DB.firebase (this w') = fb.
Proof.
  intros w mongo_outcome results. subst w mongo_outcome results.
  unfold DB.connect, DB.connect_mongo, try_catch, on_field.
  unfold bind at 1, get_this. cbn [this DB.mongo DB.firebase].
  destruct mo as [m |].
  - unfold bind at 1 2 3.
    destruct (mongo_invoke_resolves drv MongoDB.Connect
                (with_this m (mkWorld (DB.mk (Some m) fb) apps cs ls)))
      as (w' & r & E & _).
    cbn [MongoDB.invoke] in E. cbn [option_map]. rewrite E.
    cbn [option_map snd success_of fst ret mongo_errors].
    destruct fb as [b |]; cbn [option_map].
    + unfold bind at 1 2, get_this, Firebase.isConnected, bind, firebase_errors.
      cbn -[String.append join].
      destruct (success r), (Firebase.connected b);
        cbn -[String.append join]; eexists; split; reflexivity.
    + cbn -[String.append join].
      destruct (success r); cbn -[String.append join]; eexists; split; reflexivity.
  - unfold ret at 1, bind at 1. cbn [option_map fst snd mongo_errors].
    destruct fb as [b |]; cbn [option_map].
    + unfold bind at 1 2, get_this, Firebase.isConnected, bind, firebase_errors.
      cbn -[String.append join].
      destruct (Firebase.connected b); cbn -[String.append join];
        eexists; split; reflexivity.
    + cbn -[String.append join]. eexists; split; reflexivity.
Qed.

Lemma join_contains sep x l sub :
  In x l -> contains x sub -> contains (join sep l) sub.
Proof.
  intros Hin Hx. induction l as [| y l IH]; [contradiction | ].
  destruct Hin as [-> | Hin].
  - destruct l as [| z l]; [exact Hx | ]. cbn [join]. now apply contains_before.
  - destruct l as [| z l]; [contradiction | ].
    change (join sep (y :: z :: l)) with (y +++ sep +++ join sep (z :: l)).
    apply contains_after, contains_after, IH, Hin.
Qed.

(** The adapter's [connect] always resolves; its envelope reports success
    exactly when the adapter is connected afterwards, and on an adapter that
    holds a client the first call it makes is the client's [connect]. *)
Lemma mongo_connect_outcome drv w :
  exists w' r,
    MongoDB.connect drv w = (w', Return r) /\
    success r = MongoDB.connected (this w') /\
    (forall c, MongoDB.client (this w) = Some c ->
               exists rest, calls w' = calls w ++ ClientCall "client.connect" "" :: rest).
Proof.
  destruct w as [[cl d n s ra mx] apps cs ls].
  unfold MongoDB.connect, MongoDB.connect_rest, MongoDB.connect_entry,
    MongoDB.the_client, try_catch.
  unfold bind at 1 2 3 4. cbn -[MongoDB.await bind String.append].
  destruct cl as [c |]; cbn -[MongoDB.await bind String.append];
    [ | unfold MongoDB.connect_catch; cbn -[String.append]; eexists _, _;
        split; [reflexivity | split; [reflexivity | discriminate]]].
  unfold bind at 1.
  match goal with
  | |- context [MongoDB.await ?m ?t ?r ?w1] =>
      destruct (await_spec m t r w1) as (s' & l & E); rewrite E; clear E
  end.
  cbn -[String.append].
  destruct (Driver.outcome (Driver.connect drv c)) as [[] | t];
    cbn -[String.append].
  - destruct (Driver.db drv c n) as [d' | t]; cbn -[String.append];
      eexists _, _; (split; [reflexivity | split; [reflexivity | ]]);
      intros c' _; cbn [calls]; rewrite <- app_assoc; eexists; reflexivity.
  - eexists _, _; (split; [reflexivity | split; [reflexivity | ]]).
    intros c' _. exists []. reflexivity.
Qed.

Lemma mongo_connect_success drv w :
  success_of (snd (MongoDB.connect drv w)) =
  MongoDB.connected (this (fst (MongoDB.connect drv w))).
Proof.
  destruct (mongo_connect_outcome drv w) as (w' & r & E & H & _).
  rewrite E. exact H.
Qed.

Lemma mongo_connect_calls drv c w :
  MongoDB.client (this w) = Some c ->
  exists rest,
    calls (fst (MongoDB.connect drv w)) =
    calls w ++ ClientCall "client.connect" "" :: rest.
Proof.
  intros Hc. destruct (mongo_connect_outcome drv w) as (w' & r & E & _ & H).
  rewrite E. exact (H c Hc).
Qed.

(** What [DB.connect] leaves behind: the MongoDB adapter as its own
    [connect] left it, and the calls that [connect] made. *)
Lemma db_connect_state drv mo fb apps cs ls :
  let w := mkWorld (DB.mk mo fb) apps cs ls in
  exists w' r,
    DB.connect drv w = (w', r) /\
    DB.mongo (this w') =
      option_map (fun m => this (fst (MongoDB.connect drv (with_this m w)))) mo /\
    calls w' =
      match mo with
      | Some m => calls (fst (MongoDB.connect drv (with_this m w)))
      | None => cs
      end.
Proof.
  intros w. subst w.
  unfold DB.connect, DB.connect_mongo, try_catch, on_field.
  unfold bind at 1, get_this. cbn [this DB.mongo DB.firebase].
  destruct mo as [m |].
  - unfold bind at 1 2 3.
    destruct (mongo_invoke_resolves drv MongoDB.Connect
                (with_this m (mkWorld (DB.mk (Some m) fb) apps cs ls)))
      as (w' & r & E & _).
    cbn [MongoDB.invoke] in E. cbn [option_map]. rewrite E.
    cbn [option_map snd fst ret].
    destruct fb as [b |].
    + unfold bind at 1 2, get_this, Firebase.isConnected, bind.
      cbn -[String.append join].
      destruct (success r), (Firebase.connected b);
        cbn -[String.append join]; eexists _, _; repeat split; reflexivity.
    + cbn -[String.append join].
      destruct (success r); cbn -[String.append join];
        eexists _, _; repeat split; reflexivity.
  - unfold ret at 1, bind at 1. cbn [option_map fst snd].
    destruct fb as [b |].
    + unfold bind at 1 2, get_this, Firebase.isConnected, bind.
      cbn -[String.append join].
      destruct (Firebase.connected b); cbn -[String.append join];
        eexists _, _; repeat split; reflexivity.
    + cbn -[String.append join]. eexists _, _; repeat split; reflexivity.
Qed.

Lemma every_true_fields (results : DB.PerBackend bool) :
  DB.every_true results = true <->
  DB.mongodb results <> Some false /\ DB.firebase_ results <> Some false.
Proof.
  destruct results as [[[] |] [[] |]]; cbn; split;
    solve [ intros H; split; congruence
          | intros [H1 H2]; congruence
          | intros H; discriminate H ].
Qed.

Lemma all_connected_fields d :
  DB.all_connected d = true <->
  option_map MongoDB.connected (DB.mongo d) <> Some false /\
  option_map Firebase.connected (DB.firebase d) <> Some false.
Proof.
  destruct d as [[m |] [b |]]; unfold DB.all_connected; cbn;
    try destruct (MongoDB.connected m); try destruct (Firebase.connected b); cbn; split;
    solve [ intros H; split; congruence
          | intros [H1 H2]; congruence
          | intros H; discriminate H ].
Qed.

(** C3: [DB.connect] always resolves.  It fans out: a configured MongoDB
    adapter is left as its own [connect] leaves it, with the calls that
    [connect] made on the driver, the first being the client's [connect];
    the Firebase adapter is only asked whether it is connected.  It merges:
    the data of its envelope holds one boolean per configured adapter and
    none for an adapter that is not configured, for MongoDB the success flag
    of the adapter's [connect], which is what its [isConnected()] answers
    afterwards, for Firebase its [isConnected()].  [success] is true exactly
    when neither boolean is false, that is when every configured adapter is
    connected afterwards; otherwise the envelope still carries the data,
    next to an error whose message names every adapter whose boolean is
    false. *)
Theorem connect_merges_adapter_results drv w :
  exists w' r results,
    DB.connect drv w = (w', Return r) /\
    data r = Some results /\
    DB.mongo (this w') =
      option_map (fun m => this (fst (MongoDB.connect drv (with_this m w))))
                 (DB.mongo (this w)) /\
    DB.firebase (this w') = DB.firebase (this w) /\
    calls w' =
      match DB.mongo (this w) with
      | Some m => calls (fst (MongoDB.connect drv (with_this m w)))
      | None => calls w
      end /\
    (forall m c,
       DB.mongo (this w) = Some m -> MongoDB.client m = Some c ->
       exists rest, calls w' = calls w ++ ClientCall "client.connect" "" :: rest) /\
    DB.mongodb results =
      option_map (fun m => success_of (snd (MongoDB.connect drv (with_this m w))))
                 (DB.mongo (this w)) /\
    DB.mongodb results = option_map MongoDB.connected (DB.mongo (this w')) /\
    DB.firebase_ results = option_map Firebase.connected (DB.firebase (this w')) /\
    (success r = true <->
     DB.mongodb results <> Some false /\ DB.firebase_ results <> Some false) /\
    (success r = true <-> DB.all_connected (this w') = true) /\
    (success r = true -> error r = None) /\
    (success r = false ->
     exists e,
       error r = Some e /\
       (DB.mongodb results = Some false -> contains (JsError.message e) "MongoDB: ") /\
       (DB.firebase_ results = Some false -> contains (JsError.message e) "Firebase: ")).
Proof.
  destruct w as [[mo fb] apps cs ls].
  destruct (db_connect_spec drv mo fb apps cs ls) as (w' & E & Hfb). cbv zeta in E.
  destruct (db_connect_state drv mo fb apps cs ls) as (w2 & r2 & E2 & Hmongo & Hcalls).
  cbv zeta in E2, Hmongo, Hcalls. rewrite E in E2. inversion E2. subst w2 r2. clear E2.
  cbn [this DB.mongo DB.firebase calls].
  assert (Hmap : option_map
                   (fun m => success_of
                      (snd (MongoDB.connect drv
                              (with_this m (mkWorld (DB.mk mo fb) apps cs ls))))) mo =
                 option_map success_of
                   (option_map
                      (fun m => snd (MongoDB.connect drv
                                       (with_this m (mkWorld (DB.mk mo fb) apps cs ls))))
                      mo))
    by (destruct mo; reflexivity).
  assert (Hconn : option_map
                    (fun m => success_of
                       (snd (MongoDB.connect drv
                               (with_this m (mkWorld (DB.mk mo fb) apps cs ls))))) mo =
                  option_map MongoDB.connected (DB.mongo (this w'))).
  { rewrite Hmongo. destruct mo as [m |]; [ | reflexivity]. cbn [option_map].
    now rewrite mongo_connect_success. }
  assert (Hfirst : forall m c,
             mo = Some m -> MongoDB.client m = Some c ->
             exists rest, calls w' = cs ++ ClientCall "client.connect" "" :: rest).
  { intros m c -> Hc. rewrite Hcalls.
    apply (mongo_connect_calls drv c
             (with_this m (mkWorld (DB.mk (Some m) fb) apps cs ls)) Hc). }
  rewrite Hmap in Hconn |- *. clear Hmap.
  set (out := option_map (fun m => snd (MongoDB.connect drv _)) mo) in *.
  clearbody out.
  set (results := DB.mkPer (option_map success_of out)
                           (option_map Firebase.connected fb)) in *.
  pose proof (every_true_fields results) as Hfields.
  assert (Hconnected : DB.every_true results = true <-> DB.all_connected (this w') = true).
  { rewrite Hfields, all_connected_fields, Hfb. subst results.
    cbn [DB.mongodb DB.firebase_]. now rewrite Hconn. }
  destruct (DB.every_true results) eqn:Hevery.
  - exists w', (ok_data results), results.
    split; [exact E | ]. cbn [data success error ok_data]. rewrite Hfb.
    repeat apply conj; try reflexivity; try assumption; try discriminate;
      try apply Hfields; try apply Hconnected.
  - eexists w', _, results.
    split; [exact E | ]. cbn [data success error failed_with_data]. rewrite Hfb.
    repeat apply conj; try reflexivity; try assumption; try discriminate;
      try apply Hfields; try apply Hconnected.
    intros _. eexists. split; [reflexivity | ]. cbn [JsError.message]. split.
    + subst results. cbn [DB.mongodb]. intros Hm.
      apply contains_after.
      destruct out as [[r0 | t] |]; cbn in Hm; try discriminate Hm.
      * inversion Hm as [Hs]. cbn [mongo_errors]. rewrite Hs.
        eapply join_contains;
          [apply in_or_app; left; left; reflexivity | apply contains_prefix].
      * eapply join_contains;
          [apply in_or_app; left; left; reflexivity | apply contains_prefix].
    + subst results. cbn [DB.firebase_]. intros Hf.
      apply contains_after. unfold firebase_errors. rewrite Hf.
      eapply join_contains;
        [apply in_or_app; right; left; reflexivity
        | apply (contains_prefix "Firebase: "
                   "Connection failed during initialization")].
Qed.

Lemma on_mongo_preserves_firebase {A} fb m (c : M MongoDB.t A) :
  preserves (fun d => DB.firebase d = fb) (on_field m DB.set_mongo c).
Proof.
  intros w H. unfold on_field. destruct (c (with_this m w)) as [w' r]. exact H.
Qed.

Lemma db_disconnect_preserves_firebase drv fb :
  preserves (fun d => DB.firebase d = fb) (DB.disconnect drv).
Proof.
  unfold DB.disconnect, DB.disconnect_mongo.
  repeat first [ apply on_mongo_preserves_firebase | preserves_step ].
Qed.

(** C5: the connection status has exactly the five members disconnected,
    connecting, connected, reconnecting and error, and each adapter keeps
    its own: whatever is done to the MongoDB adapter (a method call or a
    client event) leaves the Firebase adapter as it was, whatever is done to
    the Firebase adapter leaves the MongoDB adapter as it was, and the
    facade's [connect] and [disconnect], which drive the MongoDB adapter,
    leave the Firebase adapter as it was. *)
Theorem status_is_tracked_per_adapter :
  (forall s, In s all_statuses) /\
  NoDup all_statuses /\
  length all_statuses = 5%nat /\
  map status_value all_statuses =
    ["disconnected"; "connecting"; "connected"; "reconnecting"; "error"] /\
  (forall a w,
     DB.firebase (this (adapter_step (OnMongo a) w)) = DB.firebase (this w)) /\
  (forall a w,
     DB.mongo (this (adapter_step (OnFirebase a) w)) = DB.mongo (this w)) /\
  (forall drv w, DB.firebase (this (fst (DB.connect drv w))) = DB.firebase (this w)) /\
  (forall drv w, DB.firebase (this (fst (DB.disconnect drv w))) = DB.firebase (this w)).
Proof.
  repeat apply conj.
  - intros []; cbn; tauto.
  - repeat constructor; cbn; intuition discriminate.
  - reflexivity.
  - reflexivity.
  - intros a w. cbn [adapter_step]. destruct (DB.mongo (this w)); reflexivity.
  - intros a w. cbn [adapter_step]. destruct (DB.firebase (this w)); reflexivity.
  - intros drv [[mo fb] apps cs ls].
    destruct (db_connect_spec drv mo fb apps cs ls) as (w' & E & H).
    cbv zeta in E. rewrite E. exact H.
  - intros drv w. now apply db_disconnect_preserves_firebase.
Qed.

(** * Further properties of the adapters and the facade *)

(** ** Runs of a constructed Firebase adapter *)

Definition firebase_run (actions : list FirebaseAction) (w : World Firebase.t)
  : World Firebase.t :=
  fold_left (fun w' a => firebase_step a w') actions w.

Lemma firebase_run_frame actions w : this (firebase_run actions w) = this w.
Proof.
  revert w. induction actions as [| a actions IH]; intros w; cbn.
  - reflexivity.
  - unfold firebase_run in IH. rewrite IH. apply firebase_step_frame.
Qed.

(** X1: an adapter that [new Firebase(...)] returned stays connected: after
    any sequence of public method calls it is still the object the
    constructor left, with the Firestore handle set, the status connected
    and [isConnected()] true. *)
Theorem constructed_firebase_stays_connected sdk options w0 w b actions :
  Firebase.new sdk options w0 = (w, Return b) ->
  this (firebase_run actions (with_this b w)) = b /\
  (exists f, Firebase.firestore b = Some f) /\
  Firebase.connectionStatus b = CONNECTED /\
  snd (Firebase.isConnected (firebase_run actions (with_this b w))) = Return true.
Proof.
  intros E. unfold Firebase.new in E.
  destruct (firebase_new_object sdk options w0) as (w1 & r & _ & E1 & Hr).
  rewrite E in E1. inversion E1; subst w1 r. destruct Hr as (f & _ & ->).
  rewrite (firebase_run_frame actions). cbn [this with_this].
  split; [reflexivity | split; [now exists f | split; [reflexivity | ]]].
  unfold Firebase.isConnected, bind, get_this. cbn [this snd ret].
  now rewrite (firebase_run_frame actions).
Qed.

(** A constructed adapter after a lookup, a write and a listener. *)
Lemma constructed_firebase_stays_connected_witness :
  Firebase.new sample_sdk sample_firebase_options empty_world =
    (mkWorld tt [sample_firebase_options]
       [ClientCall "admin.credential.cert" ""; ClientCall "admin.initializeApp" "";
        ClientCall "admin.firestore" ""]
       [(INFO, "Firebase initialized successfully")],
     Return (Firebase.mk (Some Sdk.firestoreHandle) CONNECTED true)) /\
  snd (Firebase.isConnected
         (firebase_run
            [FbInvoke sample_sdk (Firebase.GetDocument "users/nonexistent");
             FbInvoke sample_sdk (Firebase.DeleteDocument "users/john");
             FbInvokePlain sample_sdk (Firebase.ListenDocument "users/john")]
            sample_firebase_world)) = Return true.
Proof.
  split; [reflexivity | ].
  exact (proj2 (proj2 (proj2
           (constructed_firebase_stays_connected sample_sdk sample_firebase_options
              empty_world _ _
              [FbInvoke sample_sdk (Firebase.GetDocument "users/nonexistent");
               FbInvoke sample_sdk (Firebase.DeleteDocument "users/john");
               FbInvokePlain sample_sdk (Firebase.ListenDocument "users/john")]
              eq_refl)))).
Defined.

(** ** The database handle of the MongoDB adapter *)

(** A status of connected comes with a database handle. *)
Definition handle_when_connected (m : MongoDB.t) : Prop :=
  MongoDB.connectionStatus m = CONNECTED -> exists d, MongoDB.db m = Some d.

Section ListenerStable.
Variable P : MongoDB.t -> Prop.
Hypothesis listener_stable :
  forall s m, s <> CONNECTED -> P m -> P (MongoDB.set_connectionStatus s m).

Lemma listener_write_keeps s :
  s <> CONNECTED -> preserves P (modify_this (MongoDB.set_connectionStatus s)).
Proof. intros Hs. apply preserves_modify. intros m. now apply listener_stable. Qed.

Lemma on_event_keeps ev : preserves P (MongoDB.on_event ev).
Proof.
  destruct ev; cbn [MongoDB.on_event];
    repeat first [ apply listener_write_keeps; discriminate | preserves_step ].
Qed.

Lemma emit_all_keeps evs : preserves P (MongoDB.emit_all evs).
Proof.
  induction evs as [| ev evs IH]; cbn [MongoDB.emit_all].
  - apply preserves_ret.
  - apply preserves_bind; [apply on_event_keeps | intros _; exact IH].
Qed.

Lemma await_keeps {A} method target (r : Driver.Reply A) :
  preserves P (MongoDB.await method target r).
Proof.
  unfold MongoDB.await.
  apply preserves_bind; [apply preserves_client_call | intros _].
  apply preserves_bind; [apply emit_all_keeps | intros _].
  intros w H. exact H.
Qed.

(** The CRUD, count and index methods write nothing themselves. *)
Lemma crud_keeps drv {A} (op : MongoDB.Op A) :
  MongoDB.is_crud op = true -> preserves P (MongoDB.invoke drv op).
Proof.
  destruct op; try discriminate; intros _; cbn [MongoDB.invoke];
    unfold MongoDB.insertOne, MongoDB.insertMany, MongoDB.find, MongoDB.findOne,
      MongoDB.updateOne, MongoDB.updateMany, MongoDB.deleteOne, MongoDB.deleteMany,
      MongoDB.countDocuments, MongoDB.createIndex,
      MongoDB.catch_with, MongoDB.require_connected, MongoDB.isConnected,
      MongoDB.getCollection, throw_new_Error;
    repeat first [ apply await_keeps | preserves_step ].
Qed.

Lemma plain_keeps drv {A} (op : MongoDB.PlainOp A) :
  preserves P (MongoDB.invoke_plain drv op).
Proof.
  destruct op; cbn [MongoDB.invoke_plain];
    unfold MongoDB.addDocument, MongoDB.getDocuments, MongoDB.deleteDocument,
      MongoDB.updateDocument, MongoDB.rethrow,
      MongoDB.getConnectionStatus, MongoDB.isConnected, MongoDB.getCollection,
      throw_new_Error;
    repeat first
      [ apply (crud_keeps drv (MongoDB.InsertOne _ _) eq_refl)
      | apply (crud_keeps drv (MongoDB.Find _ _ _) eq_refl)
      | apply (crud_keeps drv (MongoDB.DeleteOne _ _) eq_refl)
      | apply (crud_keeps drv (MongoDB.UpdateOne _ _ _) eq_refl)
      | preserves_step ].
Qed.
End ListenerStable.

Lemma handle_listener_stable s m :
  s <> CONNECTED -> handle_when_connected m ->
  handle_when_connected (MongoDB.set_connectionStatus s m).
Proof. intros Hs _ H. cbn in H. now contradiction Hs. Qed.

Lemma connect_keeps_handle drv :
  preserves handle_when_connected (MongoDB.connect drv).
Proof.
  unfold MongoDB.connect, MongoDB.connect_entry, MongoDB.connect_rest,
    MongoDB.connect_catch, MongoDB.the_client, throw_new_Error.
  repeat first
    [ apply (await_keeps _ handle_listener_stable)
    | apply (listener_write_keeps _ handle_listener_stable); discriminate
    | match goal with
      | |- preserves _ (modify_this (MongoDB.set_db (Some ?d)) ;; _) =>
          intros [m ? ? ?] _ _; cbn; now exists d
      end
    | preserves_step ].
Qed.

Lemma disconnect_keeps_handle drv :
  preserves handle_when_connected (MongoDB.disconnect drv).
Proof.
  unfold MongoDB.disconnect, MongoDB.the_client, throw_new_Error.
  repeat first
    [ apply (await_keeps _ handle_listener_stable)
    | match goal with
      | |- preserves _ (modify_this (MongoDB.set_connectionStatus DISCONNECTED) ;; _) =>
          intros [m ? ? ?] _ H; cbn in H; discriminate H
      end
    | preserves_step ].
Qed.

Lemma mongo_step_keeps_handle a w :
  handle_when_connected (this w) -> handle_when_connected (this (mongo_step a w)).
Proof.
  destruct a as [ev | drv A op | drv A op]; cbn [mongo_step].
  - apply (on_event_keeps _ handle_listener_stable).
  - destruct (MongoDB.is_crud op) eqn:Hc.
    + now apply (crud_keeps _ handle_listener_stable).
    + destruct op; try discriminate Hc; cbn [MongoDB.invoke].
      * apply connect_keeps_handle.
      * apply disconnect_keeps_handle.
  - apply (plain_keeps _ handle_listener_stable).
Qed.

(** X2: in every reachable state of the MongoDB adapter a status of
    connected comes with a database handle, so [isConnected()] is true
    exactly when the status is connected. *)
Theorem connected_status_has_handle w :
  mongo_reachable w ->
  (MongoDB.connectionStatus (this w) = CONNECTED ->
   exists d, MongoDB.db (this w) = Some d) /\
  (snd (MongoDB.isConnected w) = Return true <->
   snd (MongoDB.getConnectionStatus w) = Return CONNECTED).
Proof.
  intros H.
  assert (Hinv : handle_when_connected (this w)).
  { induction H as [drv options w0 w m E | a w _ IH].
    - apply mongo_new_spec in E as (Hs & _). cbn. intros Hc. congruence.
    - now apply mongo_step_keeps_handle. }
  split; [exact Hinv | ].
  unfold MongoDB.isConnected, MongoDB.getConnectionStatus, bind, get_this.
  cbn [snd ret this]. unfold MongoDB.connected. split.
  - intros E. inversion E as [Hb]. apply andb_true_iff in Hb as [Hs _].
    destruct (MongoDB.connectionStatus (this w)); try discriminate Hs. reflexivity.
  - intros E. inversion E as [Hs]. destruct (Hinv Hs) as (d & Hd).
    rewrite Hs, Hd. reflexivity.
Qed.

(** A reachable state: constructed, connected, then hit by a client error. *)
Lemma connected_status_has_handle_witness :
  mongo_reachable
    (mongo_step (Emit (Driver.clientError JsNull))
       (mongo_step (Invoke healthy_driver MongoDB.Connect) sample_mongo_world)) /\
  (snd (MongoDB.isConnected
          (mongo_step (Emit (Driver.clientError JsNull))
             (mongo_step (Invoke healthy_driver MongoDB.Connect) sample_mongo_world)))
     = Return true <->
   snd (MongoDB.getConnectionStatus
          (mongo_step (Emit (Driver.clientError JsNull))
             (mongo_step (Invoke healthy_driver MongoDB.Connect) sample_mongo_world)))
     = Return CONNECTED).
Proof.
  assert (R : mongo_reachable
                (mongo_step (Emit (Driver.clientError JsNull))
                   (mongo_step (Invoke healthy_driver MongoDB.Connect)
                      sample_mongo_world))).
  { do 2 apply mongo_stepped.
    exact (mongo_constructed healthy_driver sample_mongo_options empty_world _ _ eq_refl). }
  split; [exact R | exact (proj2 (connected_status_has_handle _ R))].
Defined.

(** ** Which calls a method makes on the wrapped client *)

Definition call_method (c : Call) : string :=
  match c with ClientCall method _ => method end.

(** Every call [c] makes on the wrapped client passes the test [ok]. *)
Definition only_calls {T A} (ok : Call -> bool) (c : M T A) : Prop :=
  forall w, exists made,
    calls (fst (c w)) = calls w ++ made /\ forallb ok made = true.

Definition is_one_of (methods : list string) (c : Call) : bool :=
  existsb (String.eqb (call_method c)) methods.

Definition is_none_of (methods : list string) (c : Call) : bool :=
  negb (is_one_of methods c).

Section OnlyCalls.
Context {T : Type}.
Variable ok : Call -> bool.

Lemma silent_only_calls {A} (c : M T A) :
  (forall w, calls (fst (c w)) = calls w) -> only_calls ok c.
Proof. intros H w. exists []. now rewrite H, app_nil_r. Qed.

Lemma only_calls_ret {A} (a : A) : only_calls ok (ret (T := T) a).
Proof. now apply silent_only_calls. Qed.

Lemma only_calls_throw {A} t : only_calls ok (@throw T A t).
Proof. now apply silent_only_calls. Qed.

Lemma only_calls_logger level msg : only_calls ok (logger (T := T) level msg).
Proof. now apply silent_only_calls. Qed.

Lemma only_calls_get_this : only_calls ok (get_this (T := T)).
Proof. now apply silent_only_calls. Qed.

Lemma only_calls_modify (f : T -> T) : only_calls ok (modify_this f).
Proof. now apply silent_only_calls. Qed.

Lemma only_calls_settle {A} (r : Completion A) :
  only_calls ok (fun w : World T => (w, r)).
Proof. now apply silent_only_calls. Qed.

Lemma only_calls_client_call {A} method target (r : Completion A) :
  ok (ClientCall method target) = true ->
  only_calls ok (client_call (T := T) method target r).
Proof. intros H w. exists [ClientCall method target]. cbn. now rewrite H. Qed.

Lemma only_calls_bind {A B} (c : M T A) (k : A -> M T B) :
  only_calls ok c -> (forall a, only_calls ok (k a)) -> only_calls ok (bind c k).
Proof.
  intros Hc Hk w. unfold bind. destruct (Hc w) as (m1 & E1 & F1).
  destruct (c w) as [w1 [a | t]]; cbn [fst] in *.
  - destruct (Hk a w1) as (m2 & E2 & F2). exists (m1 ++ m2).
    rewrite E2, E1, app_assoc, forallb_app, F1, F2. now split.
  - now exists m1.
Qed.

Lemma only_calls_try_catch {A} (body : M T A) handler :
  only_calls ok body -> (forall t, only_calls ok (handler t)) ->
  only_calls ok (try_catch body handler).
Proof.
  intros Hb Hh w. unfold try_catch. destruct (Hb w) as (m1 & E1 & F1).
  destruct (body w) as [w1 [a | t]]; cbn [fst] in *.
  - now exists m1.
  - destruct (Hh t w1) as (m2 & E2 & F2). exists (m1 ++ m2).
    rewrite E2, E1, app_assoc, forallb_app, F1, F2. now split.
Qed.

Lemma only_calls_when c (body : M T unit) :
  only_calls ok body -> only_calls ok (when c body).
Proof. destruct c; intros H; [exact H | apply only_calls_ret]. Qed.

(** A method call on an object held in a field makes the calls of the
    method. *)
Lemma only_calls_on_field {U A} (sub : U) (store : U -> T -> T) (c : M U A) :
  only_calls ok c -> only_calls ok (on_field sub store c).
Proof.
  intros Hc w. unfold on_field. destruct (Hc (with_this sub w)) as (m & E & F).
  destruct (c (with_this sub w)) as [w' r]. now exists m.
Qed.

Lemma only_calls_new_object {U} (fresh : U) (ctor : M U unit) :
  only_calls ok ctor -> only_calls ok (new_object (T := T) fresh ctor).
Proof.
  intros Hc w. unfold new_object. destruct (Hc (with_this fresh w)) as (m & E & F).
  destruct (ctor (with_this fresh w)) as [w' [[] | t]]; now exists m.
Qed.
End OnlyCalls.

Ltac only_calls_step :=
  first
    [ apply only_calls_ret | apply only_calls_throw | apply only_calls_logger
    | apply only_calls_get_this | apply only_calls_modify
    | apply only_calls_settle
    | apply only_calls_client_call; reflexivity
    | apply only_calls_bind; [ | intros ? ]
    | apply only_calls_try_catch; [ | intros ? ]
    | apply only_calls_when
    | match goal with
      | |- only_calls _ (match ?x with _ => _ end) => destruct x
      | |- only_calls _ (let _ := _ in _) => cbv zeta
      end ].

Lemma on_event_only_calls ok ev : only_calls ok (MongoDB.on_event ev).
Proof. destruct ev; cbn [MongoDB.on_event]; repeat only_calls_step. Qed.

Lemma emit_all_only_calls ok evs : only_calls ok (MongoDB.emit_all evs).
Proof.
  induction evs as [| ev evs IH]; cbn [MongoDB.emit_all].
  - apply only_calls_ret.
  - apply only_calls_bind; [apply on_event_only_calls | intros _; exact IH].
Qed.

Lemma await_only_calls {A} ok method target (r : Driver.Reply A) :
  ok (ClientCall method target) = true ->
  only_calls ok (MongoDB.await method target r).
Proof.
  intros H. unfold MongoDB.await.
  apply only_calls_bind; [now apply only_calls_client_call | intros _].
  apply only_calls_bind; [apply emit_all_only_calls | intros _].
  apply only_calls_settle.
Qed.

Ltac mongo_only_calls :=
  repeat first [ apply await_only_calls; reflexivity | only_calls_step ].

(** The driver methods a MongoDB method may use: [connect] does not close,
    [disconnect] does not connect, and the other methods do neither. *)
Definition mongo_may_call {A} (op : MongoDB.Op A) : Call -> bool :=
  match op with
  | MongoDB.Connect => is_none_of ["client.close"]
  | MongoDB.Disconnect => is_none_of ["client.connect"; "client.db"]
  | _ => is_none_of ["client.connect"; "client.close"; "client.db"]
  end.

Ltac mongo_unfold :=
  unfold MongoDB.connect, MongoDB.connect_entry, MongoDB.connect_rest,
    MongoDB.connect_catch, MongoDB.disconnect,
    MongoDB.insertOne, MongoDB.insertMany, MongoDB.find, MongoDB.findOne,
    MongoDB.updateOne, MongoDB.updateMany, MongoDB.deleteOne, MongoDB.deleteMany,
    MongoDB.countDocuments, MongoDB.createIndex,
    MongoDB.addDocument, MongoDB.getDocuments, MongoDB.deleteDocument,
    MongoDB.updateDocument, MongoDB.rethrow, MongoDB.getConnectionStatus,
    MongoDB.catch_with, MongoDB.require_connected, MongoDB.isConnected,
    MongoDB.getCollection, MongoDB.the_client, throw_new_Error.

(** X3: the MongoDB adapter never reconnects on its own.  Only [connect]
    calls the driver's [connect] and [db], only [disconnect] calls its
    [close]; the CRUD, count and index methods, the legacy methods and the
    getters call neither, and the event listeners call nothing at all. *)
Theorem mongo_never_reconnects_by_itself :
  (forall drv A (op : MongoDB.Op A),
     only_calls (mongo_may_call op) (MongoDB.invoke drv op)) /\
  (forall drv A (op : MongoDB.PlainOp A),
     only_calls (is_none_of ["client.connect"; "client.close"; "client.db"])
       (MongoDB.invoke_plain drv op)) /\
  (forall ev, only_calls (fun _ => false) (MongoDB.on_event ev)).
Proof.
  repeat apply conj.
  - intros drv A op.
    destruct op; cbn [MongoDB.invoke mongo_may_call]; mongo_unfold; mongo_only_calls.
  - intros drv A op.
    destruct op; cbn [MongoDB.invoke_plain]; mongo_unfold; mongo_only_calls.
  - intros ev. apply on_event_only_calls.
Qed.

(** The cursor methods [find] may use, given its [options]: [sort] only
    when a sort is given, [skip] and [limit] only when given and not 0. *)
Definition find_may_call (options : option MongoDB.FindOptions) (c : Call) : bool :=
  let o := nullish options (MongoDB.mkFindOptions None None None) in
  (DB.is_some (MongoDB.sort o) || is_none_of ["cursor.sort"] c) &&
  (DB.is_some (truthy_num (MongoDB.skip o)) || is_none_of ["cursor.skip"] c) &&
  (DB.is_some (truthy_num (MongoDB.limit o)) || is_none_of ["cursor.limit"] c).

(** X4: [find] does not forward an option that is absent or 0: without a
    sort it never calls [cursor.sort], and with a skip (limit) that is
    missing or 0 it never calls [cursor.skip] ([cursor.limit]), whatever
    the driver does. *)
Theorem find_forwards_only_given_options drv name query options :
  only_calls (find_may_call options) (MongoDB.find drv name query options).
Proof.
  unfold find_may_call, MongoDB.find. cbv zeta.
  destruct (nullish options (MongoDB.mkFindOptions None None None)) as [l s o].
  cbn [MongoDB.sort MongoDB.skip MongoDB.limit].
  destruct o as [o |], (truthy_num s) as [s' |], (truthy_num l) as [l' |];
    mongo_unfold; mongo_only_calls.
Qed.

(** ** What a CRUD method returns on a connected adapter *)

Definition and_then {A B} (c : Completion A) (k : A -> Completion B) : Completion B :=
  match c with
  | Return a => k a
  | Throw t => Throw t
  end.

(** The envelope a method makes of a completion: the value as data, or the
    thrown value as error, replaced by [new Error(errorMessage)] when it is
    not an [Error]. *)
Definition envelope_of {A} (errorMessage : string) (c : Completion A)
  : OperationResult A :=
  match c with
  | Return a => ok_data a
  | Throw t => failed (error_or_new t errorMessage)
  end.

(** The collection a method works on and the message of its [catch]. *)
Definition op_collection {A} (op : MongoDB.Op A) : string :=
  match op with
  | MongoDB.Connect | MongoDB.Disconnect => ""
  | MongoDB.InsertOne c _ | MongoDB.InsertMany c _ | MongoDB.Find c _ _
  | MongoDB.FindOne c _ | MongoDB.UpdateOne c _ _ | MongoDB.UpdateMany c _ _
  | MongoDB.DeleteOne c _ | MongoDB.DeleteMany c _ | MongoDB.CountDocuments c _
  | MongoDB.CreateIndex c _ _ => c
  end.

Definition op_error_message {A} (op : MongoDB.Op A) : string :=
  match op with
  | MongoDB.Connect | MongoDB.Disconnect => ""
  | MongoDB.InsertOne c _ => "Error inserting document into " +++ c
  | MongoDB.InsertMany c _ => "Error inserting documents into " +++ c
  | MongoDB.Find c _ _ => "Error finding documents in " +++ c
  | MongoDB.FindOne c _ => "Error finding document in " +++ c
  | MongoDB.UpdateOne c _ _ => "Error updating document in " +++ c
  | MongoDB.UpdateMany c _ _ => "Error updating documents in " +++ c
  | MongoDB.DeleteOne c _ => "Error deleting document from " +++ c
  | MongoDB.DeleteMany c _ => "Error deleting documents from " +++ c
  | MongoDB.CountDocuments c _ => "Error counting documents in " +++ c
  | MongoDB.CreateIndex c _ _ => "Error creating index on " +++ c
  end.

(** The cursor [find] builds on a collection. *)
Definition find_cursor (drv : Driver.t) (coll : Driver.Collection)
    (query : JsObject) (o : MongoDB.FindOptions) : Completion Driver.FindCursor :=
  and_then (Driver.find drv coll query) (fun cursor =>
  and_then (match MongoDB.sort o with
            | Some s => Driver.sort drv cursor s
            | None => Return cursor
            end) (fun cursor =>
  and_then (match truthy_num (MongoDB.skip o) with
            | Some n => Driver.skip drv cursor n
            | None => Return cursor
            end) (fun cursor =>
  match truthy_num (MongoDB.limit o) with
  | Some n => Driver.limit drv cursor n
  | None => Return cursor
  end))).

(** The driver call a method forwards to, with the driver's reply
    translated to the method's result type. *)
Definition forwarded (drv : Driver.t) {A} (op : MongoDB.Op A)
    (coll : Driver.Collection) : Completion A :=
  match op in MongoDB.Op A return Completion A with
  | MongoDB.Connect | MongoDB.Disconnect => Return tt
  | MongoDB.InsertOne _ document =>
      and_then (Driver.outcome (Driver.insertOne drv coll document)) (fun result =>
        Return (InsertResult.mk (Driver.toString (Driver.insertedId result))
                                (Driver.acknowledged result)))
  | MongoDB.InsertMany _ documents =>
      and_then (Driver.outcome (Driver.insertMany drv coll documents)) (fun result =>
        Return (InsertManyResult.mk (map Driver.toString (Driver.insertedIds result))
                                    (Driver.insertedCount result)))
  | MongoDB.Find _ query options =>
      and_then (find_cursor drv coll (nullish query [])
                  (nullish options (MongoDB.mkFindOptions None None None)))
        (fun cursor => Driver.outcome (Driver.toArray drv cursor))
  | MongoDB.FindOne _ query => Driver.outcome (Driver.findOne drv coll query)
  | MongoDB.UpdateOne _ query update =>
      and_then (Driver.outcome (Driver.updateOne drv coll query update)) (fun result =>
        Return (MongoDB.updateResult_of result))
  | MongoDB.UpdateMany _ query update =>
      and_then (Driver.outcome (Driver.updateMany drv coll query update)) (fun result =>
        Return (MongoDB.updateResult_of result))
  | MongoDB.DeleteOne _ query =>
      and_then (Driver.outcome (Driver.deleteOne drv coll query)) (fun result =>
        Return (MongoDB.deleteResult_of result))
  | MongoDB.DeleteMany _ query =>
      and_then (Driver.outcome (Driver.deleteMany drv coll query)) (fun result =>
        Return (MongoDB.deleteResult_of result))
  | MongoDB.CountDocuments _ query =>
      Driver.outcome (Driver.countDocuments drv coll (nullish query []))
  | MongoDB.CreateIndex _ indexSpec options =>
      Driver.outcome (Driver.createIndex drv coll indexSpec (nullish options []))
  end.

(** A guarded method of the common shape, on a connected adapter. *)
Lemma forward_spec {R A} drv name method (reply : Driver.Collection -> Driver.Reply R)
    (msg : R -> string) (f : R -> A) emsg w d :
  MongoDB.connectionStatus (this w) = CONNECTED ->
  MongoDB.db (this w) = Some d ->
  snd (try_catch
         (MongoDB.require_connected ;;
          collection <- MongoDB.getCollection drv name ;;
          result <- MongoDB.await method name (reply collection) ;;
          logger DEBUG (msg result) ;;
          ret (ok_data (f result)))
         (MongoDB.catch_with emsg) w) =
  Return (envelope_of emsg
            (and_then (Driver.collection drv d name) (fun coll =>
             and_then (Driver.outcome (reply coll)) (fun res => Return (f res))))).
Proof.
  destruct w as [[cl dbo n s ra mx] apps cs ls]. cbn [this MongoDB.connectionStatus MongoDB.db].
  intros -> ->.
  unfold try_catch, MongoDB.require_connected, MongoDB.isConnected, MongoDB.getCollection,
    MongoDB.catch_with, throw_new_Error.
  unfold bind at 1 2 3 4 5. cbn -[MongoDB.await String.append bind].
  destruct (Driver.collection drv d name) as [coll | t];
    cbn -[MongoDB.await String.append bind]; [ | reflexivity].
  unfold bind at 1.
  match goal with
  | |- context [MongoDB.await ?m ?t ?r ?w1] =>
      destruct (await_spec m t r w1) as (s' & l & E); rewrite E; clear E
  end.
  destruct (Driver.outcome (reply coll)) as [res | t]; reflexivity.
Qed.

Lemma bind_eq {T A B} (c : M T A) (k : A -> M T B) w :
  bind c k w = match c w with
               | (w', Return a) => k a w'
               | (w', Throw t) => (w', Throw t)
               end.
Proof. reflexivity. Qed.

Ltac run_step :=
  repeat progress (rewrite ?bind_eq; cbn -[MongoDB.await String.append bind]).

Ltac run_oracle :=
  match goal with
  | |- context [match ?r with Return _ => _ | Throw _ => _ end] =>
      lazymatch r with
      | context [MongoDB.await] => fail
      | context [bind] => fail
      | _ => destruct r; run_step; try reflexivity
      end
  end.

Lemma find_spec drv name query options w d :
  MongoDB.connectionStatus (this w) = CONNECTED ->
  MongoDB.db (this w) = Some d ->
  snd (MongoDB.find drv name query options w) =
  Return (envelope_of ("Error finding documents in " +++ name)
            (and_then (Driver.collection drv d name)
               (forwarded drv (MongoDB.Find name query options)))).
Proof.
  destruct w as [[cl dbo n s ra mx] apps cs ls]. cbn [this MongoDB.connectionStatus MongoDB.db].
  intros -> ->.
  unfold MongoDB.find, forwarded, find_cursor. cbv zeta.
  destruct (nullish options (MongoDB.mkFindOptions None None None)) as [l sk so].
  cbn [MongoDB.sort MongoDB.skip MongoDB.limit].
  unfold try_catch, MongoDB.require_connected, MongoDB.isConnected, MongoDB.getCollection,
    MongoDB.catch_with, throw_new_Error.
  run_step.
  destruct (Driver.collection drv d name) as [coll | t]; run_step; [ | reflexivity].
  destruct (Driver.find drv coll (nullish query [])) as [c0 | t]; run_step;
    [ | reflexivity].
  destruct so as [so |], (truthy_num sk) as [sk' |], (truthy_num l) as [l' |];
    run_step; repeat run_oracle;
    match goal with
    | |- context [MongoDB.await ?m ?t ?r ?w1] =>
        destruct (await_spec m t r w1) as (s' & lg & E); rewrite E; clear E;
        destruct (Driver.outcome r); reflexivity
    end.
Qed.

(** X5: on a connected adapter the envelope of a CRUD, count or index
    method is a function of the driver's replies alone.  If
    [db.collection] or the forwarded driver call throws, the envelope is
    [{success: false}] with the thrown [Error] itself, or with a new
    [Error] carrying the method's own message when the thrown value is not
    an [Error]; otherwise it is [{success: true}] with the driver's reply
    translated to the method's result type.  Events the client emits while
    the method waits do not change the envelope. *)
Theorem result_is_forwarded_reply drv {A} (op : MongoDB.Op A) w d :
  MongoDB.is_crud op = true ->
  MongoDB.connectionStatus (this w) = CONNECTED ->
  MongoDB.db (this w) = Some d ->
  snd (MongoDB.invoke drv op w) =
  Return (envelope_of (op_error_message op)
            (and_then (Driver.collection drv d (op_collection op))
               (forwarded drv op))).
Proof.
  intros Hc Hs Hd.
  destruct op; try discriminate Hc; cbn [MongoDB.invoke op_error_message op_collection];
    try (apply find_spec; assumption);
    unfold MongoDB.insertOne, MongoDB.insertMany, MongoDB.findOne,
      MongoDB.updateOne, MongoDB.updateMany, MongoDB.deleteOne, MongoDB.deleteMany,
      MongoDB.countDocuments, MongoDB.createIndex; cbv zeta;
    (etransitivity; [apply (forward_spec drv); eassumption | ]);
    destruct (Driver.collection drv d collectionName) as [coll | t];
    cbn [and_then envelope_of forwarded]; try reflexivity;
    match goal with
    | |- context [Driver.outcome ?r] => destruct (Driver.outcome r); reflexivity
    end.
Qed.

(** [updateOne] on a connected adapter, against a driver whose reply has no
    upserted count. *)
Lemma result_is_forwarded_reply_witness :
  (MongoDB.is_crud (MongoDB.UpdateOne "users" [] []) = true /\
   MongoDB.connectionStatus
     (this (fst (MongoDB.connect healthy_driver sample_mongo_world))) = CONNECTED /\
   MongoDB.db (this (fst (MongoDB.connect healthy_driver sample_mongo_world))) =
     Some (Driver.mkDb (Some "test"))) /\
  snd (MongoDB.invoke healthy_driver (MongoDB.UpdateOne "users" [] [])
         (fst (MongoDB.connect healthy_driver sample_mongo_world))) =
  Return (ok_data (UpdateResult.mk true 1 1 (Some 0) None)).
Proof.
  split; [repeat split | ].
  exact (result_is_forwarded_reply healthy_driver (MongoDB.UpdateOne "users" [] [])
           (fst (MongoDB.connect healthy_driver sample_mongo_world))
           (Driver.mkDb (Some "test")) eq_refl eq_refl eq_refl).
Defined.

(** ** Which SDK calls a Firebase method makes *)

Definition sdk_init_methods : list string :=
  ["admin.credential.cert"; "admin.initializeApp"; "admin.firestore"].

Definition sdk_write_methods : list string :=
  ["documentRef.set"; "documentRef.update"; "documentRef.delete";
   "collectionRef.add"; "batch.set"; "batch.update"; "batch.delete";
   "batch.commit"; "firestore.runTransaction"].

(** [getDocument] and [getCollection] read. *)
Definition reads {A} (op : Firebase.Op A) : bool :=
  match op with
  | Firebase.GetDocument _ | Firebase.GetCollection _ _ => true
  | _ => false
  end.

Definition firebase_may_call {A} (op : Firebase.Op A) : Call -> bool :=
  if reads op then is_none_of (sdk_init_methods ++ sdk_write_methods)
  else is_none_of sdk_init_methods.

Ltac firebase_unfold_all :=
  unfold Firebase.getDocument, Firebase.setDocument, Firebase.updateDocument,
    Firebase.deleteDocument, Firebase.addDocument, Firebase.getCollection,
    Firebase.batchWrite, Firebase.runTransaction,
    Firebase.listenCollection, Firebase.listenDocument,
    Firebase.firestore_doc, Firebase.firestore_collection,
    Firebase.the_firestore, Firebase.require_connected, Firebase.isConnected,
    Firebase.getConnectionStatus, Firebase.catch_with, throw_new_Error.

Lemma apply_where_only_calls ok sdk path conditions query :
  ok (ClientCall "query.where" path) = true ->
  only_calls ok (Firebase.apply_where sdk path conditions query).
Proof.
  intros H. revert query. induction conditions as [| c rest IH]; intros query;
    cbn [Firebase.apply_where].
  - apply only_calls_ret.
  - apply only_calls_bind; [now apply only_calls_client_call | intros q; apply IH].
Qed.

Lemma build_query_only_calls ok sdk path w_ o l :
  forallb (fun m => ok (ClientCall m path))
    ["firestore.collection"; "query.where"; "query.orderBy"; "query.limit"] = true ->
  only_calls ok (Firebase.build_query sdk path w_ o l).
Proof.
  cbn [forallb]. rewrite !andb_true_iff. intros (Hc & Hw & Ho & Hl & _).
  unfold Firebase.build_query. firebase_unfold_all.
  repeat first
    [ now apply apply_where_only_calls
    | now apply only_calls_client_call
    | only_calls_step ].
Qed.

Lemma stage_writes_only_calls ok sdk operations batch :
  (forall path, forallb (fun m => ok (ClientCall m path))
     ["firestore.doc"; "batch.set"; "batch.update"; "batch.delete"] = true) ->
  only_calls ok (Firebase.stage_writes sdk operations batch).
Proof.
  intros H. revert batch. induction operations as [| o rest IH]; intros batch;
    cbn [Firebase.stage_writes].
  - apply only_calls_ret.
  - specialize (H (Firebase.op_path o)). cbn [forallb] in H.
    rewrite !andb_true_iff in H. destruct H as (Hd & Hs & Hu & Hx & _).
    firebase_unfold_all.
    repeat first
      [ apply IH
      | now apply only_calls_client_call
      | only_calls_step ].
Qed.

(** X6: no Firebase method initialises the SDK again (the constructor
    alone calls [credential.cert], [initializeApp] and [admin.firestore]),
    and the reading methods [getDocument], [getCollection],
    [listenCollection] and [listenDocument] make no writing SDK call,
    whatever the SDK answers. *)
Theorem firebase_methods_never_initialise :
  (forall sdk A (op : Firebase.Op A),
     only_calls (firebase_may_call op) (Firebase.invoke sdk op)) /\
  (forall sdk A (op : Firebase.PlainOp A),
     only_calls (is_none_of (sdk_init_methods ++ sdk_write_methods))
       (Firebase.invoke_plain sdk op)).
Proof.
  split; intros sdk A op; destruct op;
    cbn [Firebase.invoke Firebase.invoke_plain firebase_may_call reads];
    firebase_unfold_all; cbv zeta;
    repeat first
      [ apply build_query_only_calls; reflexivity
      | apply stage_writes_only_calls; intros ?; reflexivity
      | only_calls_step ].
Qed.

(** ** The payloads of the Firestore adapter *)

Definition change_type_eqb (a b : Sdk.ChangeType) : bool :=
  match a, b with
  | Sdk.added, Sdk.added | Sdk.modified, Sdk.modified | Sdk.removed, Sdk.removed => true
  | _, _ => false
  end.

(** The documents of the changes of one type, in the order of the changes. *)
Definition changes_of_type (ty : Sdk.ChangeType) (docChanges : list Sdk.DocumentChange)
  : list JsObject :=
  map (fun change => Firebase.with_id (Sdk.change_doc change))
      (filter (fun change => change_type_eqb (Sdk.change_type change) ty) docChanges).

Lemma collection_changes_from acc docChanges :
  fold_left
    (fun acc change =>
       let doc := Firebase.with_id (Sdk.change_doc change) in
       match Sdk.change_type change with
       | Sdk.added =>
           Firebase.mkChanges (Firebase.added acc ++ [doc]) (Firebase.modified acc)
             (Firebase.removed acc)
       | Sdk.modified =>
           Firebase.mkChanges (Firebase.added acc) (Firebase.modified acc ++ [doc])
             (Firebase.removed acc)
       | Sdk.removed =>
           Firebase.mkChanges (Firebase.added acc) (Firebase.modified acc)
             (Firebase.removed acc ++ [doc])
       end)
    docChanges acc =
  Firebase.mkChanges
    (Firebase.added acc ++ changes_of_type Sdk.added docChanges)
    (Firebase.modified acc ++ changes_of_type Sdk.modified docChanges)
    (Firebase.removed acc ++ changes_of_type Sdk.removed docChanges).
Proof.
  revert acc. induction docChanges as [| [ty doc] rest IH]; intros [a m r].
  - cbn. now rewrite !app_nil_r.
  - cbn [fold_left]. rewrite IH. unfold changes_of_type.
    destruct ty; cbn; rewrite <- ?app_assoc; reflexivity.
Qed.

(** X7: the snapshot listener of [listenCollection] sorts the changes by
    type without losing or reordering any: each of the three lists holds
    the documents of the changes of its type, in the order of the changes,
    so the three lengths add up to the number of changes. *)
Theorem collection_changes_partition docChanges :
  Firebase.added (Firebase.collection_changes docChanges) =
    changes_of_type Sdk.added docChanges /\
  Firebase.modified (Firebase.collection_changes docChanges) =
    changes_of_type Sdk.modified docChanges /\
  Firebase.removed (Firebase.collection_changes docChanges) =
    changes_of_type Sdk.removed docChanges /\
  (length (Firebase.added (Firebase.collection_changes docChanges)) +
   length (Firebase.modified (Firebase.collection_changes docChanges)) +
   length (Firebase.removed (Firebase.collection_changes docChanges)) =
   length docChanges)%nat.
Proof.
  unfold Firebase.collection_changes. rewrite collection_changes_from. cbn.
  repeat split.
  unfold changes_of_type. rewrite !length_map.
  induction docChanges as [| [ty doc] rest IH]; [reflexivity | ].
  destruct ty; cbn in *; lia.
Qed.

(** [o[k]] on an object: the value of the property [k], if there is one. *)
Fixpoint obj_get (k : string) (o : JsObject) : option JsValue :=
  match o with
  | [] => None
  | (k', v) :: o' => if String.eqb k k' then Some v else obj_get k o'
  end.

Lemma obj_get_set_same k v o : obj_get k (obj_set k v o) = Some v.
Proof.
  induction o as [| [k' v'] o IH]; cbn.
  - now rewrite String.eqb_refl.
  - destruct (String.eqb k k') eqn:E; cbn; rewrite ?E, ?String.eqb_refl; auto.
Qed.

Lemma obj_get_set_other k k' v o :
  k' <> k -> obj_get k' (obj_set k v o) = obj_get k' o.
Proof.
  intros Hne. induction o as [| [k0 v0] o IH]; cbn.
  - apply String.eqb_neq in Hne. now rewrite Hne.
  - destruct (String.eqb k k0) eqn:E; cbn.
    + apply String.eqb_eq in E. subst k0.
      apply String.eqb_neq in Hne. now rewrite Hne.
    + destruct (String.eqb k' k0); auto.
Qed.

Lemma obj_set_keys k v o :
  NoDup (map fst o) ->
  NoDup (map fst (obj_set k v o)) /\
  forall x, In x (map fst (obj_set k v o)) <-> x = k \/ In x (map fst o).
Proof.
  induction o as [| [k0 v0] o IH]; cbn; intros Hnd.
  - split; [repeat constructor; auto | intros x; intuition].
  - inversion Hnd as [| ? ? Hnot Hnd']; subst.
    destruct (String.eqb k k0) eqn:E; cbn.
    + apply String.eqb_eq in E. subst k0. split; [exact Hnd | intros x; intuition].
    + destruct (IH Hnd') as (IH1 & IH2). apply String.eqb_neq in E. split.
      * constructor; [ | exact IH1]. intros Hin. apply IH2 in Hin as [-> | Hin]; auto.
      * intros x. rewrite IH2. intuition.
Qed.

Lemma obj_get_none k o : obj_get k o = None <-> ~ In k (map fst o).
Proof.
  induction o as [| [k0 v0] o IH]; cbn; [intuition | ].
  destruct (String.eqb k k0) eqn:E.
  - apply String.eqb_eq in E. subst. split; [discriminate | intros H; exfalso; auto].
  - apply String.eqb_neq in E. rewrite IH. intuition.
Qed.

Lemma obj_spread_get target src k :
  NoDup (map fst src) ->
  obj_get k (obj_spread target src) =
  match obj_get k src with
  | Some v => Some v
  | None => obj_get k target
  end.
Proof.
  unfold obj_spread. revert target.
  induction src as [| [k0 v0] src IH]; intros target Hnd; [reflexivity | ].
  inversion Hnd as [| ? ? Hnot Hnd']; subst. cbn [fold_left fst snd obj_get].
  rewrite (IH _ Hnd'). destruct (String.eqb k k0) eqn:E.
  - apply String.eqb_eq in E. subst k0.
    apply obj_get_none in Hnot. rewrite Hnot. apply obj_get_set_same.
  - apply String.eqb_neq in E. destruct (obj_get k src); [reflexivity | ].
    now apply obj_get_set_other.
Qed.

Lemma obj_spread_keys target src :
  NoDup (map fst target) -> NoDup (map fst (obj_spread target src)).
Proof.
  unfold obj_spread. revert target.
  induction src as [| [k0 v0] src IH]; intros target Hnd; [exact Hnd | ].
  cbn [fold_left fst snd]. apply IH. now apply obj_set_keys.
Qed.

(** X8: the document an adapter method hands out for a snapshot has every
    field of the stored data with its value, and an [id] field: the stored
    data's own [id] field when it has one, which then hides the document
    id, and the document id otherwise.  It has no other field, and no
    field twice. *)
Theorem with_id_fields snapshot k :
  NoDup (map fst (Sdk.snap_data snapshot)) ->
  obj_get k (Firebase.with_id snapshot) =
    match obj_get k (Sdk.snap_data snapshot) with
    | Some v => Some v
    | None => if String.eqb k "id" then Some (JsStr (Sdk.snap_id snapshot)) else None
    end /\
  NoDup (map fst (Firebase.with_id snapshot)).
Proof.
  intros Hnd. unfold Firebase.with_id. split.
  - now rewrite obj_spread_get.
  - apply obj_spread_keys. repeat constructor. auto.
Qed.

(** A stored document with its own [id] field. *)
Lemma with_id_fields_witness :
  NoDup (map fst [("name", JsStr "A"); ("id", JsStr "own")]) /\
  obj_get "id"
    (Firebase.with_id
       (Sdk.mkSnapshot true "abc" [("name", JsStr "A"); ("id", JsStr "own")])) =
  Some (JsStr "own").
Proof.
  assert (Hnd : NoDup (map fst [("name", JsStr "A"); ("id", JsStr "own")])).
  { cbn. repeat constructor; cbn; intuition discriminate. }
  split; [exact Hnd | ].
  exact (proj1 (with_id_fields
                  (Sdk.mkSnapshot true "abc" [("name", JsStr "A"); ("id", JsStr "own")])
                  "id" Hnd)).
Defined.

(** ** The options handed to the MongoDB client *)

(** A numeric option as configured: [None] when there is no [options]
    object or the option is missing. *)
Definition configured {V} (f : PoolOptions.t -> option V) (o : MongoDBOptions.t)
  : option V :=
  match MongoDBOptions.options o with
  | Some p => f p
  | None => None
  end.

(** The client gets [r] for a numeric option configured as [v], with
    default [d]: the configured value unless it is missing or falsy. *)
Definition passes (v : option number) (d r : number) : Prop :=
  (forall x, v = Some x -> falsy_number x = false -> r = x) /\
  (v = None \/ (exists x, v = Some x /\ falsy_number x = true) -> r = d).

Lemma or_number_passes v d : passes v d (or_number v d).
Proof.
  unfold passes, or_number. destruct v as [x |].
  - destruct (falsy_number x) eqn:Hx; split.
    + intros x' E Hx'. inversion E. congruence.
    + reflexivity.
    + intros x' E _. now inversion E.
    + intros [E | (x' & E & Hx')]; [discriminate | inversion E; congruence].
  - split; [discriminate | reflexivity].
Qed.

Lemma or_number_truthy v d :
  falsy_number d = false -> falsy_number (or_number v d) = false.
Proof.
  intros Hd. unfold or_number. destruct v as [x |]; [ | exact Hd].
  destruct (falsy_number x) eqn:Hx; assumption.
Qed.

Example zero_and_nan_take_the_default :
  MongoDB.clientOptions_of
    (MongoDBOptions.mk "mongodb://localhost:27017" "test"
       (Some (PoolOptions.mk (Some nan) (Some 0%float) (Some 7%float) None
                (Some (-0)%float) (Some false) None))) =
  Driver.mkClientOptions 10%float 2%float 7%float 5000%float 45000%float false true.
Proof. reflexivity. Qed.

(** X9: the constructor passes each configured pool or timeout option to
    the client unless it is missing or falsy, that is 0, -0 or NaN, in
    which case the client gets the default (10, 2, 30000, 5000, 45000): no
    numeric option of the client is ever 0 or NaN, so a [minPoolSize] of 0
    cannot be configured.  The two retry flags default to true only when
    missing: a configured [false] is kept. *)
Theorem client_options_defaults o :
  let c := MongoDB.clientOptions_of o in
  (falsy_number 0%float = true /\ falsy_number (-0)%float = true /\
   falsy_number nan = true) /\
  (passes (configured PoolOptions.maxPoolSize o) 10%float (Driver.maxPoolSize c) /\
   passes (configured PoolOptions.minPoolSize o) 2%float (Driver.minPoolSize c) /\
   passes (configured PoolOptions.maxIdleTimeMS o) 30000%float
     (Driver.maxIdleTimeMS c) /\
   passes (configured PoolOptions.serverSelectionTimeoutMS o) 5000%float
     (Driver.serverSelectionTimeoutMS c) /\
   passes (configured PoolOptions.socketTimeoutMS o) 45000%float
     (Driver.socketTimeoutMS c)) /\
  (falsy_number (Driver.maxPoolSize c) = false /\
   falsy_number (Driver.minPoolSize c) = false /\
   falsy_number (Driver.maxIdleTimeMS c) = false /\
   falsy_number (Driver.serverSelectionTimeoutMS c) = false /\
   falsy_number (Driver.socketTimeoutMS c) = false) /\
  (Driver.retryWrites c = false <-> configured PoolOptions.retryWrites o = Some false) /\
  (Driver.retryReads c = false <-> configured PoolOptions.retryReads o = Some false).
Proof.
  cbv zeta. unfold MongoDB.clientOptions_of, configured.
  cbn [Driver.maxPoolSize Driver.minPoolSize Driver.maxIdleTimeMS
       Driver.serverSelectionTimeoutMS Driver.socketTimeoutMS
       Driver.retryWrites Driver.retryReads].
  split; [repeat apply conj; reflexivity | ].
  split; [repeat apply conj; apply or_number_passes | ].
  split; [repeat apply conj; apply or_number_truthy; reflexivity | split].
  - destruct (MongoDBOptions.options o) as [p |]; cbn; [ | split; intros H; discriminate H].
    destruct (PoolOptions.retryWrites p) as [[] |]; cbn; split; intros H; congruence.
  - destruct (MongoDBOptions.options o) as [p |]; cbn; [ | split; intros H; discriminate H].
    destruct (PoolOptions.retryReads p) as [[] |]; cbn; split; intros H; congruence.
Qed.

(** ** The facade's other aggregate operations *)

(** X10: [DB.disconnect] always resolves, with one boolean per configured
    adapter as data: for MongoDB the success flag of the adapter's
    [disconnect], for Firebase always true.  It succeeds exactly when the
    MongoDB boolean is true or MongoDB is not configured, and it never
    touches the Firebase adapter: on a facade without MongoDB it reports
    success, leaves the facade as it was and calls no client, so that
    [isConnected()] answers after it what it answered before. *)
Theorem facade_disconnect_spares_firebase drv w :
  exists w' r results,
    DB.disconnect drv w = (w', Return r) /\
    data r = Some results /\
    DB.mongodb results =
      option_map (fun m => success_of (snd (MongoDB.disconnect drv (with_this m w))))
                 (DB.mongo (this w)) /\
    DB.firebase_ results = option_map (fun _ => true) (DB.firebase (this w)) /\
    success r = nullish (DB.mongodb results) true /\
    DB.firebase (this w') = DB.firebase (this w) /\
    (DB.mongo (this w) = None ->
     success r = true /\ this w' = this w /\ calls w' = calls w /\
     snd (DB.isConnected w') = snd (DB.isConnected w)).
Proof.
  destruct w as [[mo fb] apps cs ls].
  unfold DB.disconnect, DB.disconnect_mongo, try_catch, on_field.
  unfold bind at 1, get_this. cbn [this DB.mongo DB.firebase].
  destruct mo as [m |].
  - unfold bind at 1 2 3.
    destruct (mongo_invoke_resolves drv MongoDB.Disconnect
                (with_this m (mkWorld (DB.mk (Some m) fb) apps cs ls)))
      as (w' & r & E & _).
    cbn [MongoDB.invoke] in E. cbn [option_map]. rewrite E.
    cbn [option_map snd success_of fst ret].
    destruct fb as [b |], (success r) eqn:Hs; cbn -[String.append join];
      eexists _, _, _; (split; [reflexivity | ]); cbn;
      repeat split; try reflexivity; try discriminate; auto.
  - unfold ret at 1, bind at 1. cbn [option_map fst snd].
    destruct fb as [b |]; cbn -[String.append join];
      eexists _, _, _; (split; [reflexivity | ]); cbn;
      repeat split; reflexivity.
Qed.

Lemma connected_status_eqb s (b : bool) :
  status_eqb s CONNECTED && b = true -> s = CONNECTED.
Proof. destruct s; cbn; intros H; try discriminate H; reflexivity. Qed.

(** X11: [getHealthStatus] never fails and calls no client: it returns
    [{success: true}] with an entry for each configured adapter and none
    for the others, leaves the facade as it was, and reports what
    [isConnected()] and [getConnectionStatus()] report.  When [overall] is
    true every entry says connected, by flag and by status. *)
Theorem health_status_never_fails w :
  exists health,
    DB.getHealthStatus w =
      (mkWorld (this w) (admin_apps w) (calls w)
               (logs w ++ [(DEBUG, "Health status checked")]),
       Return (ok_data health)) /\
    Return (DB.overall health) = snd (DB.isConnected w) /\
    Return (DB.mkPer (option_map snd (DB.health_mongodb health))
                     (option_map snd (DB.health_firebase health))) =
      snd (DB.getConnectionStatus w) /\
    DB.is_some (DB.health_mongodb health) = DB.is_some (DB.mongo (this w)) /\
    DB.is_some (DB.health_firebase health) = DB.is_some (DB.firebase (this w)) /\
    (DB.overall health = true ->
     forall entry,
       DB.health_mongodb health = Some entry \/ DB.health_firebase health = Some entry ->
       entry = (true, CONNECTED)).
Proof.
  destruct w as [[mo fb] apps cs ls]. eexists. split; [reflexivity | ].
  cbn [DB.overall DB.health_mongodb DB.health_firebase].
  split; [reflexivity | ].
  split; [destruct mo, fb; reflexivity | ].
  split; [destruct mo; reflexivity | ].
  split; [destruct fb; reflexivity | ].
  - unfold DB.all_connected. cbn [this DB.mongo DB.firebase].
    intros Hall entry [H | H].
    + destruct mo as [m |]; [ | discriminate H]. inversion H; subst entry.
      apply andb_true_iff in Hall as [Hm _]. rewrite Hm.
      now rewrite (connected_status_eqb _ _ Hm).
    + destruct fb as [b |]; [ | discriminate H]. inversion H; subst entry.
      apply andb_true_iff in Hall as [_ Hb]. rewrite Hb.
      now rewrite (connected_status_eqb _ _ Hb).
Qed.

(** X12: after construction the facade never talks to the Firebase SDK.
    [DB.connect] makes no other client call than the MongoDB driver's
    [connect] and [db], [DB.disconnect] no other than its [close], and
    [getHealthStatus], [isConnected] and [getConnectionStatus] make none:
    Firebase is only ever asked for the status it already holds. *)
Theorem facade_calls_only_the_driver :
  (forall drv,
     only_calls (is_one_of ["client.connect"; "client.db"]) (DB.connect drv)) /\
  (forall drv, only_calls (is_one_of ["client.close"]) (DB.disconnect drv)) /\
  only_calls (fun _ => false) DB.getHealthStatus /\
  only_calls (fun _ => false) DB.isConnected /\
  only_calls (fun _ => false) DB.getConnectionStatus.
Proof.
  repeat apply conj.
  - intros drv. unfold DB.connect, DB.connect_mongo.
    repeat first
      [ apply only_calls_on_field; mongo_unfold; unfold Firebase.isConnected;
        mongo_only_calls
      | only_calls_step ].
  - intros drv. unfold DB.disconnect, DB.disconnect_mongo.
    repeat first
      [ apply only_calls_on_field; mongo_unfold; mongo_only_calls
      | only_calls_step ].
  - unfold DB.getHealthStatus, DB.isConnected. repeat only_calls_step.
  - unfold DB.isConnected. repeat only_calls_step.
  - unfold DB.getConnectionStatus. repeat only_calls_step.
Qed.

(** ** Construction of the facade *)

(** [drv], except that [new MongoClient] throws [t] (an invalid URI). *)
Definition with_invalid_uri (t : JsThrown) (drv : Driver.t) : Driver.t :=
  Driver.mk (fun _ _ => Throw t)
    (Driver.connect drv) (Driver.close drv) (Driver.db drv) (Driver.collection drv)
    (Driver.insertOne drv) (Driver.insertMany drv) (Driver.find drv) (Driver.sort drv)
    (Driver.skip drv) (Driver.limit drv) (Driver.toArray drv) (Driver.findOne drv)
    (Driver.updateOne drv) (Driver.updateMany drv) (Driver.deleteOne drv)
    (Driver.deleteMany drv) (Driver.countDocuments drv) (Driver.createIndex drv).

(** X13: the facade's constructor builds the MongoDB adapter first, and a
    failure there ends the construction: when [new MongoClient] throws,
    [new DB] throws the same value after logging it, no listener has been
    registered, and the Firebase SDK has not been called nor its app
    registry changed, even when Firebase is configured too. *)
Theorem mongo_failure_stops_construction drv sdk mo fo w0 t :
  Driver.new_MongoClient drv (MongoDBOptions.uri mo) (MongoDB.clientOptions_of mo) =
    Throw t ->
  DB.new drv sdk (DBOptions.mk (Some mo) fo) w0 =
  (mkWorld tt (admin_apps w0)
     (calls w0 ++ [ClientCall "new MongoClient" (MongoDBOptions.uri mo)])
     (logs w0 ++ [(ERR, "Failed to create MongoDB instance:")]),
   Throw t).
Proof.
  intros E. destruct w0 as [[] apps cs ls].
  unfold DB.new, DB.constructor, new_object, MongoDB.constructor, try_catch.
  cbn [DBOptions.mongodb DBOptions.firebase DB.is_some negb andb when].
  unfold bind, ret, modify_this, client_call. cbn. rewrite E. reflexivity.
Qed.

Lemma mongo_failure_stops_construction_witness :
  Driver.new_MongoClient (with_invalid_uri refused healthy_driver)
    (MongoDBOptions.uri sample_mongo_options)
    (MongoDB.clientOptions_of sample_mongo_options) = Throw refused /\
  DB.new (with_invalid_uri refused healthy_driver) sample_sdk
    (DBOptions.mk (Some sample_mongo_options) (Some sample_firebase_options))
    empty_world =
  (mkWorld tt []
     [ClientCall "new MongoClient" "mongodb://localhost:27017"]
     [(ERR, "Failed to create MongoDB instance:")],
   Throw refused).
Proof.
  split; [reflexivity | ].
  exact (mongo_failure_stops_construction (with_invalid_uri refused healthy_driver)
           sample_sdk sample_mongo_options (Some sample_firebase_options)
           empty_world refused eq_refl).
Defined.

Lemma firebase_constructor_only_calls ok sdk options :
  forallb (fun m => ok (ClientCall m ""))
    ["admin.credential.cert"; "admin.initializeApp"; "admin.firestore"] = true ->
  only_calls ok (Firebase.constructor sdk options).
Proof.
  cbn [forallb]. rewrite !andb_true_iff. intros (Hc & Hi & Hf & _).
  unfold Firebase.constructor, Firebase.initializeApp.
  repeat first
    [ now apply only_calls_client_call
    | apply silent_only_calls; reflexivity
    | only_calls_step ].
Qed.

(** X14: constructing the facade opens no connection: whatever is
    configured and whatever the clients answer, the constructor calls
    nothing but [new MongoClient], [client.on] and the three SDK
    initialisation functions; in particular it never calls the driver's
    [connect]. *)
Theorem construction_opens_no_connection drv sdk options :
  only_calls
    (is_one_of ["new MongoClient"; "client.on"; "admin.credential.cert";
                "admin.initializeApp"; "admin.firestore"])
    (DB.constructor drv sdk options).
Proof.
  unfold DB.constructor.
  repeat first
    [ apply only_calls_new_object;
      first [ apply firebase_constructor_only_calls; reflexivity
            | unfold MongoDB.constructor, MongoDB.setupEventListeners ]
    | only_calls_step ].
Qed.

(** ** Batched writes *)






(** ** Lifecycle events and the guard of the CRUD methods *)

(** The events whose listener writes the status. *)
Definition writes_status (ev : Driver.ClientEvent) : bool :=
  match ev with
  | Driver.serverOpening | Driver.serverClosed | Driver.clientError _ => true
  | _ => false
  end.

Lemma crud_guard drv {A} (op : MongoDB.Op A) w :
  MongoDB.is_crud op = true ->
  MongoDB.connected (this w) = false ->
  MongoDB.invoke drv op w =
  (mkWorld (this w) (admin_apps w) (calls w) (logs w ++ [(ERR, op_error_message op)]),
   Return (failed (JsError.mk "Not connected to MongoDB"))).
Proof.
  intros Hc H.
  destruct op; try discriminate Hc; cbn [MongoDB.invoke op_error_message];
    unfold MongoDB.insertOne, MongoDB.insertMany, MongoDB.find, MongoDB.findOne,
      MongoDB.updateOne, MongoDB.updateMany, MongoDB.deleteOne, MongoDB.deleteMany,
      MongoDB.countDocuments, MongoDB.createIndex;
    cbv zeta; apply (mongo_guard_fails _ _ w H).
Qed.

(** X16: a server-opening, server-closed or error event of the client
    takes a connected adapter out of service without clearing its database
    handle.  After the event [isConnected()] is false and every CRUD, count
    and index method fails with 'Not connected to MongoDB' without calling
    the driver, while [getCollection], which only looks at the handle,
    still hands out the driver's collection. *)
Theorem lifecycle_event_blocks_crud drv ev w d {A} (op : MongoDB.Op A) name :
  writes_status ev = true ->
  MongoDB.is_crud op = true ->
  MongoDB.db (this w) = Some d ->
  MongoDB.db (this (fst (MongoDB.on_event ev w))) = Some d /\
  snd (MongoDB.isConnected (fst (MongoDB.on_event ev w))) = Return false /\
  (exists w',
     MongoDB.invoke drv op (fst (MongoDB.on_event ev w)) =
       (w', Return (failed (JsError.mk "Not connected to MongoDB"))) /\
     calls w' = calls w) /\
  snd (MongoDB.getCollection drv name (fst (MongoDB.on_event ev w))) =
    Driver.collection drv d name.
Proof.
  intros Hev Hc Hd. destruct w as [[cl dbo n s ra mx] apps cs ls].
  cbn [this MongoDB.db] in Hd. subst dbo.
  assert (Hnc : MongoDB.connected (this (fst (MongoDB.on_event ev
                  (mkWorld (MongoDB.mk cl (Some d) n s ra mx) apps cs ls)))) = false)
    by (destruct ev; try discriminate Hev; reflexivity).
  repeat split.
  - destruct ev; try discriminate Hev; reflexivity.
  - unfold MongoDB.isConnected, bind, get_this. cbn [snd ret]. now rewrite Hnc.
  - eexists. split; [apply (crud_guard drv op _ Hc Hnc) | ].
    destruct ev; try discriminate Hev; reflexivity.
  - destruct ev; try discriminate Hev; reflexivity.
Qed.

(** A connected adapter whose client then reports an error. *)
Lemma lifecycle_event_blocks_crud_witness :
  (writes_status (Driver.clientError JsNull) = true /\
   MongoDB.is_crud (MongoDB.CountDocuments "users" None) = true /\
   MongoDB.db (this (fst (MongoDB.connect healthy_driver sample_mongo_world))) =
     Some (Driver.mkDb (Some "test"))) /\
  snd (MongoDB.invoke healthy_driver (MongoDB.CountDocuments "users" None)
         (fst (MongoDB.on_event (Driver.clientError JsNull)
                 (fst (MongoDB.connect healthy_driver sample_mongo_world))))) =
    Return (failed (JsError.mk "Not connected to MongoDB")) /\
  snd (MongoDB.getCollection healthy_driver "users"
         (fst (MongoDB.on_event (Driver.clientError JsNull)
                 (fst (MongoDB.connect healthy_driver sample_mongo_world))))) =
    Return (Driver.mkCollection "users" (Driver.mkDb (Some "test"))).
Proof.
  split; [repeat split | ].
  destruct (lifecycle_event_blocks_crud healthy_driver (Driver.clientError JsNull)
              (fst (MongoDB.connect healthy_driver sample_mongo_world))
              (Driver.mkDb (Some "test")) (MongoDB.CountDocuments "users" None) "users"
              eq_refl eq_refl eq_refl) as (_ & _ & (w' & E & _) & Hg).
  split; [now rewrite E | exact Hg].
Defined.

(** ** The shape of the envelopes *)















Section ThrowsOnly.
Context {T : Type}.
Variable Q : JsThrown -> Prop.









End ThrowsOnly.









(** ** The documents of a collection query *)

Lemma try_catch_success {A} (body : M Firebase.t (OperationResult A)) msg w w' r :
  try_catch body (Firebase.catch_with msg) w = (w', Return r) ->
  success r = true ->
  body w = (w', Return r).
Proof.
  unfold try_catch. destruct (body w) as [w1 [a | t]]; [auto | ].
  cbn. intros E Hs. inversion E; subst. discriminate Hs.
Qed.

Lemma client_call_inv {T A} method target (c : Completion A) (w w' : World T) a :
  client_call method target c w = (w', Return a) -> c = Return a.
Proof. unfold client_call. intros E. now inversion E. Qed.

(** [sdk], except that every query returns the snapshots [docs]. *)
Definition with_documents (docs : list Sdk.DocumentSnapshot) (sdk : Sdk.t) : Sdk.t :=
  Sdk.mk (Sdk.cert sdk) (Sdk.initializeApp sdk) (Sdk.firestore sdk) (Sdk.doc sdk)
    (Sdk.get sdk) (Sdk.set sdk) (Sdk.update sdk) (Sdk.delete sdk) (Sdk.collection sdk)
    (Sdk.add sdk) (Sdk.where_ sdk) (Sdk.orderBy sdk) (Sdk.limit sdk)
    (Sdk.startAfter sdk) (fun _ => Return (Sdk.mkQuerySnapshot docs))
    (Sdk.query_onSnapshot sdk) (Sdk.doc_onSnapshot sdk) (Sdk.batch sdk)
    (Sdk.batch_set sdk) (Sdk.batch_update sdk) (Sdk.batch_delete sdk)
    (Sdk.commit sdk) (Sdk.runTransaction sdk).

(** X18: when [getCollection] succeeds, its data is the snapshot that
    [query.get] returned, document by document and in the same order: one
    entry per snapshot document, each made of the document's data and its
    id. *)
Theorem getCollection_returns_the_snapshot sdk path options w w' r :
  Firebase.getCollection sdk path options w = (w', Return r) ->
  success r = true ->
  exists query snapshot,
    Sdk.query_get sdk query = Return snapshot /\
    data r = Some (map Firebase.with_id (Sdk.docs snapshot)) /\
    (forall documents, data r = Some documents ->
       length documents = length (Sdk.docs snapshot)).
Proof.
  unfold Firebase.getCollection. cbv zeta. intros E Hs.
  apply try_catch_success in E; [ | exact Hs].
  apply bind_inv in E as (w1 & [] & _ & E).
  apply bind_inv in E as (w2 & q & _ & E).
  apply bind_inv in E as (w3 & q' & _ & E).
  apply bind_inv in E as (w4 & snapshot & Eget & E).
  apply bind_inv in E as (w5 & [] & _ & E).
  apply client_call_inv in Eget. inversion E; subst.
  exists q', snapshot. split; [exact Eget | split; [reflexivity | ]].
  cbn. intros documents H. inversion H. apply length_map.
Qed.

(** A query over a collection of two documents. *)
Lemma getCollection_returns_the_snapshot_witness :
  exists w' r,
    (Firebase.getCollection
       (with_documents [Sdk.mkSnapshot true "a" [("n", JsNum 1)];
                        Sdk.mkSnapshot true "b" [("n", JsNum 2)]] sample_sdk)
       "users" None sample_firebase_world = (w', Return r) /\
     success r = true) /\
    data r = Some [[("id", JsStr "a"); ("n", JsNum 1)];
                   [("id", JsStr "b"); ("n", JsNum 2)]].
Proof.
  eexists _, _. split; [split; reflexivity | ].
  destruct (getCollection_returns_the_snapshot
              (with_documents [Sdk.mkSnapshot true "a" [("n", JsNum 1)];
                               Sdk.mkSnapshot true "b" [("n", JsNum 2)]] sample_sdk)
              "users" None sample_firebase_world _ _ eq_refl eq_refl)
    as (q & snapshot & Eq & Hd & _).
  cbn in Eq. inversion Eq; subst snapshot. exact Hd.
Defined.
